(** * WhatsApp Flow endpoint: encrypted envelope, availability engine and
      booking state machine

    A shallow embedding of

    - [src/app/api/flows/endpoint/route.ts] (the [POST] and [GET] handlers) and
    - the flow handlers ([getCalendarPickerData], [getAvailableSlots],
      [createBookingEvent], [handleFlowAction], [handleInit],
      [handleDataExchange], [handleBack]),

    followed by the properties the specification states about them.

    Conventions of the embedding.

    - JavaScript values that travel in the decrypted payload are [JSON]
      values; a property that is absent reads as [None] ([undefined]).
      Numbers are integers ([Z]) and stand for doubles where the arithmetic
      of doubles is exact: a number printed by [String] is a [safeInteger],
      and the numbers of a configuration are bounded by [modestConfig] where
      a statement computes with them.  Instants are milliseconds since the
      epoch.
    - A [Date] is an [option Z]: [None] is the Invalid Date, and [timeClip]
      makes it of a time value beyond the range of [Date].
    - Strings are [string]s of bytes.  [trim] strips the white space of
      ASCII and [jsNumber] reads unsigned decimal literals, the forms that
      the handlers build themselves; a statement that rests on either is made
      for [asciiText] names and [plainTime] times, where they are
      [String.prototype.trim] and [Number].
    - An [async] function is a function of the environment (settings,
      clock, external calendar) and of the world it may change (events
      created, keys stored), returning an [Outcome]: a value, a thrown
      exception, or no return at all for the [while] loop that never ends.
    - [date-fns-tz], the Node crypto primitives and [JSON.parse] /
      [JSON.stringify] are libraries outside the repository: they are the
      members of the classes [DateLib] and [CryptoLib], with an executable
      instance of each to run the model on concrete requests. *)

From Stdlib Require Import ZArith List String Ascii Bool Lia.
From Stdlib.Strings Require Import Byte.
From Stdlib Require Import DecimalString.
Import ListNotations.

Local Open Scope list_scope.
Local Open Scope string_scope.
Local Open Scope Z_scope.


(* ================================================================== *)
(** * Part I. Definitions                                              *)
(* ================================================================== *)

(** ** Exceptions and outcomes *)

(** What a [catch (error)] clause can tell apart: an [Error] instance with
    its [message], or any other thrown value with its [String(error)]. *)
Inductive Exn : Type :=
| JsError (message : string)
| JsThrown (text : string).

(** [error instanceof Error ? error.message : fallback] *)
Definition messageOr (fallback : string) (e : Exn) : string :=
  match e with
  | JsError m => m
  | JsThrown _ => fallback
  end.

(** [error instanceof Error ? error.message : String(error)] *)
Definition messageOrString (e : Exn) : string :=
  match e with
  | JsError m => m
  | JsThrown t => t
  end.

Inductive Outcome (A : Type) : Type :=
| Ret (a : A)
| Throw (e : Exn)
| Hang.

Arguments Ret {A} a.
Arguments Throw {A} e.
Arguments Hang {A}.

Definition obind {A B : Type} (o : Outcome A) (k : A -> Outcome B) : Outcome B :=
  match o with
  | Ret a => k a
  | Throw e => Throw e
  | Hang => Hang
  end.

Declare Scope outcome_scope.
Delimit Scope outcome_scope with out.
Notation "x <-- c1 ;; c2" := (obind c1 (fun x => c2))
  (at level 61, c1 at next level, right associativity) : outcome_scope.

(** ** Strings *)

Definition isDigit (c : ascii) : bool :=
  let n := N_of_ascii c in (48 <=? n)%N && (n <=? 57)%N.

Definition digitValue (c : ascii) : Z := Z.of_N (N_of_ascii c) - 48.

Fixpoint digitsValue (acc : Z) (s : string) : option Z :=
  match s with
  | EmptyString => Some acc
  | String c rest =>
      if isDigit c then digitsValue (10 * acc + digitValue c) rest else None
  end.

(** [Number(s)] on the texts the handlers feed it: an unsigned decimal
    literal is its value, the empty text is [0], anything else is [NaN]
    ([None]).  White space around the digits, a sign, a fraction, an exponent
    and a radix prefix, which [Number] also reads, are outside the model:
    see [plainTime]. *)
Definition jsNumber (s : string) : option Z := digitsValue 0 s.

(** One to nine decimal digits: a text that [Number] and [jsNumber] read
    alike, as a number small enough for exact arithmetic. *)
Definition shortDigits (s : string) : bool :=
  negb (String.length s =? 0)%nat && (String.length s <=? 9)%nat
  && forallb isDigit (list_ascii_of_string s).


(** [x || 0] for a number [x]: [NaN] and [0] are falsy. *)
Definition orZero (x : option Z) : Z :=
  match x with
  | Some n => n
  | None => 0
  end.

(** [String(n)] for a safe integer; beyond 2^53 [String] rounds the digits
    and from 1e21 on it writes an exponent, which the model does not. *)
Definition jsStringOfZ (n : Z) : string := NilZero.string_of_int (Z.to_int n).

Fixpoint repeatString (n : nat) (fill : string) : string :=
  match n with
  | O => EmptyString
  | S k => fill ++ repeatString k fill
  end.

(** [s.padStart(width, fill)] for a one-character [fill]. *)
Definition padStart (width : nat) (fill : string) (s : string) : string :=
  repeatString (width - String.length s) fill ++ s.

(** [s.split(sep)] for a one-character separator. *)
Fixpoint split (sep : ascii) (s : string) : list string :=
  match s with
  | EmptyString => [EmptyString]
  | String c rest =>
      if Ascii.eqb c sep then EmptyString :: split sep rest
      else match split sep rest with
           | [] => [String c EmptyString]
           | h :: t => String c h :: t
           end
  end.

(** A time of day as the settings store it, [H:mm] or [HH:mm] (more digits
    and further parts allowed): the texts on which [Number] is [jsNumber]. *)
Definition plainTime (text : string) : bool :=
  match split ":" text with
  | hh :: mm :: _ => shortDigits hh && shortDigits mm
  | _ => false
  end.

(** [hay.includes(needle)] *)
Fixpoint includes (needle hay : string) : bool :=
  if String.prefix needle hay then true
  else match hay with
       | EmptyString => false
       | String _ rest => includes needle rest
       end.

(** The white space of ASCII.  [trim] of JavaScript also strips the white
    space beyond ASCII (U+00A0, U+FEFF, U+2028 and the like): see
    [asciiText]. *)
Definition isWhite (c : ascii) : bool :=
  let n := N_of_ascii c in
  ((9 <=? n)%N && (n <=? 13)%N) || (n =? 32)%N.

Fixpoint trimStart (s : string) : string :=
  match s with
  | EmptyString => EmptyString
  | String c rest => if isWhite c then trimStart rest else s
  end.

Fixpoint trimEnd (s : string) : string :=
  match s with
  | EmptyString => EmptyString
  | String c rest =>
      match trimEnd rest with
      | EmptyString => if isWhite c then EmptyString else String c EmptyString
      | r => String c r
      end
  end.

(** [s.trim()] for a text of ASCII. *)
Definition trim (s : string) : string := trimEnd (trimStart s).


(** [parts.join(sep)] *)
Fixpoint join (sep : string) (parts : list string) : string :=
  match parts with
  | [] => EmptyString
  | [p] => p
  | p :: rest => p ++ sep ++ join sep rest
  end.

Definition isEmptyString (s : string) : bool :=
  match s with
  | EmptyString => true
  | String _ _ => false
  end.

(** ** JSON values and JavaScript objects *)

#[warnings="-register-all"]
Inductive JSON : Type :=
| JNull
| JBool (b : bool)
| JNum (n : Z)
| JStr (s : string)
| JArr (items : list JSON)
| JObj (fields : list (string * JSON)).

(** An object literal keeps its keys in insertion order. *)
Definition Object : Type := list (string * JSON).

Fixpoint objGet (key : string) (o : Object) : option JSON :=
  match o with
  | [] => None
  | (k, v) :: rest => if String.eqb k key then Some v else objGet key rest
  end.

(** Assignment of one key: an existing key keeps its place and takes the
    new value, a new key goes last. *)
Fixpoint objSet (key : string) (v : JSON) (o : Object) : Object :=
  match o with
  | [] => [(key, v)]
  | (k, w) :: rest =>
      if String.eqb k key then (k, v) :: rest else (k, w) :: objSet key v rest
  end.

(** [{ ...base, k1: v1, k2: v2, ... }] *)
Definition objExtend (base : Object) (more : Object) : Object :=
  fold_left (fun acc kv => objSet (fst kv) (snd kv) acc) more base.

(** A property whose value is [undefined] is not serialised. *)
Definition field (key : string) (v : option JSON) : Object :=
  match v with
  | Some x => [(key, x)]
  | None => []
  end.

(** [value.key] for the keys the handlers read (none is an array index or
    a string method). *)
Definition jsGet (value : JSON) (key : string) : option JSON :=
  match value with
  | JObj fields => objGet key fields
  | _ => None
  end.

(** [key in value] once [typeof value === 'object'] and [value] is truthy. *)
Definition jsHasKey (value : JSON) (key : string) : bool :=
  match value with
  | JObj fields => match objGet key fields with Some _ => true | None => false end
  | _ => false
  end.

(** Truthiness of a value that may be [undefined]. *)
Definition truthy (v : option JSON) : bool :=
  match v with
  | None => false
  | Some JNull => false
  | Some (JBool b) => b
  | Some (JNum n) => negb (n =? 0)
  | Some (JStr s) => negb (isEmptyString s)
  | Some (JArr _) => true
  | Some (JObj _) => true
  end.

(** [String(v)], as a template literal applies it. *)
Fixpoint jsToString (v : JSON) : string :=
  match v with
  | JNull => "null"
  | JBool true => "true"
  | JBool false => "false"
  | JNum n => jsStringOfZ n
  | JStr s => s
  | JArr items =>
      join "," (map (fun x => match x with
                               | JNull => EmptyString
                               | _ => jsToString x
                               end) items)
  | JObj _ => "[object Object]"
  end.

Definition jsToStringOpt (v : option JSON) : string :=
  match v with
  | Some x => jsToString x
  | None => "undefined"
  end.



Fixpoint indexed (i : nat) (items : list JSON) : Object :=
  match items with
  | [] => []
  | x :: rest => (jsStringOfZ (Z.of_nat i), x) :: indexed (S i) rest
  end.

Fixpoint chars (s : string) : list JSON :=
  match s with
  | EmptyString => []
  | String c rest => JStr (String c EmptyString) :: chars rest
  end.

(** The own enumerable properties that [{ ...value }] copies. *)
Definition spread (value : JSON) : Object :=
  match value with
  | JObj fields => fields
  | JArr items => indexed 0 items
  | JStr s => indexed 0 (chars s)
  | _ => []
  end.

(** [v || fallback] *)
Definition orElse (v : option JSON) (fallback : JSON) : JSON :=
  match v with
  | Some x => if truthy v then x else fallback
  | None => fallback
  end.

(** ** Dates *)

(** A [Date] object: its time value, or the Invalid Date. *)
Definition JsDate : Type := option Z.

(** The range of [Date]: 100,000,000 days either way of the epoch. *)
Definition maxTime : Z := 8640000000000000.

Definition inDateRange (t : Z) : bool := Z.abs t <=? maxTime.

(** [TimeClip(t)], which [new Date(t)] and [Date.UTC] apply: a time value
    outside the range is [NaN]. *)
Definition timeClip (t : Z) : JsDate :=
  if inDateRange t then Some t else None.

(** Days since 1970-01-01 of a date of the proleptic Gregorian calendar. *)
Definition days_from_civil (y m d : Z) : Z :=
  let y' := if m <=? 2 then y - 1 else y in
  let era := y' / 400 in
  let yoe := y' - era * 400 in
  let mp := (m + 9) mod 12 in
  let doy := (153 * mp + 2) / 5 + d - 1 in
  let doe := yoe * 365 + yoe / 4 - yoe / 100 + doy in
  era * 146097 + doe - 719468.

(** The inverse: year, month and day of a day number. *)
Definition civil_from_days (z : Z) : Z * Z * Z :=
  let z' := z + 719468 in
  let era := z' / 146097 in
  let doe := z' - era * 146097 in
  let yoe := (doe - doe / 1460 + doe / 36524 - doe / 146096) / 365 in
  let doy := doe - (365 * yoe + yoe / 4 - yoe / 100) in
  let mp := (5 * doy + 2) / 153 in
  let d := doy - (153 * mp + 2) / 5 + 1 in
  let m := if mp <? 10 then mp + 3 else mp - 9 in
  let y := yoe + era * 400 in
  (if m <=? 2 then y + 1 else y, m, d).

Definition isLeapYear (y : Z) : bool :=
  ((y mod 4 =? 0) && negb (y mod 100 =? 0)) || (y mod 400 =? 0).

Definition daysInMonth (y m : Z) : Z :=
  if m =? 2 then (if isLeapYear y then 29 else 28)
  else if (m =? 4) || (m =? 6) || (m =? 9) || (m =? 11) then 30
  else 31.

Definition validCivil (y m d : Z) : bool :=
  (1 <=? m) && (m <=? 12) && (1 <=? d) && (d <=? daysInMonth y m).

Definition msPerDay : Z := 86400000.

(** [MakeDay(year, month, date)] of ECMA-262, [month] counted from 0. *)
Definition MakeDay (year month date : Z) : Z :=
  days_from_civil (year + month / 12) (month mod 12 + 1) 1 + date - 1.

(** [Date.UTC(year, month, date, hours, 0, 0)]; a year from 0 to 99 stands
    for 1900 + year. *)
Definition DateUTC (year month date hours : Z) : Z :=
  let yr := if (0 <=? year) && (year <=? 99) then 1900 + year else year in
  MakeDay yr month date * msPerDay + hours * 3600000.

Definition pad2 (n : Z) : string := padStart 2 "0" (jsStringOfZ n).

Definition pad3 (n : Z) : string := padStart 3 "0" (jsStringOfZ n).

(** The year of an ISO text: four digits from 0 to 9999, otherwise a sign
    and six digits. *)
Definition isoYear (y : Z) : string :=
  if (0 <=? y) && (y <=? 9999) then padStart 4 "0" (jsStringOfZ y)
  else (if y <? 0 then "-" else "+") ++ padStart 6 "0" (jsStringOfZ (Z.abs y)).

(** [yyyy-MM-dd] *)
Definition isoDateText (y m d : Z) : string :=
  isoYear y ++ "-" ++ pad2 m ++ "-" ++ pad2 d.

Definition isoDateOfDay (day : Z) : string :=
  let '(y, m, d) := civil_from_days day in isoDateText y m d.

(** The part of [toISOString()] before the ['T']. *)
Definition isoDatePart (t : Z) : string := isoDateOfDay (t / msPerDay).

(** The part of [toISOString()] after the ['T']. *)
Definition isoTimePart (t : Z) : string :=
  let ms := t mod msPerDay in
  pad2 (ms / 3600000) ++ ":" ++ pad2 (ms / 60000 mod 60) ++ ":"
  ++ pad2 (ms / 1000 mod 60) ++ "." ++ pad3 (ms mod 1000) ++ "Z".

Definition isoString (t : Z) : string := isoDatePart t ++ "T" ++ isoTimePart t.

Definition invalidTime : Exn := JsError "Invalid time value".

(** [date.toISOString()] throws a [RangeError] on the Invalid Date. *)
Definition toISOString (date : JsDate) : Outcome string :=
  match date with
  | Some t => Ret (isoString t)
  | None => Throw invalidTime
  end.

(** [date.toISOString().split('T')[0]] *)
Definition toISODate (date : JsDate) : Outcome string :=
  match date with
  | Some t => Ret (isoDatePart t)
  | None => Throw invalidTime
  end.

(** [date.getUTCDay()]: 0 is Sunday; day 0 of the epoch was a Thursday. *)
Definition getUTCDay (t : Z) : Z := (t / msPerDay + 4) mod 7.

(** [new Date(date.getTime() + ms)] *)
Definition plusMs (date : JsDate) (ms : Z) : JsDate :=
  match date with
  | Some t => timeClip (t + ms)
  | None => None
  end.

(** [a <= b] on time values, false when one of them is [NaN]. *)
Definition timeLe (a b : JsDate) : bool :=
  match a, b with
  | Some x, Some y => x <=? y
  | _, _ => false
  end.


(** [new Date(value)] for a value of the payload; [dateParse] reads a text. *)
Definition newDateWith (dateParse : string -> JsDate) (v : option JSON) : JsDate :=
  match v with
  | None => None
  | Some JNull => Some 0
  | Some (JBool b) => Some (if b then 1 else 0)
  | Some (JNum n) => timeClip n
  | Some (JStr s) => dateParse s
  | Some x => dateParse (jsToString x)
  end.

(** ** The date library

    [fromZonedTime(text, zone)] and [formatInTimeZone(date, zone, pattern)]
    of date-fns-tz, and [Date.parse]. *)
Class DateLib : Type := {
  fromZonedTime : string -> string -> JsDate;
  formatInTimeZone : JsDate -> string -> string -> Outcome string;
  dateParse : string -> JsDate
}.

Definition newDate {L : DateLib} (v : option JSON) : JsDate :=
  newDateWith dateParse v.

(** ** Types of the handlers *)

Inductive Weekday : Type := mon | tue | wed | thu | fri | sat | sun.

Definition Weekday_eqb (a b : Weekday) : bool :=
  match a, b with
  | mon, mon | tue, tue | wed, wed | thu, thu | fri, fri | sat, sat | sun, sun => true
  | _, _ => false
  end.

Record Period : Type := {
  period_start : string;
  period_end : string
}.

Record WorkingHoursDay : Type := {
  day : Weekday;
  enabled : bool;
  wh_start : string;
  wh_end : string;
  wh_slots : list Period   (* [slots?]: absent reads as empty *)
}.

Record CalendarBookingConfig : Type := {
  timezone : string;
  slotDurationMinutes : Z;
  slotBufferMinutes : Z;
  workingHours : list WorkingHoursDay;
  minAdvanceHours : option Z;
  maxAdvanceDays : option Z;
  allowSimultaneous : option bool
}.

Record ServiceType : Type := {
  service_id : string;
  service_title : string;
  durationMinutes : option Z
}.

Definition WEEKDAY_KEYS : list Weekday := [mon; tue; wed; thu; fri; sat; sun].

Definition WEEKDAY_LABELS (d : Weekday) : string :=
  match d with
  | mon => "Mon" | tue => "Tue" | wed => "Wed" | thu => "Thu"
  | fri => "Fri" | sat => "Sat" | sun => "Sun"
  end.

Definition DEFAULT_SERVICES : list ServiceType :=
  [ {| service_id := "consulta"; service_title := "Consulta"; durationMinutes := Some 30 |};
    {| service_id := "visita"; service_title := "Visita"; durationMinutes := Some 60 |};
    {| service_id := "suporte"; service_title := "Suporte"; durationMinutes := Some 30 |} ].

Definition workday (d : Weekday) (on : bool) (s e : string) : WorkingHoursDay :=
  {| day := d; enabled := on; wh_start := s; wh_end := e; wh_slots := [] |}.

Definition DEFAULT_CONFIG : CalendarBookingConfig :=
  {| timezone := "America/Sao_Paulo";
     slotDurationMinutes := 30;
     slotBufferMinutes := 10;
     workingHours :=
       [ workday mon true "09:00" "18:00";
         workday tue true "09:00" "18:00";
         workday wed true "09:00" "18:00";
         workday thu true "09:00" "18:00";
         workday fri true "09:00" "18:00";
         workday sat false "09:00" "13:00";
         workday sun false "09:00" "13:00" ];
     minAdvanceHours := Some 4;
     maxAdvanceDays := Some 14;
     allowSimultaneous := Some false |}.

Definition WEEKDAY_FULL_LABELS (d : Weekday) : string :=
  match d with
  | mon => "Segunda" | tue => "Terca" | wed => "Quarta" | thu => "Quinta"
  | fri => "Sexta" | sat => "Sabado" | sun => "Domingo"
  end.

Record CalendarPickerData : Type := {
  minDate : string;
  maxDate : string;
  includeDays : list string;
  unavailableDates : list string
}.

(** One entry of the list a slot listing returns. *)
Record Slot : Type := {
  slot_id : string;
  slot_title : string
}.

(** ** The environment of a request and the world it changes *)

(** The keys of [calendar_booking_config] as [JSON.parse] found them; a key
    that is absent leaves the default in place. *)
Record ConfigPatch : Type := {
  patch_timezone : option string;
  patch_slotDurationMinutes : option Z;
  patch_slotBufferMinutes : option Z;
  patch_workingHours : option (list WorkingHoursDay);
  patch_minAdvanceHours : option (option Z);
  patch_maxAdvanceDays : option (option Z);
  patch_allowSimultaneous : option (option bool)
}.

(** The stored setting: a text that [JSON.parse] rejects, or its keys. *)
Inductive StoredConfig : Type :=
| Unparseable
| Parsed (patch : ConfigPatch).

Record GoogleCalendarConfig : Type := {
  calendarId : option string
}.

(** One busy range of the calendar, its ends read by
    [new Date(item.start).getTime()] and [new Date(item.end).getTime()]. *)
Record BusyItem : Type := {
  busy_start : Z;
  busy_end : Z
}.

Record BusyQuery : Type := {
  query_calendarId : string;
  timeMin : string;
  timeMax : string;
  query_timeZone : string
}.

Record CalendarEvent : Type := {
  summary : string;
  description : string;
  start_dateTime : string;
  start_timeZone : string;
  end_dateTime : string;
  end_timeZone : string
}.

Record CreatedEvent : Type := {
  event_id : option string;
  htmlLink : option string
}.

Record Credentials : Type := {
  accessToken : option string;
  phoneNumberId : option string
}.

Record KeyPair : Type := {
  publicKey : string;
  privateKey : string
}.

Record Env : Type := {
  (** [new Date().getTime()] *)
  clock : Z;
  isSupabaseConfigured : bool;
  (** [settingsDb.get('calendar_booking_config')] *)
  bookingConfigSetting : option StoredConfig;
  getCalendarConfig : Outcome (option GoogleCalendarConfig);
  listBusyTimes : BusyQuery -> Outcome (list BusyItem);
  createEvent : string -> CalendarEvent -> Outcome CreatedEvent;
  generateKeyPair : KeyPair;
  getWhatsAppCredentials : Outcome (option Credentials);
  metaSetEncryptionPublicKey : string -> string -> string -> Outcome unit
}.

Record World : Type := {
  (** events handed to [createEvent], oldest first *)
  calendarEvents : list (string * CalendarEvent);
  (** [settingsDb] at [whatsapp_flow_private_key] and [whatsapp_flow_public_key] *)
  privateKeySetting : option string;
  publicKeySetting : option string
}.

(** An [async] function of the handlers. *)
Definition M (A : Type) : Type := Env -> World -> Outcome A * World.

Definition ret {A : Type} (a : A) : M A := fun _ w => (Ret a, w).

Definition bind {A B : Type} (m : M A) (k : A -> M B) : M B :=
  fun env w =>
    match m env w with
    | (Ret a, w') => k a env w'
    | (Throw e, w') => (Throw e, w')
    | (Hang, w') => (Hang, w')
    end.

Definition throw {A : Type} (e : Exn) : M A := fun _ w => (Throw e, w).

Definition lift {A : Type} (o : Outcome A) : M A := fun _ w => (o, w).

Definition asks {A : Type} (f : Env -> A) : M A := fun env w => (Ret (f env), w).

Definition gets {A : Type} (f : World -> A) : M A := fun _ w => (Ret (f w), w).

Definition modify (f : World -> World) : M unit := fun _ w => (Ret tt, f w).

(** [try { body } catch (error) { handler(error) }] *)
Definition tryCatch {A : Type} (body : M A) (handler : Exn -> M A) : M A :=
  fun env w =>
    match body env w with
    | (Throw e, w') => handler e env w'
    | r => r
    end.

Declare Scope m_scope.
Delimit Scope m_scope with M.
Notation "x <- c1 ;; c2" := (bind c1 (fun x => c2))
  (at level 61, c1 at next level, right associativity) : m_scope.
Notation "c1 ;;; c2" := (bind c1 (fun _ => c2))
  (at level 61, right associativity) : m_scope.

(** ** Response builders *)

(** Modelled from the spec: [createSuccessResponse] lives in
    flow-endpoint-crypto, which is not among the sources.  Section 6: a
    response that continues the flow has the shape [{screen, data}]. *)
Definition createSuccessResponse (screen : string) (data : Object) : JSON :=
  JObj [("screen", JStr screen); ("data", JObj data)].

(** Modelled from the spec: [createCloseResponse] lives in
    flow-endpoint-crypto.  Section 6: the terminal payload is [{data: {...}}]
    with no further screen. *)
Definition createCloseResponse (data : Object) : JSON :=
  JObj [("data", JObj data)].

(** Modelled from the spec: [createErrorResponse] lives in
    flow-endpoint-crypto.  Sections 4.3 and 7: a structured error response
    carries an error flag and a message, and names no screen to move to. *)
Definition createErrorResponse (errorMessage : string) : JSON :=
  JObj [("data", JObj [("error", JBool true); ("error_message", JStr errorMessage)])].

(** The screen a response sends the client to, if it names one. *)
Definition responseScreen (response : JSON) : option JSON := jsGet response "screen".

(** A key of the [data] of a response. *)
Definition responseData (response : JSON) (key : string) : option JSON :=
  match jsGet response "data" with
  | Some d => jsGet d key
  | None => None
  end.

(** ** Helpers of the handlers *)

Definition mergeConfig (base : CalendarBookingConfig) (patch : ConfigPatch)
  : CalendarBookingConfig :=
  let pick {A : Type} (o : option A) (d : A) : A :=
    match o with Some x => x | None => d end in
  {| timezone := pick (patch_timezone patch) (timezone base);
     slotDurationMinutes := pick (patch_slotDurationMinutes patch) (slotDurationMinutes base);
     slotBufferMinutes := pick (patch_slotBufferMinutes patch) (slotBufferMinutes base);
     workingHours := pick (patch_workingHours patch) (workingHours base);
     minAdvanceHours := pick (patch_minAdvanceHours patch) (minAdvanceHours base);
     maxAdvanceDays := pick (patch_maxAdvanceDays patch) (maxAdvanceDays base);
     allowSimultaneous := pick (patch_allowSimultaneous patch) (allowSimultaneous base) |}.

Definition readBookingConfig (env : Env) : CalendarBookingConfig :=
  if negb (isSupabaseConfigured env) then DEFAULT_CONFIG
  else match bookingConfigSetting env with
       | None => DEFAULT_CONFIG
       | Some Unparseable => DEFAULT_CONFIG
       | Some (Parsed patch) => mergeConfig DEFAULT_CONFIG patch
       end.

Definition getCalendarBookingConfig : M CalendarBookingConfig :=
  asks readBookingConfig.

(** [array[index]] for a numeric index; [undefined] outside the array. *)
Definition atIndex {A : Type} (l : list A) (index : option Z) : option A :=
  match index with
  | Some i => if i <? 0 then None else nth_error l (Z.to_nat i)
  | None => None
  end.

(** [workingHours.find((d) => d.day === dayKey)] *)
Definition findDay (hours : list WorkingHoursDay) (dayKey : option Weekday)
  : option WorkingHoursDay :=
  match dayKey with
  | Some k => find (fun d => Weekday_eqb (day d) k) hours
  | None => None
  end.

(** [workingDay?.enabled] read as a condition *)
Definition dayEnabled (workingDay : option WorkingHoursDay) : bool :=
  match workingDay with
  | Some d => enabled d
  | None => false
  end.

Section WithDateLib.

Context {L : DateLib}.

Definition getWeekdayKey (date : JsDate) (timeZone : string) : Outcome (option Weekday) :=
  (text <-- formatInTimeZone date timeZone "i" ;;
   let isoDay := jsNumber text in
   Ret (atIndex WEEKDAY_KEYS (option_map (fun n => n - 1) isoDay)))%out.


Definition parseTimeToMinutes (value : string) : Z :=
  let parts := map jsNumber (split ":" value) in
  let hh := match nth_error parts 0 with Some x => x | None => None end in
  let mm := match nth_error parts 1 with Some x => x | None => None end in
  orZero hh * 60 + orZero mm.

(** [WEEKDAY_FULL_LABELS[dayKey]] in a template literal *)
Definition fullLabel (dayKey : option Weekday) : string :=
  match dayKey with
  | Some k => WEEKDAY_FULL_LABELS k
  | None => "undefined"
  end.

Definition getWeekdayLabel (date : JsDate) (timeZone : string) : Outcome string :=
  (dayKey <-- getWeekdayKey date timeZone ;; Ret (fullLabel dayKey))%out.

Definition formatDateLabel (dateStr timeZone : string) : Outcome string :=
  (let date := fromZonedTime (dateStr ++ "T00:00:00") timeZone in
   dayLabel <-- getWeekdayLabel date timeZone ;;
   text <-- formatInTimeZone date timeZone "dd/MM/yyyy" ;;
   Ret (text ++ " (" ++ dayLabel ++ ")"))%out.

Definition formatDateChip (dateStr timeZone : string) : Outcome string :=
  (let date := fromZonedTime (dateStr ++ "T00:00:00") timeZone in
   dayLabel <-- getWeekdayLabel date timeZone ;;
   text <-- formatInTimeZone date timeZone "dd/MM" ;;
   Ret (dayLabel ++ " - " ++ text))%out.

(** *** [getCalendarPickerData] *)

(** [new Date(Date.UTC(year, month - 1, day + offset, 12, 0, 0))] *)
Definition utcNoon (year month dayOfMonth : option Z) (offset : Z) : JsDate :=
  match year, month, dayOfMonth with
  | Some y, Some m, Some d => timeClip (DateUTC y (m - 1) (d + offset) 12)
  | _, _, _ => None
  end.

(** The weekday key of a UTC date, Sunday being day 7. *)
Definition utcDayKey (utcDate : JsDate) : option Weekday :=
  match utcDate with
  | Some t =>
      let jsDay := getUTCDay t in
      let isoDay := if jsDay =? 0 then 7 else jsDay in
      atIndex WEEKDAY_KEYS (Some (isoDay - 1))
  | None => None
  end.

(** The offsets [0, 1, ..., last] a [for] loop runs through. *)
Definition offsetsUpTo (last : Z) : list Z :=
  map Z.of_nat (seq 0 (Z.to_nat (last + 1))).

(** The body of the [for] loop over the offsets, [unavailableDates] threaded. *)
Fixpoint unavailableLoop (hours : list WorkingHoursDay) (year month dayOfMonth : option Z)
  (offsets : list Z) (unavailable : list string) : Outcome (list string) :=
  match offsets with
  | [] => Ret unavailable
  | dayOffset :: rest =>
      (let utcDate := utcNoon year month dayOfMonth dayOffset in
       dateStr <-- toISODate utcDate ;;
       let workingDay := findDay hours (utcDayKey utcDate) in
       unavailableLoop hours year month dayOfMonth rest
         (if negb (dayEnabled workingDay) then unavailable ++ [dateStr]
          else unavailable))%out
  end.

Definition getCalendarPickerData : M CalendarPickerData :=
  (config <- getCalendarBookingConfig ;;
   let timeZone := timezone config in
   let maxAdvance := match maxAdvanceDays config with Some n => n | None => 14 end in
   now <- asks clock ;;
   todayStr <- lift (formatInTimeZone (Some now) timeZone "yyyy-MM-dd") ;;
   let parts := map jsNumber (split "-" todayStr) in
   let year := match nth_error parts 0 with Some x => x | None => None end in
   let month := match nth_error parts 1 with Some x => x | None => None end in
   let dayOfMonth := match nth_error parts 2 with Some x => x | None => None end in
   maxDateStr <- lift (toISODate (utcNoon year month dayOfMonth maxAdvance)) ;;
   let include := map (fun d => WEEKDAY_LABELS (day d))
                      (filter enabled (workingHours config)) in
   unavailable <- lift (unavailableLoop (workingHours config) year month dayOfMonth
                          (offsetsUpTo maxAdvance) []) ;;
   ret {| minDate := todayStr;
          maxDate := maxDateStr;
          includeDays := include;
          unavailableDates := unavailable |})%M.

(** *** [getAvailableSlots] *)

Definition notConnected : Exn := JsError "Google Calendar nao conectado".

(** [calendarConfig?.calendarId] when it is truthy *)
Definition connectedCalendar (calendarConfig : option GoogleCalendarConfig)
  : option string :=
  match calendarConfig with
  | Some c =>
      match calendarId c with
      | Some id => if isEmptyString id then None else Some id
      | None => None
      end
  | None => None
  end.

(** A busy range widened by the buffer on both ends. *)
Record BusyWindow : Type := {
  startMs : Z;
  endMs : Z
}.

Definition expandBusy (bufferMs : Z) (item : BusyItem) : BusyWindow :=
  {| startMs := busy_start item - bufferMs;
     endMs := busy_end item + bufferMs |}.

(** [busy.some((b) => slotStartMs < b.endMs && slotEndMs > b.startMs)];
    a comparison with [NaN] is false. *)
Definition hasConflict (busy : list BusyWindow) (slotStartMs slotEndMs : JsDate) : bool :=
  match slotStartMs, slotEndMs with
  | Some s, Some e => existsb (fun b => (s <? endMs b) && (e >? startMs b)) busy
  | _, _ => false
  end.

Definition timeText (currentMinutes : Z) : string :=
  let hours := currentMinutes / 60 in
  let mins := Z.rem currentMinutes 60 in
  pad2 hours ++ ":" ++ pad2 mins.

Section SlotLoop.

Variables (dateStr timeZone : string) (slotDuration : Z)
  (minAllowedTime : JsDate) (busy : list BusyWindow).

Definition slotStartAt (currentMinutes : Z) : JsDate :=
  fromZonedTime (dateStr ++ "T" ++ timeText currentMinutes ++ ":00") timeZone.

(** One turn of the [while] loop: the slot pushed, or none when the turn
    skips the candidate. *)
Definition considerSlot (currentMinutes : Z) : Outcome (option Slot) :=
  let timeStr := timeText currentMinutes in
  let slotStart := slotStartAt currentMinutes in
  let slotEnd := plusMs slotStart (slotDuration * 60 * 1000) in
  if timeLe slotStart minAllowedTime then Ret None
  else if hasConflict busy slotStart slotEnd then Ret None
  else (id <-- toISOString slotStart ;;
        Ret (Some {| slot_id := id; slot_title := timeStr |}))%out.

(** The [while (currentMinutes + slotDuration <= workEnd)] loop; [fuel]
    bounds its turns. *)
Fixpoint periodLoop (fuel : nat) (workEnd currentMinutes : Z) (slots : list Slot)
  : Outcome (list Slot) :=
  match fuel with
  | O => Hang
  | S fuel' =>
      if currentMinutes + slotDuration <=? workEnd then
        (pushed <-- considerSlot currentMinutes ;;
         periodLoop fuel' workEnd (currentMinutes + slotDuration)
           (match pushed with
            | Some s => slots ++ [s]
            | None => slots
            end))%out
      else Ret slots
  end.

(** Turns that suffice.  With a positive [slotDuration] each turn moves
    [currentMinutes] forward by at least one minute, up to [workEnd].  With
    a [slotDuration] of zero the minutes stay where they are, and a loop that
    made one turn makes them all.  With a negative one the minutes fall below
    zero within [workStart / -slotDuration] turns and one more, where the
    library has no time of day to resolve and the turn throws. *)
Definition loopFuel (workStart workEnd : Z) : nat :=
  if 0 <? slotDuration then S (Z.to_nat (workEnd - workStart))
  else S (S (Z.to_nat (workStart / - slotDuration))).

(** The [for (const period of workPeriods)] loop. *)
Fixpoint periodsLoop (workPeriods : list Period) (slots : list Slot)
  : Outcome (list Slot) :=
  match workPeriods with
  | [] => Ret slots
  | period :: rest =>
      (let workStart := parseTimeToMinutes (period_start period) in
       let workEnd := parseTimeToMinutes (period_end period) in
       slots' <-- periodLoop (loopFuel workStart workEnd) workEnd workStart slots ;;
       periodsLoop rest slots')%out
  end.

End SlotLoop.

Definition workPeriodsOf (workingDay : WorkingHoursDay) : list Period :=
  match wh_slots workingDay with
  | [] => [ {| period_start := wh_start workingDay; period_end := wh_end workingDay |} ]
  | periods => periods
  end.

Definition getAvailableSlots (dateStr : string) : M (list Slot) :=
  (config <- getCalendarBookingConfig ;;
   calendarConfig <- (fun env => lift (getCalendarConfig env) env) ;;
   match connectedCalendar calendarConfig with
   | None => throw notConnected
   | Some calendar =>
       let timeZone := timezone config in
       let slotDuration := slotDurationMinutes config in
       let bufferMinutes := slotBufferMinutes config in
       let minAdvance := match minAdvanceHours config with Some h => h | None => 0 end in
       let dayStart := fromZonedTime (dateStr ++ "T00:00:00") timeZone in
       let dayEnd := fromZonedTime (dateStr ++ "T23:59:59") timeZone in
       now <- asks clock ;;
       let minAllowedTime := timeClip (now + minAdvance * 60 * 60 * 1000) in
       from <- lift (toISOString dayStart) ;;
       to <- lift (toISOString dayEnd) ;;
       busyItems <- (fun env => lift (listBusyTimes env
                       {| query_calendarId := calendar; timeMin := from;
                          timeMax := to; query_timeZone := timeZone |}) env) ;;
       let bufferMs := bufferMinutes * 60 * 1000 in
       let busy := map (expandBusy bufferMs) busyItems in
       dayKey <- lift (getWeekdayKey dayStart timeZone) ;;
       match findDay (workingHours config) dayKey with
       | None => ret []
       | Some workingDay =>
           if negb (enabled workingDay) then ret []
           else lift (periodsLoop dateStr timeZone slotDuration minAllowedTime busy
                        (workPeriodsOf workingDay) [])
       end
   end)%M.

(** *** [createBookingEvent] *)

Record BookingParams : Type := {
  slotIso : option JSON;
  service : option JSON;
  customerName : string;
  customerPhone : JSON;
  notes : option JSON
}.

Record BookingResult : Type := {
  eventId : string;
  eventLink : option string
}.

Definition newline : string := String (ascii_of_nat 10) EmptyString.

(** [DEFAULT_SERVICES.find((s) => s.id === id)?.title || id] *)
Definition serviceNameOf (id : option JSON) : option JSON :=
  let serviceInfo :=
    match id with
    | Some (JStr s) => find (fun x => String.eqb (service_id x) s) DEFAULT_SERVICES
    | _ => None
    end in
  match serviceInfo with
  | Some info => if isEmptyString (service_title info) then id
                 else Some (JStr (service_title info))
  | None => id
  end.

(** [[...].filter(Boolean).join('\n')] of the description lines *)
Definition describeBooking (params : BookingParams) : string :=
  let lines :=
    [ Some ("Cliente: " ++ customerName params);
      Some ("Telefone: " ++ jsToString (customerPhone params));
      (if truthy (notes params)
       then Some ("Observacoes: " ++ jsToStringOpt (notes params))
       else None);
      Some EmptyString;
      Some "Agendado via WhatsApp (SmartZap)" ] in
  let kept := flat_map (fun l => match l with
                                 | Some s => if isEmptyString s then [] else [s]
                                 | None => []
                                 end) lines in
  join newline kept.

(** The call of the external [createEvent], recorded in the world. *)
Definition callCreateEvent (calendar : string) (event : CalendarEvent) : M CreatedEvent :=
  (modify (fun w => {| calendarEvents := calendarEvents w ++ [(calendar, event)];
                       privateKeySetting := privateKeySetting w;
                       publicKeySetting := publicKeySetting w |}) ;;;
   fun env => lift (createEvent env calendar event) env)%M.

Definition createBookingEvent (params : BookingParams) : M BookingResult :=
  (config <- getCalendarBookingConfig ;;
   calendarConfig <- (fun env => lift (getCalendarConfig env) env) ;;
   match connectedCalendar calendarConfig with
   | None => throw notConnected
   | Some calendar =>
       let slotStart := newDate (slotIso params) in
       let slotEnd := plusMs slotStart (slotDurationMinutes config * 60 * 1000) in
       let serviceName := serviceNameOf (service params) in
       let eventSummary := jsToStringOpt serviceName ++ " - " ++ customerName params in
       let eventDescription := describeBooking params in
       startText <- lift (toISOString slotStart) ;;
       endText <- lift (toISOString slotEnd) ;;
       event <- callCreateEvent calendar
                  {| summary := eventSummary;
                     description := eventDescription;
                     start_dateTime := startText;
                     start_timeZone := timezone config;
                     end_dateTime := endText;
                     end_timeZone := timezone config |} ;;
       ret {| eventId := match event_id event with
                         | Some id => if isEmptyString id then "created" else id
                         | None => "created"
                         end;
              eventLink := htmlLink event |}
   end)%M.

(** ** The handlers *)

Definition slotToJSON (s : Slot) : JSON :=
  JObj [("id", JStr (slot_id s)); ("title", JStr (slot_title s))].

Definition stringsToJSON (l : list string) : JSON := JArr (map JStr l).

Definition pickerFields (calendarPicker : CalendarPickerData) : Object :=
  [ ("min_date", JStr (minDate calendarPicker));
    ("max_date", JStr (maxDate calendarPicker));
    ("include_days", stringsToJSON (includeDays calendarPicker));
    ("unavailable_dates", stringsToJSON (unavailableDates calendarPicker)) ].

(** [INIT]: the first screen of the flow. *)
Definition handleInit : M JSON :=
  tryCatch
    (calendarPicker <- getCalendarPickerData ;;
     ret (createSuccessResponse "BOOKING_START"
            ([ ("services",
                JArr (map (fun s => JObj [("id", JStr (service_id s));
                                          ("title", JStr (service_title s))])
                          DEFAULT_SERVICES)) ]
             ++ pickerFields calendarPicker
             ++ [ ("title", JStr "Agendar Atendimento");
                  ("subtitle", JStr "Escolha o tipo de atendimento e a data desejada");
                  ("error_message", JStr EmptyString);
                  ("has_error", JBool false) ])%list))%M
    (fun _ => ret (createErrorResponse "Erro ao carregar opcoes de agendamento")).

(** [customerName?.trim()]: [undefined] for a missing or null name, a
    [TypeError] for a value that has no [trim]. *)
Definition trimOpt (v : option JSON) : Outcome (option string) :=
  match v with
  | None => Ret None
  | Some JNull => Ret None
  | Some (JStr s) => Ret (Some (trim s))
  | Some _ => Throw (JsError "customerName?.trim is not a function")
  end.

Definition bookingStart (data : JSON) : M JSON :=
  (let selectedDate := jsGet data "selected_date" in
   let selectedService := jsGet data "selected_service" in
   if negb (truthy selectedDate) then ret (createErrorResponse "Selecione uma data")
   else
     slots <- getAvailableSlots (jsToStringOpt selectedDate) ;;
     if (List.length slots =? 0)%nat then
       calendarPicker <- getCalendarPickerData ;;
       config <- getCalendarBookingConfig ;;
       formattedChip <- lift (formatDateChip (jsToStringOpt selectedDate) (timezone config)) ;;
       ret (createSuccessResponse "BOOKING_START"
              (objExtend (spread data)
                 (pickerFields calendarPicker
                  ++ [ ("error_message",
                        JStr (formattedChip ++ " sem horarios. Escolha outra data."));
                       ("has_error", JBool true) ])%list))
     else
       config <- getCalendarBookingConfig ;;
       formattedDate <- lift (formatDateLabel (jsToStringOpt selectedDate) (timezone config)) ;;
       ret (createSuccessResponse "SELECT_TIME"
              (field "selected_service" selectedService
               ++ field "selected_date" selectedDate
               ++ [ ("slots", JArr (map slotToJSON slots));
                    ("title", JStr "Escolha o Horario");
                    ("subtitle", JStr ("Horarios disponiveis para " ++ formattedDate)) ])%list))%M.

Definition selectTime (data : JSON) : M JSON :=
  let selectedSlot := jsGet data "selected_slot" in
  let selectedService := jsGet data "selected_service" in
  let selectedDate := jsGet data "selected_date" in
  if negb (truthy selectedSlot) then ret (createErrorResponse "Selecione um horario")
  else ret (createSuccessResponse "CUSTOMER_INFO"
              (field "selected_service" selectedService
               ++ field "selected_date" selectedDate
               ++ field "selected_slot" selectedSlot
               ++ [ ("title", JStr "Seus Dados");
                    ("subtitle", JStr "Preencha seus dados para confirmar") ])%list).

Definition customerInfo (data : JSON) : M JSON :=
  (let customerName := jsGet data "customer_name" in
   let customerPhone := jsGet data "customer_phone" in
   let notes := jsGet data "notes" in
   let selectedSlot := jsGet data "selected_slot" in
   let selectedService := jsGet data "selected_service" in
   trimmed <- lift (trimOpt customerName) ;;
   match trimmed with
   | None => ret (createErrorResponse "Informe seu nome")
   | Some name =>
       if isEmptyString name then ret (createErrorResponse "Informe seu nome")
       else
         result <- createBookingEvent
                     {| slotIso := selectedSlot;
                        service := selectedService;
                        customerName := name;
                        customerPhone := orElse customerPhone (JStr EmptyString);
                        notes := notes |} ;;
         let slotDate := newDate selectedSlot in
         config <- getCalendarBookingConfig ;;
         formattedTime <- lift (formatInTimeZone slotDate (timezone config) "HH:mm") ;;
         dateKey <- lift (formatInTimeZone slotDate (timezone config) "yyyy-MM-dd") ;;
         formattedDate <- lift (formatDateLabel dateKey (timezone config)) ;;
         let serviceName := serviceNameOf selectedService in
         selectedDateText <- lift (formatInTimeZone slotDate (timezone config) "yyyy-MM-dd") ;;
         ret (createCloseResponse
                ([ ("success", JBool true);
                   ("event_id", JStr (eventId result)) ]
                 ++ field "selected_service" selectedService
                 ++ [ ("selected_date", JStr selectedDateText) ]
                 ++ field "selected_slot" selectedSlot
                 ++ [ ("customer_name", JStr name);
                      ("customer_phone", orElse customerPhone (JStr EmptyString));
                      ("notes", orElse notes (JStr EmptyString));
                      ("message",
                       JStr ("Agendamento confirmado!" ++ newline ++ newline
                             ++ jsToStringOpt serviceName ++ newline
                             ++ formattedDate ++ " as " ++ formattedTime
                             ++ newline ++ newline
                             ++ "Voce recebera um lembrete.")) ])%list)
   end)%M.

(** [data_exchange]: the user acted on a screen. *)
Definition handleDataExchange (screen : JSON) (data : JSON) : M JSON :=
  tryCatch
    (match screen with
     | JStr name =>
         if String.eqb name "BOOKING_START" then bookingStart data
         else if String.eqb name "SELECT_TIME" then selectTime data
         else if String.eqb name "CUSTOMER_INFO" then customerInfo data
         else ret (createErrorResponse ("Tela desconhecida: " ++ jsToString screen))
     | _ => ret (createErrorResponse ("Tela desconhecida: " ++ jsToString screen))
     end)
    (fun error => ret (createErrorResponse (messageOr "Erro ao processar" error))).

(** [BACK]: the user went back one screen. *)
Definition handleBack (screen : JSON) (data : JSON) : M JSON :=
  match screen with
  | JStr name =>
      if String.eqb name "SELECT_TIME" then handleInit
      else if String.eqb name "CUSTOMER_INFO" then
        (let selectedDate := jsGet data "selected_date" in
         if truthy selectedDate then
           slots <- getAvailableSlots (jsToStringOpt selectedDate) ;;
           config <- getCalendarBookingConfig ;;
           formattedDate <- lift (formatDateLabel (jsToStringOpt selectedDate)
                                    (timezone config)) ;;
           ret (createSuccessResponse "SELECT_TIME"
                  (objExtend (spread data)
                     [ ("slots", JArr (map slotToJSON slots));
                       ("title", JStr "Escolha o Horario");
                       ("subtitle", JStr ("Horarios disponiveis para " ++ formattedDate)) ]))
         else handleInit)%M
      else handleInit
  | _ => handleInit
  end.

(** [typeof data === 'object'] for a truthy [data] *)
Definition isObjectValue (v : JSON) : bool :=
  match v with
  | JObj _ | JArr _ => true
  | _ => false
  end.

Definition handleFlowAction (request : JSON) : M JSON :=
  match request with
  | JNull =>
      throw (JsError "Cannot destructure property 'action' of 'request' as it is null.")
  | _ =>
      let action := jsGet request "action" in
      let screen := jsGet request "screen" in
      let data := jsGet request "data" in
      if truthy data
         && match data with
            | Some d => isObjectValue d && jsHasKey d "error"
            | None => false
            end
      then ret (JObj [("data", JObj [("acknowledged", JBool true)])])
      else
        match action with
        | Some (JStr name) =>
            if String.eqb name "INIT" then handleInit
            else if String.eqb name "data_exchange" then
              handleDataExchange (orElse screen (JStr EmptyString)) (orElse data (JObj []))
            else if String.eqb name "BACK" then
              handleBack (orElse screen (JStr EmptyString)) (orElse data (JObj []))
            else ret (createErrorResponse ("Acao desconhecida: " ++ jsToStringOpt action))
        | _ => ret (createErrorResponse ("Acao desconhecida: " ++ jsToStringOpt action))
        end
  end.

End WithDateLib.

(** ** The crypto envelope *)

(** The primitives of Node's [crypto] and [Buffer], and the JSON codec. *)
Class CryptoLib : Type := {
  (** [Buffer.from(text, 'base64')] and [buffer.toString('base64')] *)
  base64Decode : string -> list byte;
  base64Encode : list byte -> string;
  (** [crypto.privateDecrypt] with OAEP padding: private key, wrapped key *)
  privateDecrypt : string -> list byte -> Outcome (list byte);
  (** AES-128-GCM: key, IV, text; the tag travels at the end of the ciphertext *)
  gcmDecrypt : list byte -> list byte -> list byte -> Outcome (list byte);
  gcmEncrypt : list byte -> list byte -> list byte -> Outcome (list byte);
  jsonParse : string -> Outcome JSON;
  jsonStringify : JSON -> string
}.

Record DecryptedRequest : Type := {
  decryptedBody : JSON;
  aesKeyBuffer : list byte;
  initialVectorBuffer : list byte
}.

(** The wire request: three base64 texts, each possibly missing. *)
Record RequestBody : Type := {
  encrypted_flow_data : option string;
  encrypted_aes_key : option string;
  initial_vector : option string
}.

Definition flipBits (bits : bool * (bool * (bool * (bool * (bool * (bool * (bool * bool)))))))
  : bool * (bool * (bool * (bool * (bool * (bool * (bool * bool)))))) :=
  let '(b0, (b1, (b2, (b3, (b4, (b5, (b6, b7))))))) := bits in
  (negb b0, (negb b1, (negb b2, (negb b3, (negb b4, (negb b5, (negb b6, negb b7))))))).

(** Every bit of a byte flipped. *)
Definition flipByte (b : byte) : byte := of_bits (flipBits (to_bits b)).

(** Modelled from the spec: the IV of a response is the IV of the request
    with every bit flipped, over all its bytes (section 4.1). *)
Definition flipIV (iv : list byte) : list byte := map flipByte iv.

Section WithCryptoLib.

Context {C : CryptoLib}.

(** Modelled from the spec: [decryptRequest] lives in flow-endpoint-crypto,
    which is not among the sources.  Section 4.1: unwrap the session key
    with the private key (OAEP), decrypt the payload with that key and the
    initialization vector under the authenticated cipher, parse the result
    as JSON; return the body with the session key and the request IV. *)
Definition decryptRequest (flowData wrappedKey vector : string) (privateKeyPem : string)
  : Outcome DecryptedRequest :=
  (aesKey <-- privateDecrypt privateKeyPem (base64Decode wrappedKey) ;;
   let iv := base64Decode vector in
   plain <-- gcmDecrypt aesKey iv (base64Decode flowData) ;;
   body <-- jsonParse (string_of_list_byte plain) ;;
   Ret {| decryptedBody := body;
          aesKeyBuffer := aesKey;
          initialVectorBuffer := iv |})%out.

(** Modelled from the spec: [encryptResponse] lives in flow-endpoint-crypto.
    Section 4.1: encrypt the JSON text with the same session key under the
    flipped request IV and return the ciphertext as base64 text. *)
Definition encryptResponse (response : JSON) (aesKey requestIV : list byte)
  : Outcome string :=
  (cipher <-- gcmEncrypt aesKey (flipIV requestIV)
                (list_byte_of_string (jsonStringify response)) ;;
   Ret (base64Encode cipher))%out.

(** Modelled from the spec: the reference decryptor of the peer platform
    (sections 4.1 and 8) is no code of the repository.  It decrypts a
    response body under the session key and the flipped IV of its own
    request, and parses the text. *)
Definition referenceDecrypt (aesKey requestIV : list byte) (responseBody : string)
  : Outcome JSON :=
  (plain <-- gcmDecrypt aesKey (flipIV requestIV) (base64Decode responseBody) ;;
   jsonParse (string_of_list_byte plain))%out.

End WithCryptoLib.

(** ** The endpoint *)

Inductive HttpResponse : Type :=
| JsonResponse (body : JSON) (status : Z)
| TextResponse (body : string) (status : Z) (contentType : string).


Definition isOaepError (errorMessage : string) : bool :=
  includes "oaep" errorMessage || includes "OAEP" errorMessage.

Definition keyMismatchHint : string :=
  "Chave pública no Flow da Meta não corresponde à chave privada do servidor. Verifique a configuração das chaves.".

(** The body and status of the answer to a request that does not decrypt. *)
Definition decryptFailure (error : Exn) : HttpResponse :=
  let errorMessage := messageOrString error in
  JsonResponse
    (JObj ([("error", JStr "Falha na descriptografia")]
           ++ field "hint" (if isOaepError errorMessage
                            then Some (JStr keyMismatchHint) else None))%list)
    421.

(** A setting that is set and not empty. *)
Definition presentText (v : option string) : option string :=
  match v with
  | Some s => if isEmptyString s then None else Some s
  | None => None
  end.

(** The private key is generated and stored when none is; handing the public
    key to the platform is attempted and its failure is ignored. *)
Definition bootstrapKeys : M string :=
  (pair <- asks generateKeyPair ;;
   modify (fun w => {| calendarEvents := calendarEvents w;
                       privateKeySetting := Some (privateKey pair);
                       publicKeySetting := Some (publicKey pair) |}) ;;;
   tryCatch
     (credentials <- (fun env => lift (getWhatsAppCredentials env) env) ;;
      match credentials with
      | Some c =>
          match presentText (accessToken c), presentText (phoneNumberId c) with
          | Some token, Some phone =>
              fun env => lift (metaSetEncryptionPublicKey env token phone (publicKey pair)) env
          | _, _ => ret tt
          end
      | None => ret tt
      end)
     (fun _ => ret tt) ;;;
   ret (privateKey pair))%M.

(** The stored private key, generated when there is none. *)
Definition loadPrivateKey : M string :=
  (stored <- gets privateKeySetting ;;
   match presentText stored with
   | Some key => ret key
   | None => bootstrapKeys
   end)%M.

Section Endpoint.

Context {L : DateLib} {C : CryptoLib}.

Definition encrypted (response : JSON) (decrypted : DecryptedRequest) : M HttpResponse :=
  (body <- lift (encryptResponse response (aesKeyBuffer decrypted)
                   (initialVectorBuffer decrypted)) ;;
   ret (TextResponse body 200 "text/plain"))%M.

(** [flowRequest.action === 'ping'] *)
Definition isPing (flowRequest : JSON) : bool :=
  match jsGet flowRequest "action" with
  | Some (JStr action) => String.eqb action "ping"
  | _ => false
  end.

Definition isNull (v : JSON) : bool :=
  match v with
  | JNull => true
  | _ => false
  end.

Definition pingResponse : JSON := JObj [("data", JObj [("status", JStr "active")])].

(** [handleFlowAction] under the [try] of the endpoint. *)
Definition guardedFlowAction (flowRequest : JSON) : M JSON :=
  tryCatch (handleFlowAction flowRequest)
    (fun error => ret (createErrorResponse (messageOr "Erro interno" error))).

Definition POST (body : RequestBody) : M HttpResponse :=
  tryCatch
    (match presentText (encrypted_flow_data body),
           presentText (encrypted_aes_key body),
           presentText (initial_vector body) with
     | Some flowData, Some wrappedKey, Some vector =>
         (privateKeyPem <- loadPrivateKey ;;
          match decryptRequest flowData wrappedKey vector privateKeyPem with
          | Throw error => ret (decryptFailure error)
          | Hang => lift Hang
          | Ret decrypted =>
              let flowRequest := decryptedBody decrypted in
              if isNull flowRequest then
                throw (JsError "Cannot read properties of null (reading 'action')")
              else if isPing flowRequest then encrypted pingResponse decrypted
              else
                response <- guardedFlowAction flowRequest ;;
                encrypted response decrypted
          end)%M
     | _, _, _ => ret (JsonResponse (JObj [("error", JStr "Campos obrigatorios ausentes")]) 400)
     end)
    (fun error => ret (JsonResponse (JObj [("error", JStr (messageOr "Erro interno" error))]) 500)).

(** The payload the endpoint encrypts for a request: the fixed answer to a
    ping, otherwise what the handlers return. *)
Definition flowResponse (flowRequest : JSON) : M JSON :=
  if isPing flowRequest then ret pingResponse else guardedFlowAction flowRequest.

(** The liveness probe. *)
Definition GET : M HttpResponse :=
  (stored <- gets privateKeySetting ;;
   let configured := match presentText stored with Some _ => true | None => false end in
   ret (JsonResponse
          (JObj [ ("status", JStr (if configured then "ready" else "not_configured"));
                  ("message",
                   JStr (if configured then "Flow endpoint configurado e pronto"
                         else "Chave privada nao configurada. Configure em /settings/flows")) ])
          200))%M.

End Endpoint.

(** ** An executable date library

    Zones of a fixed offset from UTC, enough to run the handlers on
    concrete requests. *)

Definition zoneOffsetMinutes (zone : string) : option Z :=
  if String.eqb zone "UTC" then Some 0
  else if String.eqb zone "America/Sao_Paulo" then Some (-180)
  else if String.eqb zone "Asia/Tokyo" then Some 540
  else None.

(** [yyyy-MM-ddTHH:mm:ss] read as a wall-clock time, in ms. *)
Definition parseLocal (text : string) : option Z :=
  match split "T" text with
  | [datePart; timePart] =>
      match map jsNumber (split "-" datePart), map jsNumber (split ":" timePart) with
      | [Some y; Some m; Some d], [Some h; Some mi; Some s] =>
          if validCivil y m d && (h <? 24) && (mi <? 60) && (s <? 60)
             && negb (isEmptyString datePart)
          then Some (days_from_civil y m d * msPerDay + h * 3600000 + mi * 60000 + s * 1000)
          else None
      | _, _ => None
      end
  | _ => None
  end.

Definition fixedFromZonedTime (text zone : string) : JsDate :=
  match parseLocal text, zoneOffsetMinutes zone with
  | Some wall, Some offset => Some (wall - offset * 60000)
  | _, _ => None
  end.

Definition fixedFormat (date : JsDate) (zone pattern : string) : Outcome string :=
  match date, zoneOffsetMinutes zone with
  | Some t, Some offset =>
      let wall := t + offset * 60000 in
      let '(y, m, d) := civil_from_days (wall / msPerDay) in
      let ms := wall mod msPerDay in
      let weekday := (wall / msPerDay + 4) mod 7 in
      if String.eqb pattern "i" then
        Ret (jsStringOfZ (if weekday =? 0 then 7 else weekday))
      else if String.eqb pattern "yyyy-MM-dd" then Ret (isoDateText y m d)
      else if String.eqb pattern "HH:mm" then
        Ret (pad2 (ms / 3600000) ++ ":" ++ pad2 (ms / 60000 mod 60))
      else if String.eqb pattern "dd/MM/yyyy" then
        Ret (pad2 d ++ "/" ++ pad2 m ++ "/" ++ isoYear y)
      else if String.eqb pattern "dd/MM" then Ret (pad2 d ++ "/" ++ pad2 m)
      else Ret pattern
  | _, _ => Throw invalidTime
  end.

(** [yyyy-MM-ddTHH:mm:ss.sssZ], the form [toISOString] writes. *)
Definition isoParse (text : string) : JsDate :=
  match split "T" text with
  | [datePart; timePart] =>
      match split "." timePart with
      | [clockPart; fraction] =>
          match parseLocal (datePart ++ "T" ++ clockPart), split "Z" fraction with
          | Some wall, [millis; EmptyString] =>
              match jsNumber millis with
              | Some n => if (String.length millis =? 3)%nat then Some (wall + n) else None
              | None => None
              end
          | _, _ => None
          end
      | _ => None
      end
  | _ => None
  end.

#[local] Instance fixedZones : DateLib := {
  fromZonedTime := fixedFromZonedTime;
  formatInTimeZone := fixedFormat;
  dateParse := isoParse
}.

(** ** A stand-in for the crypto primitives

    The wrapped key and the ciphertext carry what they were made with in
    front, so that unwrapping under another key and decrypting under another
    key or IV fail as the real primitives do; nothing here is secret. *)

Fixpoint stripPrefix (front l : list byte) : option (list byte) :=
  match front, l with
  | [], rest => Some rest
  | a :: front', b :: l' => if Byte.eqb a b then stripPrefix front' l' else None
  | _ :: _, [] => None
  end.

Definition oaepFailure : Exn :=
  JsError "error:02000079:rsa routines::oaep decoding error".

Definition gcmFailure : Exn :=
  JsError "Unsupported state or unable to authenticate data".

Definition standInUnwrap (privateKeyPem : string) (wrapped : list byte)
  : Outcome (list byte) :=
  match stripPrefix (list_byte_of_string privateKeyPem) wrapped with
  | Some key => Ret key
  | None => Throw oaepFailure
  end.

Definition standInSeal (key iv plain : list byte) : Outcome (list byte) :=
  Ret (key ++ iv ++ plain)%list.

Definition standInOpen (key iv cipher : list byte) : Outcome (list byte) :=
  match stripPrefix (key ++ iv)%list cipher with
  | Some plain => Ret plain
  | None => Throw gcmFailure
  end.

Definition quoteChar : ascii := ascii_of_nat 34.

Definition backslashChar : ascii := ascii_of_nat 92.

Fixpoint escapeText (s : string) : string :=
  match s with
  | EmptyString => EmptyString
  | String c rest =>
      if Ascii.eqb c quoteChar || Ascii.eqb c backslashChar
      then String backslashChar (String c (escapeText rest))
      else String c (escapeText rest)
  end.

Definition quoted (s : string) : string :=
  String quoteChar (escapeText s) ++ String quoteChar EmptyString.

(** [JSON.stringify] on the values of the model. *)
Fixpoint printJSON (v : JSON) : string :=
  match v with
  | JNull => "null"
  | JBool true => "true"
  | JBool false => "false"
  | JNum n => jsStringOfZ n
  | JStr s => quoted s
  | JArr items => "[" ++ join "," (map printJSON items) ++ "]"
  | JObj fields =>
      "{" ++ join "," (map (fun kv => quoted (fst kv) ++ ":" ++ printJSON (snd kv)) fields)
      ++ "}"
  end.

(** A reader that knows the payloads of a test run: a text is read as the
    payload it is the print of. *)
Fixpoint readAmong (known : list JSON) (text : string) : Outcome JSON :=
  match known with
  | [] => Throw (JsError "Unexpected token in JSON")
  | v :: rest => if String.eqb (printJSON v) text then Ret v else readAmong rest text
  end.

Definition standIn (known : list JSON) : CryptoLib := {|
  base64Decode := list_byte_of_string;
  base64Encode := string_of_list_byte;
  privateDecrypt := standInUnwrap;
  gcmDecrypt := standInOpen;
  gcmEncrypt := standInSeal;
  jsonParse := readAmong known;
  jsonStringify := printJSON
|}.



(** What the statements about the envelope ask of the primitives: base64
    decodes what it encoded; the cipher seals under a key and an IV of 16
    bytes, opens what it sealed, and refuses a ciphertext under another IV. *)
Record CryptoLaws (C : CryptoLib) : Prop := {
  base64_roundtrip :
    forall bytes, base64Decode (base64Encode bytes) = bytes;
  gcm_seals :
    forall key iv plain,
      List.length key = 16%nat -> List.length iv = 16%nat ->
      exists cipher, gcmEncrypt key iv plain = Ret cipher;
  gcm_opens :
    forall key iv plain cipher,
      gcmEncrypt key iv plain = Ret cipher -> gcmDecrypt key iv cipher = Ret plain;
  gcm_binds_iv :
    forall key iv iv' plain cipher,
      gcmEncrypt key iv plain = Ret cipher ->
      List.length iv' = List.length iv -> iv' <> iv ->
      exists error, gcmDecrypt key iv' cipher = Throw error
}.

Arguments base64_roundtrip {C} _.
Arguments gcm_seals {C} _.
Arguments gcm_opens {C} _.
Arguments gcm_binds_iv {C} _.

(** ** A sample exchange *)

Definition sampleKey : list byte := list_byte_of_string "0123456789abcdef".

Definition sampleIV : list byte := list_byte_of_string "fedcba9876543210".

Definition pingRequest : JSON := JObj [("action", JStr "ping")].

Definition sampleLib : CryptoLib := standIn [pingRequest].

(** The ping request sealed for the stored key of [sampleWorld]. *)
Definition sampleBody : RequestBody := {|
  encrypted_flow_data :=
    Some (string_of_list_byte
            (sampleKey ++ sampleIV ++ list_byte_of_string (printJSON pingRequest))%list);
  encrypted_aes_key :=
    Some (string_of_list_byte (list_byte_of_string "PRIVATE" ++ sampleKey)%list);
  initial_vector := Some (string_of_list_byte sampleIV)
|}.



(** ** The slot listing in the words of the specification

    Section 4.2: for each work period, candidate starts at the slot duration
    from the period start up to the period end minus the duration; drop a
    candidate that starts at or before now plus the minimum advance; widen
    every busy interval by the buffer on both ends and drop a candidate
    whose half-open interval overlaps one. *)

Definition candidateStarts (workStart workEnd slotDuration : Z) : list Z :=
  map (fun k => workStart + Z.of_nat k * slotDuration)
      (seq 0 (Z.to_nat ((workEnd - workStart) / slotDuration))).

Definition candidatesOf (period : Period) (slotDuration : Z) : list Z :=
  candidateStarts (parseTimeToMinutes (period_start period))
                  (parseTimeToMinutes (period_end period)) slotDuration.

(** The start is at or before now plus the minimum advance. *)
Definition tooSoon (now advanceHours start : Z) : bool :=
  start <=? now + advanceHours * 60 * 60 * 1000.

(** [start, start + duration) meets a busy range widened by the buffer. *)
Definition overlapsBusy (bufferMinutes durationMinutes : Z) (items : list BusyItem)
  (start : Z) : bool :=
  existsb (fun item =>
             (start <? busy_end item + bufferMinutes * 60 * 1000)
             && (busy_start item - bufferMinutes * 60 * 1000
                 <? start + durationMinutes * 60 * 1000))
          items.

Definition slotOf (currentMinutes start : Z) : Slot :=
  {| slot_id := isoString start; slot_title := timeText currentMinutes |}.

Definition advanceOf (config : CalendarBookingConfig) : Z :=
  match minAdvanceHours config with Some h => h | None => 0 end.

Section Listing.

Context {L : DateLib}.

Variables (config : CalendarBookingConfig) (now : Z) (dateStr : string)
  (items : list BusyItem).

(** What remains of one candidate. *)
Definition keptSlot (currentMinutes : Z) : list Slot :=
  match slotStartAt dateStr (timezone config) currentMinutes with
  | Some start =>
      if tooSoon now (advanceOf config) start
         || overlapsBusy (slotBufferMinutes config) (slotDurationMinutes config) items start
      then []
      else [slotOf currentMinutes start]
  | None => []
  end.

Definition listSlots (workPeriods : list Period) : list Slot :=
  flat_map (fun period =>
              flat_map keptSlot (candidatesOf period (slotDurationMinutes config)))
           workPeriods.

(** The candidate has a start the library resolves and an end within the
    range of [Date]. *)
Definition candidateResolves (currentMinutes : Z) : bool :=
  match slotStartAt dateStr (timezone config) currentMinutes with
  | Some start => inDateRange (start + slotDurationMinutes config * 60 * 1000)
  | None => false
  end.

(** Every candidate of the periods resolves. *)
Definition candidatesResolve (workPeriods : list Period) : bool :=
  forallb (fun period =>
             forallb candidateResolves
                     (candidatesOf period (slotDurationMinutes config)))
          workPeriods.

End Listing.

(** The times of the periods are plain. *)
Definition plainPeriods (workPeriods : list Period) : bool :=
  forallb (fun period => plainTime (period_start period) && plainTime (period_end period))
          workPeriods.

(** The numbers of the configuration have nine digits at most, so that the
    milliseconds made of them are exact. *)
Definition modestConfig (config : CalendarBookingConfig) : bool :=
  let modest n := Z.abs n <=? 999999999 in
  let modestOpt o := match o with Some n => modest n | None => true end in
  modest (slotDurationMinutes config) && modest (slotBufferMinutes config)
  && modestOpt (minAdvanceHours config) && modestOpt (maxAdvanceDays config).

(** The lookups [getAvailableSlots] makes before it turns to the working
    hours: a calendar is connected, the library resolves the two ends of the
    day, the busy lookup answers [items], and the weekday of the day start in
    the configured zone has the entry [workingDay], if any. *)
Inductive DayLookup {L : DateLib} (env : Env) (dateStr : string)
  (items : list BusyItem) (workingDay : option WorkingHoursDay) : Prop :=
| dayLookup
    (calendar : string) (dayStart dayEnd : Z) (dayKey : option Weekday)
    (calendarConfig : option GoogleCalendarConfig)
    (lookup_config : getCalendarConfig env = Ret calendarConfig)
    (lookup_connected : connectedCalendar calendarConfig = Some calendar)
    (lookup_start :
       fromZonedTime (dateStr ++ "T00:00:00") (timezone (readBookingConfig env))
       = Some dayStart)
    (lookup_end :
       fromZonedTime (dateStr ++ "T23:59:59") (timezone (readBookingConfig env))
       = Some dayEnd)
    (lookup_busy :
       listBusyTimes env
         {| query_calendarId := calendar;
            timeMin := isoString dayStart;
            timeMax := isoString dayEnd;
            query_timeZone := timezone (readBookingConfig env) |}
       = Ret items)
    (lookup_weekday :
       getWeekdayKey (Some dayStart) (timezone (readBookingConfig env)) = Ret dayKey)
    (lookup_day :
       findDay (workingHours (readBookingConfig env)) dayKey = workingDay).


(** ** A check of the calendar arithmetic over one 400-year cycle *)

Definition rangeZ (first count : nat) : list Z := map Z.of_nat (seq first count).

Definition civilRoundTrip (y m d : Z) : bool :=
  let '(y', m', d') := civil_from_days (days_from_civil y m d) in
  (y' =? y) && (m' =? m) && (d' =? d).

Fixpoint hasChar (c : ascii) (s : string) : bool :=
  match s with
  | EmptyString => false
  | String x rest => Ascii.eqb x c || hasChar c rest
  end.

(** A text of digits alone that reads back as the number it was written for. *)
Definition readsBack (text : string) (n : Z) : bool :=
  negb (hasChar "-" text)
  && match jsNumber text with
     | Some v => v =? n
     | None => false
     end.

(** ** Dates as day numbers *)

(** The weekday of a day number; day 0 was a Thursday. *)
Definition weekdayOfDay (dayNumber : Z) : Weekday :=
  match (dayNumber + 3) mod 7 with
  | 0 => mon
  | 1 => tue
  | 2 => wed
  | 3 => thu
  | 4 => fri
  | 5 => sat
  | _ => sun
  end.

(** The dates at the given offsets from [today] whose weekday is not
    enabled, in the words of section 4.2. *)
Definition closedDates (hours : list WorkingHoursDay) (today : Z) (offsets : list Z)
  : list string :=
  flat_map (fun k =>
              if dayEnabled (findDay hours (Some (weekdayOfDay (today + k))))
              then []
              else [isoDateOfDay (today + k)])
           offsets.

(** No weekday has two entries. *)
Fixpoint distinctDays (hours : list WorkingHoursDay) : bool :=
  match hours with
  | [] => true
  | h :: rest =>
      negb (existsb (fun x => Weekday_eqb (day x) (day h)) rest) && distinctDays rest
  end.

(** The number [formatInTimeZone] writes for a weekday under the pattern
    [i]: 1 for Monday to 7 for Sunday. *)
Definition isoDayNumber (wd : Weekday) : Z :=
  match wd with
  | mon => 1 | tue => 2 | wed => 3 | thu => 4 | fri => 5 | sat => 6 | sun => 7
  end.

(** ** Sample environments *)

(** 2025-06-01T08:00:00Z, a Sunday; the default configuration; a calendar
    connected and free. *)
Definition sampleEnv : Env := {|
  clock := 1748764800000;
  isSupabaseConfigured := false;
  bookingConfigSetting := None;
  getCalendarConfig := Ret (Some {| calendarId := Some "primary" |});
  listBusyTimes := fun _ => Ret [];
  createEvent := fun _ _ => Ret {| event_id := Some "evt-1"; htmlLink := None |};
  generateKeyPair := {| publicKey := "PUBLIC"; privateKey := "PRIVATE" |};
  getWhatsAppCredentials := Ret None;
  metaSetEncryptionPublicKey := fun _ _ _ => Ret tt
|}.

Definition sampleWorld : World := {|
  calendarEvents := [];
  privateKeySetting := Some "PRIVATE";
  publicKeySetting := Some "PUBLIC"
|}.

(** The same with no calendar connected. *)
Definition unconnectedEnv : Env := {|
  clock := clock sampleEnv;
  isSupabaseConfigured := false;
  bookingConfigSetting := None;
  getCalendarConfig := Ret None;
  listBusyTimes := listBusyTimes sampleEnv;
  createEvent := createEvent sampleEnv;
  generateKeyPair := generateKeyPair sampleEnv;
  getWhatsAppCredentials := Ret None;
  metaSetEncryptionPublicKey := fun _ _ _ => Ret tt
|}.

(** Monday 2025-06-02 in Sao Paulo, seen from the day before: three work
    periods of one slot each, starting 09:49, 09:40 and 10:40; slots of 30
    minutes, a buffer of 10; the calendar busy from 10:00 to 10:30. *)
Definition busyMondayEnv : Env := {|
  clock := 1748764800000;
  isSupabaseConfigured := true;
  bookingConfigSetting :=
    Some (Parsed
      {| patch_timezone := None;
         patch_slotDurationMinutes := Some 30;
         patch_slotBufferMinutes := Some 10;
         patch_workingHours :=
           Some [ {| day := mon; enabled := true; wh_start := "09:00"; wh_end := "18:00";
                     wh_slots := [ {| period_start := "09:49"; period_end := "10:19" |};
                                   {| period_start := "09:40"; period_end := "10:10" |};
                                   {| period_start := "10:40"; period_end := "11:10" |} ] |} ];
         patch_minAdvanceHours := None;
         patch_maxAdvanceDays := None;
         patch_allowSimultaneous := None |});
  getCalendarConfig := Ret (Some {| calendarId := Some "primary" |});
  listBusyTimes := fun _ => Ret [ {| busy_start := 1748869200000;
                                     busy_end := 1748871000000 |} ];
  createEvent := createEvent sampleEnv;
  generateKeyPair := generateKeyPair sampleEnv;
  getWhatsAppCredentials := Ret None;
  metaSetEncryptionPublicKey := fun _ _ _ => Ret tt
|}.

(** The same Monday at 08:00 local time, a minimum advance of 4 hours, a
    free calendar, and two work periods of one slot each, starting 12:00 and
    12:01. *)
Definition noonMondayEnv : Env := {|
  clock := 1748862000000;
  isSupabaseConfigured := true;
  bookingConfigSetting :=
    Some (Parsed
      {| patch_timezone := None;
         patch_slotDurationMinutes := Some 30;
         patch_slotBufferMinutes := None;
         patch_workingHours :=
           Some [ {| day := mon; enabled := true; wh_start := "09:00"; wh_end := "18:00";
                     wh_slots := [ {| period_start := "12:00"; period_end := "12:30" |};
                                   {| period_start := "12:01"; period_end := "12:31" |} ] |} ];
         patch_minAdvanceHours := Some (Some 4);
         patch_maxAdvanceDays := None;
         patch_allowSimultaneous := None |});
  getCalendarConfig := Ret (Some {| calendarId := Some "primary" |});
  listBusyTimes := fun _ => Ret [];
  createEvent := createEvent sampleEnv;
  generateKeyPair := generateKeyPair sampleEnv;
  getWhatsAppCredentials := Ret None;
  metaSetEncryptionPublicKey := fun _ _ _ => Ret tt
|}.

(** ** Helpers of the further statements *)




(** The environment with another clock and another view of the busy times. *)
Definition withClockAndBusy (env : Env) (now : Z)
  (busyTimes : BusyQuery -> Outcome (list BusyItem)) : Env :=
  {| clock := now;
     isSupabaseConfigured := isSupabaseConfigured env;
     bookingConfigSetting := bookingConfigSetting env;
     getCalendarConfig := getCalendarConfig env;
     listBusyTimes := busyTimes;
     createEvent := createEvent env;
     generateKeyPair := generateKeyPair env;
     getWhatsAppCredentials := getWhatsAppCredentials env;
     metaSetEncryptionPublicKey := metaSetEncryptionPublicKey env |}.

(** The environment with another stored value of [allowSimultaneous]. *)
Definition withAllowSimultaneous (env : Env) (value : option (option bool)) : Env :=
  {| clock := clock env;
     isSupabaseConfigured := isSupabaseConfigured env;
     bookingConfigSetting :=
       match bookingConfigSetting env with
       | Some (Parsed patch) =>
           Some (Parsed
                   {| patch_timezone := patch_timezone patch;
                      patch_slotDurationMinutes := patch_slotDurationMinutes patch;
                      patch_slotBufferMinutes := patch_slotBufferMinutes patch;
                      patch_workingHours := patch_workingHours patch;
                      patch_minAdvanceHours := patch_minAdvanceHours patch;
                      patch_maxAdvanceDays := patch_maxAdvanceDays patch;
                      patch_allowSimultaneous := value |})
       | other => other
       end;
     getCalendarConfig := getCalendarConfig env;
     listBusyTimes := listBusyTimes env;
     createEvent := createEvent env;
     generateKeyPair := generateKeyPair env;
     getWhatsAppCredentials := getWhatsAppCredentials env;
     metaSetEncryptionPublicKey := metaSetEncryptionPublicKey env |}.

(** A computation that runs alike in two environments. *)
Definition sameIn {A : Type} (env' env : Env) (m : M A) : Prop :=
  forall w, m env' w = m env w.


(** The sample environment with credentials stored and a platform that
    refuses the public key. *)
Definition unsyncedEnv : Env := {|
  clock := clock sampleEnv;
  isSupabaseConfigured := false;
  bookingConfigSetting := None;
  getCalendarConfig := getCalendarConfig sampleEnv;
  listBusyTimes := listBusyTimes sampleEnv;
  createEvent := createEvent sampleEnv;
  generateKeyPair := generateKeyPair sampleEnv;
  getWhatsAppCredentials :=
    Ret (Some {| accessToken := Some "token"; phoneNumberId := Some "5511" |});
  metaSetEncryptionPublicKey := fun _ _ _ => Throw (JsError "(#100) Invalid parameter")
|}.

(** A world with the keys removed by the keys route, which stores empty
    texts. *)
Definition keylessWorld : World := {|
  calendarEvents := [];
  privateKeySetting := Some EmptyString;
  publicKeySetting := Some EmptyString
|}.

(** Monday 2025-06-02 with a stored slot duration of zero. *)
Definition zeroDurationEnv : Env := {|
  clock := clock sampleEnv;
  isSupabaseConfigured := true;
  bookingConfigSetting :=
    Some (Parsed
      {| patch_timezone := None;
         patch_slotDurationMinutes := Some 0;
         patch_slotBufferMinutes := None;
         patch_workingHours := None;
         patch_minAdvanceHours := None;
         patch_maxAdvanceDays := None;
         patch_allowSimultaneous := None |});
  getCalendarConfig := getCalendarConfig sampleEnv;
  listBusyTimes := listBusyTimes sampleEnv;
  createEvent := createEvent sampleEnv;
  generateKeyPair := generateKeyPair sampleEnv;
  getWhatsAppCredentials := Ret None;
  metaSetEncryptionPublicKey := fun _ _ _ => Ret tt
|}.

(** A stored configuration that lists working hours for Monday alone. *)
Definition mondayOnlyEnv : Env := {|
  clock := clock sampleEnv;
  isSupabaseConfigured := true;
  bookingConfigSetting :=
    Some (Parsed
      {| patch_timezone := None;
         patch_slotDurationMinutes := None;
         patch_slotBufferMinutes := None;
         patch_workingHours := Some [ workday mon true "09:00" "12:00" ];
         patch_minAdvanceHours := None;
         patch_maxAdvanceDays := None;
         patch_allowSimultaneous := None |});
  getCalendarConfig := getCalendarConfig sampleEnv;
  listBusyTimes := listBusyTimes sampleEnv;
  createEvent := createEvent sampleEnv;
  generateKeyPair := generateKeyPair sampleEnv;
  getWhatsAppCredentials := Ret None;
  metaSetEncryptionPublicKey := fun _ _ _ => Ret tt
|}.

(** A stored time zone the library does not know. *)
Definition unknownZoneEnv : Env := {|
  clock := clock sampleEnv;
  isSupabaseConfigured := true;
  bookingConfigSetting :=
    Some (Parsed
      {| patch_timezone := Some "Mars/Olympus";
         patch_slotDurationMinutes := None;
         patch_slotBufferMinutes := None;
         patch_workingHours := None;
         patch_minAdvanceHours := None;
         patch_maxAdvanceDays := None;
         patch_allowSimultaneous := None |});
  getCalendarConfig := getCalendarConfig sampleEnv;
  listBusyTimes := listBusyTimes sampleEnv;
  createEvent := createEvent sampleEnv;
  generateKeyPair := generateKeyPair sampleEnv;
  getWhatsAppCredentials := Ret None;
  metaSetEncryptionPublicKey := fun _ _ _ => Ret tt
|}.

(** ** The route of the keys ([/api/flows/endpoint/keys])

    [GET], [POST] and [DELETE] of the route that shows, stores and removes
    the key pair the endpoint decrypts with.  The calls to the local debug
    collector are fire-and-forget and leave no trace in the answer; they are
    left out. *)

(** The headers and the body the route reads; the body is [{}] when the
    request carries no JSON. *)
Record KeysRequest : Type := {
  forwardedProto : option string;     (* x-forwarded-proto *)
  forwardedHost : option string;      (* x-forwarded-host *)
  hostHeader : option string;         (* host *)
  bodyPrivateKey : option string;     (* body.privateKey *)
  bodyPublicKey : option string       (* body.publicKey *)
}.

(** [process.env] *)
Record ProcessEnv : Type := {
  VERCEL_PROJECT_PRODUCTION_URL : option string;
  VERCEL_URL : option string;
  NEXT_PUBLIC_APP_URL : option string
}.

(** The settings the route reads and writes: the two keys of the world and
    [whatsapp_flow_endpoint_url]. *)
Record KeysStore : Type := {
  keysWorld : World;
  endpointUrlSetting : option string
}.

(** [a || b] on texts that may be missing: the first that is not empty. *)
Definition orText (a b : option string) : option string :=
  match presentText a with
  | Some s => Some s
  | None => b
  end.

(** [value || null] *)
Definition orNull (a : option string) : option string := presentText a.

Definition resolveEndpointUrlFromRequest (request : KeysRequest) : option string :=
  let proto := match presentText (forwardedProto request) with
               | Some p => p
               | None => "https"
               end in
  match orText (forwardedHost request) (hostHeader request) with
  | Some host =>
      if isEmptyString host then None
      else Some (proto ++ "://" ++ host ++ "/api/flows/endpoint")
  | None => None
  end.

Definition isLocalhostUrl (value : option string) : bool :=
  match presentText value with
  | Some v => includes "localhost" v || includes "127.0.0.1" v
  | None => false
  end.

Definition textToJSON (value : option string) : JSON :=
  match value with
  | Some s => JStr s
  | None => JNull
  end.

Definition envEndpointUrlOf (processEnv : ProcessEnv) : option string :=
  match presentText (VERCEL_PROJECT_PRODUCTION_URL processEnv) with
  | Some u => Some ("https://" ++ u ++ "/api/flows/endpoint")
  | None =>
      match presentText (VERCEL_URL processEnv) with
      | Some u => Some ("https://" ++ u ++ "/api/flows/endpoint")
      | None =>
          match presentText (NEXT_PUBLIC_APP_URL processEnv) with
          | Some u => Some (u ++ "/api/flows/endpoint")
          | None => None
          end
      end
  end.

(** [storedEndpointUrl && !isLocalhostUrl(header) && isLocalhostUrl(stored)
    ? null : storedEndpointUrl] *)
Definition safeStoredUrl (stored header : option string) : option string :=
  if match presentText stored with Some _ => true | None => false end
     && negb (isLocalhostUrl header) && isLocalhostUrl stored
  then None
  else stored.

Definition notConfiguredResponse : HttpResponse :=
  JsonResponse (JObj [("error", JStr "Supabase nao configurado")]) 400.

Section KeysRoute.

(** [isValidPrivateKey] of flow-endpoint-crypto, which is not among the
    sources: a parameter. *)
Variable isValidPrivateKey : string -> bool.

Variable processEnv : ProcessEnv.

Definition keysGET (request : KeysRequest) (env : Env) (store : KeysStore)
  : HttpResponse :=
  if negb (isSupabaseConfigured env) then notConfiguredResponse
  else
    let privateKeyText := privateKeySetting (keysWorld store) in
    let publicKeyText := publicKeySetting (keysWorld store) in
    let storedEndpointUrl := endpointUrlSetting store in
    let hasPrivateKey :=
      match presentText privateKeyText with
      | Some key => isValidPrivateKey key
      | None => false
      end in
    let hasPublicKey :=
      match presentText publicKeyText with Some _ => true | None => false end in
    let envEndpointUrl := envEndpointUrlOf processEnv in
    let headerEndpointUrl := resolveEndpointUrlFromRequest request in
    let safeStoredEndpointUrl := safeStoredUrl storedEndpointUrl headerEndpointUrl in
    let endpointUrl :=
      orNull (orText envEndpointUrl (orText safeStoredEndpointUrl headerEndpointUrl)) in
    let endpointSource :=
      match presentText envEndpointUrl with
      | Some _ => "env"
      | None =>
          match presentText safeStoredEndpointUrl with
          | Some _ => "stored"
          | None =>
              match presentText headerEndpointUrl with
              | Some _ => "header"
              | None => "none"
              end
          end
      end in
    JsonResponse
      (JObj [ ("configured", JBool (hasPrivateKey && hasPublicKey));
              ("publicKey", if hasPublicKey then textToJSON publicKeyText else JNull);
              ("endpointUrl", textToJSON endpointUrl);
              ("debug",
               JObj [ ("endpointSource", JStr endpointSource);
                      ("envEndpointUrl", textToJSON envEndpointUrl);
                      ("storedEndpointUrl", textToJSON storedEndpointUrl);
                      ("headerEndpointUrl", textToJSON headerEndpointUrl);
                      ("resolvedEndpointUrl", textToJSON endpointUrl);
                      ("headerHost",
                       textToJSON (orNull (orText (forwardedHost request)
                                             (hostHeader request))));
                      ("headerProto", textToJSON (orNull (forwardedProto request))) ]) ])
      200.

Definition withKeys (store : KeysStore) (privateKeyText publicKeyText : string)
  : KeysStore :=
  {| keysWorld :=
       {| calendarEvents := calendarEvents (keysWorld store);
          privateKeySetting := Some privateKeyText;
          publicKeySetting := Some publicKeyText |};
     endpointUrlSetting := endpointUrlSetting store |}.

Definition withEndpointUrl (store : KeysStore) (url : string) : KeysStore :=
  {| keysWorld := keysWorld store; endpointUrlSetting := Some url |}.

Definition keysPOST (request : KeysRequest) (env : Env) (store : KeysStore)
  : HttpResponse * KeysStore :=
  if negb (isSupabaseConfigured env) then (notConfiguredResponse, store)
  else
    let chosen :=
      match presentText (bodyPrivateKey request), presentText (bodyPublicKey request) with
      | Some importedPrivate, Some importedPublic =>
          if negb (isValidPrivateKey importedPrivate) then None
          else Some (importedPrivate, importedPublic)
      | _, _ =>
          let keyPair := generateKeyPair env in
          Some (privateKey keyPair, publicKey keyPair)
      end in
    match chosen with
    | None => (JsonResponse (JObj [("error", JStr "Chave privada invalida")]) 400, store)
    | Some (privateKeyText, publicKeyText) =>
        let saved := withKeys store privateKeyText publicKeyText in
        let endpointUrl := resolveEndpointUrlFromRequest request in
        let saved' :=
          match presentText endpointUrl with
          | Some url => if negb (isLocalhostUrl endpointUrl)
                        then withEndpointUrl saved url else saved
          | None => saved
          end in
        (JsonResponse
           (JObj [ ("success", JBool true);
                   ("message",
                    JStr "Chaves geradas! O endpoint esta pronto para receber requests de flows dinamicos.") ])
           200,
         saved')
    end.

Definition keysDELETE (env : Env) (store : KeysStore) : HttpResponse * KeysStore :=
  if negb (isSupabaseConfigured env) then (notConfiguredResponse, store)
  else
    (JsonResponse (JObj [("success", JBool true); ("message", JStr "Chaves removidas")]) 200,
     withKeys store EmptyString EmptyString).

End KeysRoute.

(** The sample environment with the settings store configured. *)
Definition storedEnv : Env := {|
  clock := clock sampleEnv;
  isSupabaseConfigured := true;
  bookingConfigSetting := None;
  getCalendarConfig := getCalendarConfig sampleEnv;
  listBusyTimes := listBusyTimes sampleEnv;
  createEvent := createEvent sampleEnv;
  generateKeyPair := generateKeyPair sampleEnv;
  getWhatsAppCredentials := Ret None;
  metaSetEncryptionPublicKey := fun _ _ _ => Ret tt
|}.

Definition sampleStore : KeysStore :=
  {| keysWorld := sampleWorld; endpointUrlSetting := None |}.

Definition noProcessEnv : ProcessEnv :=
  {| VERCEL_PROJECT_PRODUCTION_URL := None; VERCEL_URL := None; NEXT_PUBLIC_APP_URL := None |}.

(** A request from a development machine and one from the deployed site. *)
Definition localRequest : KeysRequest :=
  {| forwardedProto := Some "http"; forwardedHost := None;
     hostHeader := Some "localhost:3000";
     bodyPrivateKey := None; bodyPublicKey := None |}.

Definition siteRequest : KeysRequest :=
  {| forwardedProto := Some "https"; forwardedHost := Some "zap.example.com";
     hostHeader := Some "internal:8080";
     bodyPrivateKey := None; bodyPublicKey := None |}.

(** A validity test that knows the private key of the sample pair. *)
Definition knownKey (key : string) : bool := String.eqb key "PRIVATE".
(* ================================================================== *)
(** * Part II. Properties                                              *)
(* ================================================================== *)

(** ** The calendar arithmetic *)

Lemma days_from_civil_shift (y m d q : Z) :
  days_from_civil (y + 400 * q) m d = days_from_civil y m d + 146097 * q.
Proof.
  assert (shift : forall y',
            let era := y' / 400 in
            let yoe := y' - era * 400 in
            let era' := (y' + q * 400) / 400 in
            let yoe' := y' + q * 400 - era' * 400 in
            era' = era + q /\ yoe' = yoe).
  { intros y'. cbv zeta. rewrite Z.div_add by lia. lia. }
  unfold days_from_civil.
  destruct (m <=? 2).
  - replace (y + 400 * q - 1) with (y - 1 + q * 400) by lia.
    destruct (shift (y - 1)) as [-> ->]. lia.
  - replace (y + 400 * q) with (y + q * 400) by lia.
    destruct (shift y) as [-> ->]. lia.
Qed.

Lemma civil_from_days_shift (z q : Z) :
  civil_from_days (z + 146097 * q)
  = let '(y, m, d) := civil_from_days z in (y + 400 * q, m, d).
Proof.
  unfold civil_from_days.
  replace (z + 146097 * q + 719468) with (z + 719468 + q * 146097) by lia.
  rewrite Z.div_add by lia.
  set (era := (z + 719468) / 146097).
  replace (z + 719468 + q * 146097 - (era + q) * 146097)
    with (z + 719468 - era * 146097) by lia.
  set (doe := z + 719468 - era * 146097).
  set (yoe := (doe - doe / 1460 + doe / 36524 - doe / 146096) / 365).
  set (doy := doe - (365 * yoe + yoe / 4 - yoe / 100)).
  set (mp := (5 * doy + 2) / 153).
  destruct (mp <? 10); cbv zeta.
  - destruct (mp + 3 <=? 2); f_equal; f_equal; lia.
  - destruct (mp - 9 <=? 2); f_equal; f_equal; lia.
Qed.

(** Every date of the years 0 to 399 is the date of its day number. *)
Lemma civilCycle_check :
  forallb (fun y =>
    forallb (fun m =>
      forallb (fun d => civilRoundTrip y m d)
              (rangeZ 1 (Z.to_nat (daysInMonth y m))))
      (rangeZ 1 12))
    (rangeZ 0 400) = true.
Proof. vm_cast_no_check (eq_refl true). Qed.
Lemma In_rangeZ (z : Z) (first count : nat) :
  Z.of_nat first <= z < Z.of_nat (first + count) -> In z (rangeZ first count).
Proof.
  intros H. unfold rangeZ. apply in_map_iff.
  exists (Z.to_nat z). split; [lia|]. apply in_seq. lia.
Qed.

Lemma isLeapYear_mod (y : Z) : isLeapYear (y mod 400) = isLeapYear y.
Proof.
  unfold isLeapYear.
  assert (H4 : (y mod 400) mod 4 = y mod 4).
  { rewrite (Z.div_mod y 400) at 2 by lia.
    replace (400 * (y / 400) + y mod 400) with (y mod 400 + (100 * (y / 400)) * 4) by lia.
    now rewrite Z_mod_plus_full. }
  assert (H100 : (y mod 400) mod 100 = y mod 100).
  { rewrite (Z.div_mod y 400) at 2 by lia.
    replace (400 * (y / 400) + y mod 400) with (y mod 400 + (4 * (y / 400)) * 100) by lia.
    now rewrite Z_mod_plus_full. }
  rewrite H4, H100, Z.mod_mod by lia. reflexivity.
Qed.

Lemma daysInMonth_mod (y m : Z) : daysInMonth (y mod 400) m = daysInMonth y m.
Proof. unfold daysInMonth. now rewrite isLeapYear_mod. Qed.

Lemma daysInMonth_bounds (y m : Z) : 28 <= daysInMonth y m <= 31.
Proof.
  unfold daysInMonth.
  destruct (m =? 2); [destruct (isLeapYear y); lia|].
  destruct ((m =? 4) || (m =? 6) || (m =? 9) || (m =? 11)); lia.
Qed.

Lemma civil_cycle (y m d : Z) :
  0 <= y < 400 -> validCivil y m d = true ->
  civil_from_days (days_from_civil y m d) = (y, m, d).
Proof.
  intros Hy Hv. unfold validCivil in Hv.
  repeat (apply andb_prop in Hv; destruct Hv as [Hv ?]).
  pose proof civilCycle_check as Hc.
  rewrite forallb_forall in Hc.
  specialize (Hc y ltac:(apply In_rangeZ; lia)).
  rewrite forallb_forall in Hc.
  specialize (Hc m ltac:(apply In_rangeZ; lia)).
  rewrite forallb_forall in Hc.
  pose proof (daysInMonth_bounds y m).
  specialize (Hc d ltac:(apply In_rangeZ; lia)).
  unfold civilRoundTrip in Hc.
  destruct (civil_from_days (days_from_civil y m d)) as [[y' m'] d'].
  repeat (apply andb_prop in Hc; destruct Hc as [Hc ?]).
  f_equal; [f_equal|]; lia.
Qed.

(** A date of the calendar is the date of its day number. *)
Lemma civil_roundtrip (y m d : Z) :
  validCivil y m d = true ->
  civil_from_days (days_from_civil y m d) = (y, m, d).
Proof.
  intros Hv.
  assert (Hv' : validCivil (y mod 400) m d = true).
  { unfold validCivil in *. now rewrite daysInMonth_mod. }
  pose proof (Z.mod_pos_bound y 400 ltac:(lia)) as Hb.
  pose proof (civil_cycle _ _ _ Hb Hv') as Hc.
  rewrite (Z.div_mod y 400) at 1 by lia.
  replace (400 * (y / 400) + y mod 400) with (y mod 400 + 400 * (y / 400)) by lia.
  rewrite days_from_civil_shift, civil_from_days_shift, Hc.
  f_equal. f_equal. pose proof (Z.div_mod y 400). lia.
Qed.

(** ** Texts of dates *)

Lemma yearTexts_check :
  forallb (fun y => readsBack (isoYear y) y) (rangeZ 0 (Z.to_nat 10000)) = true.
Proof. vm_cast_no_check (eq_refl true). Qed.

Lemma pad2Texts_check :
  forallb (fun n => readsBack (pad2 n) n) (rangeZ 0 100) = true.
Proof. vm_compute. reflexivity. Qed.

Lemma isoYear_readsBack (y : Z) : 0 <= y <= 9999 -> readsBack (isoYear y) y = true.
Proof.
  intros H. pose proof yearTexts_check as Hc.
  rewrite forallb_forall in Hc. apply Hc. apply In_rangeZ. lia.
Qed.

Lemma pad2_readsBack (n : Z) : 0 <= n <= 99 -> readsBack (pad2 n) n = true.
Proof.
  intros H. pose proof pad2Texts_check as Hc.
  rewrite forallb_forall in Hc. apply Hc. apply In_rangeZ. lia.
Qed.

Lemma readsBack_number (text : string) (n : Z) :
  readsBack text n = true -> jsNumber text = Some n.
Proof.
  unfold readsBack. intros H. apply andb_prop in H. destruct H as [_ H].
  destruct (jsNumber text); [|discriminate].
  apply Z.eqb_eq in H. now subst.
Qed.

Lemma readsBack_plain (text : string) (n : Z) :
  readsBack text n = true -> hasChar "-" text = false.
Proof.
  unfold readsBack. intros H. apply andb_prop in H. destruct H as [H _].
  now apply negb_true_iff in H.
Qed.

Lemma split_plain (sep : ascii) (s : string) :
  hasChar sep s = false -> split sep s = [s].
Proof.
  induction s as [|c rest IH]; simpl; [reflexivity|].
  intros H. apply orb_false_iff in H. destruct H as [Hc Hr].
  rewrite Hc, (IH Hr). reflexivity.
Qed.

Lemma split_app (sep : ascii) (a b : string) :
  hasChar sep a = false -> split sep (a ++ String sep b) = a :: split sep b.
Proof.
  induction a as [|c rest IH]; simpl.
  - intros _. now rewrite Ascii.eqb_refl.
  - intros H. apply orb_false_iff in H. destruct H as [Hc Hr].
    rewrite Hc, (IH Hr). reflexivity.
Qed.

(** The three numbers of a date text are the date it was written for. *)
Lemma isoDateText_numbers (y m d : Z) :
  0 <= y <= 9999 -> 0 <= m <= 99 -> 0 <= d <= 99 ->
  map jsNumber (split "-" (isoDateText y m d)) = [Some y; Some m; Some d].
Proof.
  intros Hy Hm Hd. unfold isoDateText.
  pose proof (isoYear_readsBack y Hy) as Ry.
  pose proof (pad2_readsBack m Hm) as Rm.
  pose proof (pad2_readsBack d Hd) as Rd.
  change ("-" ++ pad2 m ++ "-" ++ pad2 d) with (String "-" (pad2 m ++ String "-" (pad2 d))).
  rewrite split_app by (eapply readsBack_plain; eassumption).
  rewrite split_app by (eapply readsBack_plain; eassumption).
  rewrite split_plain by (eapply readsBack_plain; eassumption).
  simpl. rewrite (readsBack_number _ _ Ry), (readsBack_number _ _ Rm),
    (readsBack_number _ _ Rd). reflexivity.
Qed.

(** ** The dates of the picker *)

Lemma validCivil_bounds (y m d : Z) :
  validCivil y m d = true -> 1 <= m <= 12 /\ 1 <= d <= 31.
Proof.
  unfold validCivil. intros H.
  repeat (apply andb_prop in H; destruct H as [H ?]).
  pose proof (daysInMonth_bounds y m). lia.
Qed.

Lemma days_from_civil_day (y m d k : Z) :
  days_from_civil y m (d + k) = days_from_civil y m d + k.
Proof. unfold days_from_civil. lia. Qed.

Lemma DateUTC_noon (y m d k : Z) :
  100 <= y -> 1 <= m <= 12 ->
  DateUTC y (m - 1) (d + k) 12 = (days_from_civil y m d + k) * msPerDay + 43200000.
Proof.
  intros Hy Hm. unfold DateUTC, MakeDay.
  replace ((0 <=? y) && (y <=? 99)) with false
    by (symmetry; apply andb_false_iff; right; apply Z.leb_gt; lia).
  rewrite Z.div_small, Z.mod_small by lia.
  replace (y + 0) with y by lia. replace (m - 1 + 1) with m by lia.
  replace (days_from_civil y m 1 + (d + k) - 1) with (days_from_civil y m (1 + (d + k - 1)))
    by (rewrite days_from_civil_day; lia).
  replace (1 + (d + k - 1)) with (d + k) by lia.
  rewrite days_from_civil_day. lia.
Qed.

Lemma days_from_civil_bounds (y m d : Z) :
  100 <= y <= 9999 -> 1 <= m <= 12 -> 1 <= d <= 31 ->
  -720000 <= days_from_civil y m d <= 3000000.
Proof.
  intros Hy Hm Hd. unfold days_from_civil. cbv zeta.
  set (y' := if m <=? 2 then y - 1 else y).
  assert (Hy' : 99 <= y' <= 9999) by (unfold y'; destruct (m <=? 2); lia).
  clearbody y'.
  pose proof (Z.div_mod y' 400 ltac:(lia)) as H1.
  pose proof (Z.mod_pos_bound y' 400 ltac:(lia)) as H2.
  set (era := y' / 400) in *.
  assert (Hyoe : y' - era * 400 = y' mod 400) by lia.
  rewrite Hyoe. set (yoe := y' mod 400) in *.
  assert (Hera : 0 <= era <= 24) by lia.
  pose proof (Z.mod_pos_bound (m + 9) 12 ltac:(lia)) as H3.
  set (mp := (m + 9) mod 12) in *.
  assert (Hdoy : 0 <= (153 * mp + 2) / 5 < 400).
  { split; [apply Z.div_pos; lia | apply Z.div_lt_upper_bound; lia]. }
  assert (H4 : 0 <= yoe / 4 < 100).
  { split; [apply Z.div_pos; lia | apply Z.div_lt_upper_bound; lia]. }
  assert (H100 : 0 <= yoe / 100 < 4).
  { split; [apply Z.div_pos; lia | apply Z.div_lt_upper_bound; lia]. }
  assert (Hle : yoe / 100 <= yoe / 4) by (apply Z.div_le_compat_l; lia).
  lia.
Qed.

(** Noon of a day within 100,000,000 days of the epoch is a time of [Date]. *)
Lemma utcNoon_day (y m d k : Z) :
  100 <= y -> 1 <= m <= 12 ->
  -100000000 <= days_from_civil y m d + k < 100000000 ->
  utcNoon (Some y) (Some m) (Some d) k
  = Some ((days_from_civil y m d + k) * msPerDay + 43200000).
Proof.
  intros Hy Hm Hk. unfold utcNoon. rewrite DateUTC_noon by assumption.
  unfold timeClip, inDateRange, maxTime, msPerDay.
  destruct (Z.abs _ <=? _) eqn:E; [reflexivity|].
  apply Z.leb_gt in E. lia.
Qed.

Lemma noon_day (dayNumber : Z) : (dayNumber * msPerDay + 43200000) / msPerDay = dayNumber.
Proof.
  unfold msPerDay. rewrite Z.div_add_l by lia.
  rewrite Z.div_small by lia. lia.
Qed.

Lemma isoDatePart_noon (dayNumber : Z) :
  isoDatePart (dayNumber * msPerDay + 43200000) = isoDateOfDay dayNumber.
Proof. unfold isoDatePart. now rewrite noon_day. Qed.

Lemma isoDateOfDay_civil (y m d : Z) :
  validCivil y m d = true -> isoDateOfDay (days_from_civil y m d) = isoDateText y m d.
Proof. intros H. unfold isoDateOfDay. now rewrite civil_roundtrip. Qed.

Lemma utcDayKey_noon (dayNumber : Z) :
  utcDayKey (Some (dayNumber * msPerDay + 43200000)) = Some (weekdayOfDay dayNumber).
Proof.
  unfold utcDayKey, getUTCDay, weekdayOfDay. rewrite noon_day.
  assert (H : (dayNumber + 4) mod 7 = ((dayNumber + 3) mod 7 + 1) mod 7).
  { rewrite Zplus_mod_idemp_l. f_equal. lia. }
  rewrite H. clear H.
  pose proof (Z.mod_pos_bound (dayNumber + 3) 7 ltac:(lia)) as Hb.
  set (r := (dayNumber + 3) mod 7) in *.
  assert (Hr : r = 0 \/ r = 1 \/ r = 2 \/ r = 3 \/ r = 4 \/ r = 5 \/ r = 6) by lia.
  destruct Hr as [-> | [-> | [-> | [-> | [-> | [-> | ->]]]]]]; reflexivity.
Qed.

Lemma Weekday_eqb_eq (a b : Weekday) : Weekday_eqb a b = true <-> a = b.
Proof. destruct a, b; simpl; split; intros H; try reflexivity; discriminate. Qed.

Lemma WEEKDAY_LABELS_inj (a b : Weekday) : WEEKDAY_LABELS a = WEEKDAY_LABELS b -> a = b.
Proof. destruct a, b; simpl; intros H; try reflexivity; discriminate. Qed.

Lemma In_offsetsUpTo (last k : Z) : In k (offsetsUpTo last) <-> 0 <= k <= last.
Proof.
  unfold offsetsUpTo. rewrite in_map_iff. split.
  - intros [n [<- Hn]]. apply in_seq in Hn. lia.
  - intros H. exists (Z.to_nat k). split; [lia|]. apply in_seq. lia.
Qed.

Lemma distinctDays_unique (hours : list WorkingHoursDay) (a b : WorkingHoursDay) :
  distinctDays hours = true -> In a hours -> In b hours -> day a = day b ->
  find (fun x => Weekday_eqb (day x) (day a)) hours = Some b.
Proof.
  induction hours as [|h rest IH]; simpl; [contradiction|].
  intros Hd Ha Hb Hab. apply andb_prop in Hd. destruct Hd as [Hfresh Hd].
  apply negb_true_iff in Hfresh.
  assert (Hnone : forall x, In x rest -> day x <> day h).
  { intros x Hx Heq.
    assert (E : existsb (fun x => Weekday_eqb (day x) (day h)) rest = true).
    { apply existsb_exists. exists x. split; [assumption|]. now apply Weekday_eqb_eq. }
    congruence. }
  destruct (Weekday_eqb (day h) (day a)) eqn:E.
  - apply Weekday_eqb_eq in E.
    destruct Hb as [-> | Hb]; [reflexivity|].
    exfalso. apply (Hnone b Hb). congruence.
  - assert (day h <> day a) by (intros Heq; apply Weekday_eqb_eq in Heq; congruence).
    destruct Ha as [-> | Ha]; [congruence|].
    destruct Hb as [-> | Hb]; [congruence|].
    now apply IH.
Qed.

(** With one entry for a weekday at most, the day counts as closed exactly
    when no entry of that weekday is enabled. *)
Lemma dayEnabled_false (hours : list WorkingHoursDay) (wd : Weekday) :
  distinctDays hours = true ->
  dayEnabled (findDay hours (Some wd)) = false
  <-> forall h, In h hours -> day h = wd -> enabled h = false.
Proof.
  intros Hd. unfold findDay, dayEnabled. split.
  - intros H h Hin Hday. subst wd.
    rewrite (distinctDays_unique hours h h Hd Hin Hin eq_refl) in H. exact H.
  - intros H. destruct (find _ hours) as [h|] eqn:E; [|reflexivity].
    apply find_some in E. destruct E as [Hin Hk].
    apply Weekday_eqb_eq in Hk. now apply H.
Qed.

Lemma In_includeDays (hours : list WorkingHoursDay) (wd : Weekday) :
  In (WEEKDAY_LABELS wd) (map (fun d => WEEKDAY_LABELS (day d)) (filter enabled hours))
  <-> exists h, In h hours /\ day h = wd /\ enabled h = true.
Proof.
  rewrite in_map_iff. split.
  - intros [h [Hl Hin]]. apply filter_In in Hin. destruct Hin as [Hin He].
    exists h. repeat split; try assumption. now apply WEEKDAY_LABELS_inj.
  - intros [h [Hin [Hday He]]]. exists h. split; [now subst|].
    apply filter_In. now split.
Qed.

Lemma unavailableLoop_dates (hours : list WorkingHoursDay) (y m d : Z)
  (offsets : list Z) (unavailable : list string) :
  100 <= y -> 1 <= m <= 12 ->
  (forall k, In k offsets -> -100000000 <= days_from_civil y m d + k < 100000000) ->
  unavailableLoop hours (Some y) (Some m) (Some d) offsets unavailable
  = Ret (unavailable ++ closedDates hours (days_from_civil y m d) offsets)%list.
Proof.
  intros Hy Hm. revert unavailable.
  induction offsets as [|k rest IH]; intros unavailable Hrange;
    cbn [unavailableLoop closedDates flat_map].
  - now rewrite app_nil_r.
  - rewrite utcNoon_day by (try assumption; apply Hrange; now left).
    cbn [toISODate obind]. rewrite isoDatePart_noon, utcDayKey_noon, IH
      by (intros j Hj; apply Hrange; now right).
    fold (closedDates hours (days_from_civil y m d) rest).
    destruct (dayEnabled _); cbn [negb app]; [reflexivity|].
    now rewrite <- app_assoc.
Qed.

(** The picker data for a today the library writes as [y-m-d], with a
    horizon that stays within the range of [Date]. *)
Lemma getCalendarPickerData_dates {L : DateLib} (env : Env) (w : World) (y m d : Z) :
  let config := readBookingConfig env in
  let horizon := match maxAdvanceDays config with Some n => n | None => 14 end in
  let today := days_from_civil y m d in
  formatInTimeZone (Some (clock env)) (timezone config) "yyyy-MM-dd"
  = Ret (isoDateText y m d) ->
  validCivil y m d = true ->
  100 <= y <= 9999 ->
  -100000000 <= today + horizon < 100000000 ->
  getCalendarPickerData env w
  = (Ret {| minDate := isoDateText y m d;
            maxDate := isoDateOfDay (today + horizon);
            includeDays := map (fun h => WEEKDAY_LABELS (day h))
                               (filter enabled (workingHours config));
            unavailableDates := closedDates (workingHours config) today
                                  (offsetsUpTo horizon) |}, w).
Proof.
  intros config horizon today Hfmt Hvalid Hy Hrange.
  destruct (validCivil_bounds y m d Hvalid) as [Hm Hd].
  pose proof (days_from_civil_bounds y m d Hy Hm Hd) as Htoday. fold today in Htoday.
  unfold getCalendarPickerData, bind, getCalendarBookingConfig, asks, lift, ret.
  fold config. fold horizon. rewrite Hfmt.
  rewrite isoDateText_numbers by lia. simpl nth_error. cbv beta iota.
  rewrite utcNoon_day by (fold today; lia).
  cbn [toISODate]. rewrite isoDatePart_noon.
  rewrite unavailableLoop_dates;
    [ | lia | lia | intros k Hk; apply In_offsetsUpTo in Hk; fold today; lia ].
  reflexivity.
Qed.

Lemma In_closedDates (hours : list WorkingHoursDay) (today : Z) (offsets : list Z)
  (text : string) :
  In text (closedDates hours today offsets)
  <-> exists k, In k offsets /\ text = isoDateOfDay (today + k)
                /\ dayEnabled (findDay hours (Some (weekdayOfDay (today + k)))) = false.
Proof.
  unfold closedDates. rewrite in_flat_map. split.
  - intros [k [Hk Hin]]. exists k.
    destruct (dayEnabled _) eqn:E; simpl in Hin; [contradiction|].
    destruct Hin as [<- | []]. auto.
  - intros [k [Hk [-> E]]]. exists k. split; [assumption|].
    rewrite E. now left.
Qed.

(** C8. [getCalendarPickerData]: when the library writes today's date in
    the configured zone as [y-m-d] and the last day of the horizon is a day
    of [Date], the minimum date is that date, the maximum date lies
    [maxAdvanceDays] days (14 by default) after it, the included weekdays are exactly those of the enabled entries, and the
    excluded dates are exactly the dates from the minimum to the maximum,
    ends included, whose weekday has no enabled entry. *)
Theorem C8_picker_dates {L : DateLib} (env : Env) (w : World) (y m d : Z) :
  let config := readBookingConfig env in
  let horizon := match maxAdvanceDays config with Some n => n | None => 14 end in
  let today := days_from_civil y m d in
  formatInTimeZone (Some (clock env)) (timezone config) "yyyy-MM-dd"
  = Ret (isoDateText y m d) ->
  validCivil y m d = true ->
  100 <= y <= 9999 ->
  -100000000 <= today + horizon < 100000000 ->
  distinctDays (workingHours config) = true ->
  exists picker,
    getCalendarPickerData env w = (Ret picker, w)
    /\ minDate picker = isoDateOfDay today
    /\ maxDate picker = isoDateOfDay (today + horizon)
    /\ (forall wd,
          In (WEEKDAY_LABELS wd) (includeDays picker)
          <-> exists h, In h (workingHours config) /\ day h = wd /\ enabled h = true)
    /\ (forall text,
          In text (unavailableDates picker)
          <-> exists k,
                0 <= k <= horizon
                /\ text = isoDateOfDay (today + k)
                /\ forall h, In h (workingHours config) ->
                             day h = weekdayOfDay (today + k) -> enabled h = false).
Proof.
  intros config horizon today Hfmt Hvalid Hy Hrange Hdistinct.
  rewrite (getCalendarPickerData_dates env w y m d Hfmt Hvalid Hy Hrange).
  eexists. split; [reflexivity|]. cbn [minDate maxDate includeDays unavailableDates].
  fold config. fold horizon. fold today. split; [|split; [|split]].
  - symmetry. now apply isoDateOfDay_civil.
  - reflexivity.
  - intros wd. apply In_includeDays.
  - intros text. rewrite In_closedDates. split.
    + intros [k [Hk [-> E]]]. exists k. apply In_offsetsUpTo in Hk.
      repeat split; try lia. now apply dayEnabled_false.
    + intros [k [Hk [-> E]]]. exists k. split; [now apply In_offsetsUpTo|].
      split; [reflexivity|]. now apply dayEnabled_false.
Qed.

#[local] Existing Instance fixedZones.

Lemma C8_picker_dates_witness :
  exists picker,
    getCalendarPickerData sampleEnv sampleWorld = (Ret picker, sampleWorld)
    /\ minDate picker = "2025-06-01"
    /\ maxDate picker = "2025-06-15".
Proof.
  destruct (@C8_picker_dates fixedZones sampleEnv sampleWorld 2025 6 1)
    as [picker [Hrun [Hmin [Hmax _]]]];
    [reflexivity | reflexivity | lia | vm_compute; split; [discriminate | reflexivity]
    | reflexivity |].
  exists picker. split; [exact Hrun|]. split.
  - rewrite Hmin. reflexivity.
  - rewrite Hmax. reflexivity.
Defined.

(** ** Running the handlers *)

Ltac run :=
  unfold getCalendarBookingConfig, bind, ret, lift, asks, gets, throw, modify;
  cbn beta iota.

Lemma getAvailableSlots_unconnected {L : DateLib} (env : Env) (w : World)
  (dateStr : string) (calendarConfig : option GoogleCalendarConfig) :
  getCalendarConfig env = Ret calendarConfig ->
  connectedCalendar calendarConfig = None ->
  getAvailableSlots dateStr env w = (Throw notConnected, w).
Proof.
  intros Hc Hn. unfold getAvailableSlots. run. rewrite Hc, Hn. reflexivity.
Qed.


(** C9. [getAvailableSlots] looks for the connected calendar before it
    looks at the weekday: with no calendar connected it throws for every
    date, and a [BOOKING_START] exchange that carries a date answers with
    the generic error response, whatever the weekday of the date. *)
Theorem C9_calendar_before_weekday {L : DateLib} (env : Env) (w : World)
  (data : JSON) (calendarConfig : option GoogleCalendarConfig) :
  truthy (jsGet data "selected_date") = true ->
  getCalendarConfig env = Ret calendarConfig ->
  connectedCalendar calendarConfig = None ->
  (forall dateStr, getAvailableSlots dateStr env w = (Throw notConnected, w))
  /\ handleDataExchange (JStr "BOOKING_START") data env w
     = (Ret (createErrorResponse "Google Calendar nao conectado"), w)
  /\ (forall screen fields,
        fst (handleDataExchange (JStr "BOOKING_START") data env w)
        <> Ret (createSuccessResponse screen fields)).
Proof.
  intros Hdate Hc Hn.
  assert (Hslots : forall dateStr,
             getAvailableSlots dateStr env w = (Throw notConnected, w)).
  { intros dateStr. exact (getAvailableSlots_unconnected env w dateStr _ Hc Hn). }
  assert (Hrun : handleDataExchange (JStr "BOOKING_START") data env w
                 = (Ret (createErrorResponse "Google Calendar nao conectado"), w)).
  { unfold handleDataExchange, tryCatch. cbn [String.eqb Ascii.eqb Bool.eqb].
    unfold bookingStart. rewrite Hdate. cbn [negb]. unfold bind at 1.
    rewrite Hslots. reflexivity. }
  split; [exact Hslots|]. split; [exact Hrun|].
  intros screen fields. rewrite Hrun. cbn [fst]. discriminate.
Qed.

Lemma C9_calendar_before_weekday_witness :
  handleDataExchange (JStr "BOOKING_START")
    (JObj [("selected_date", JStr "2025-06-01")]) unconnectedEnv sampleWorld
  = (Ret (createErrorResponse "Google Calendar nao conectado"), sampleWorld).
Proof.
  apply (@C9_calendar_before_weekday fixedZones unconnectedEnv sampleWorld
           (JObj [("selected_date", JStr "2025-06-01")]) None);
    reflexivity.
Defined.






(** ** Objects *)



(** ** The day of a listing *)

Lemma getAvailableSlots_lookup {L : DateLib} (env : Env) (w : World)
  (dateStr : string) (items : list BusyItem) (workingDay : option WorkingHoursDay) :
  DayLookup env dateStr items workingDay ->
  getAvailableSlots dateStr env w
  = (match workingDay with
     | None => Ret []
     | Some d =>
         if negb (enabled d) then Ret []
         else
           let config := readBookingConfig env in
           periodsLoop dateStr (timezone config) (slotDurationMinutes config)
             (timeClip (clock env + advanceOf config * 60 * 60 * 1000))
             (map (expandBusy (slotBufferMinutes config * 60 * 1000)) items)
             (workPeriodsOf d) []
     end, w).
Proof.
  intros [calendar dayStart dayEnd dayKey calendarConfig
            Hconfig Hconnected Hstart Hend Hbusy Hweekday Hday].
  unfold getAvailableSlots. run.
  rewrite Hconfig, Hconnected. cbn beta iota zeta.
  rewrite Hstart, Hend. cbn [toISOString].
  rewrite Hbusy, Hweekday, Hday.
  destruct workingDay as [d|]; [|reflexivity].
  destruct (enabled d); reflexivity.
Qed.




(** ** The loops of the listing *)

Lemma candidateStarts_step (current workEnd slotDuration : Z) :
  0 < slotDuration -> current + slotDuration <= workEnd ->
  candidateStarts current workEnd slotDuration
  = current :: candidateStarts (current + slotDuration) workEnd slotDuration.
Proof.
  intros Hd Hle. unfold candidateStarts.
  assert (Hq : (workEnd - current) / slotDuration
               = (workEnd - (current + slotDuration)) / slotDuration + 1).
  { replace (workEnd - current)
      with (workEnd - (current + slotDuration) + 1 * slotDuration) by lia.
    now rewrite Z.div_add by lia. }
  assert (Hpos : 0 <= (workEnd - (current + slotDuration)) / slotDuration).
  { apply Z.div_pos; lia. }
  rewrite Hq.
  replace (Z.to_nat ((workEnd - (current + slotDuration)) / slotDuration + 1))
    with (S (Z.to_nat ((workEnd - (current + slotDuration)) / slotDuration))) by lia.
  cbn [seq map]. f_equal; [lia|].
  rewrite <- seq_shift, map_map. apply map_ext. intros k. lia.
Qed.

Lemma candidateStarts_done (current workEnd slotDuration : Z) :
  0 < slotDuration -> workEnd < current + slotDuration ->
  candidateStarts current workEnd slotDuration = [].
Proof.
  intros Hd Hlt. unfold candidateStarts.
  assert (Hq : (workEnd - current) / slotDuration < 1).
  { apply Z.div_lt_upper_bound; lia. }
  replace (Z.to_nat ((workEnd - current) / slotDuration)) with O by lia.
  reflexivity.
Qed.

Lemma existsb_map {A B : Type} (f : B -> bool) (g : A -> B) (l : list A) :
  existsb f (map g l) = existsb (fun x => f (g x)) l.
Proof. induction l as [|x rest IH]; simpl; [reflexivity | now rewrite IH]. Qed.

Lemma hasConflict_overlapsBusy (bufferMinutes durationMinutes : Z)
  (items : list BusyItem) (start : Z) :
  hasConflict (map (expandBusy (bufferMinutes * 60 * 1000)) items)
    (Some start) (Some (start + durationMinutes * 60 * 1000))
  = overlapsBusy bufferMinutes durationMinutes items start.
Proof.
  unfold hasConflict, overlapsBusy. rewrite existsb_map.
  induction items as [|item rest IH]; [reflexivity|].
  cbn [existsb]. rewrite IH. cbn [expandBusy startMs endMs].
  now rewrite Z.gtb_ltb.
Qed.

Lemma overlapsBusy_spec (bufferMinutes durationMinutes : Z)
  (items : list BusyItem) (start : Z) :
  overlapsBusy bufferMinutes durationMinutes items start = true
  <-> exists item,
        In item items
        /\ start < busy_end item + bufferMinutes * 60 * 1000
        /\ start + durationMinutes * 60 * 1000 > busy_start item - bufferMinutes * 60 * 1000.
Proof.
  unfold overlapsBusy. rewrite existsb_exists. split.
  - intros [item [Hin H]]. apply andb_prop in H. destruct H as [H1 H2].
    exists item. apply Z.ltb_lt in H1. apply Z.ltb_lt in H2. repeat split; [assumption|lia|lia].
  - intros [item [Hin [H1 H2]]]. exists item. split; [assumption|].
    apply andb_true_intro. split; apply Z.ltb_lt; lia.
Qed.

Section ListingFacts.

Context {L : DateLib}.

Variables (config : CalendarBookingConfig) (now : Z) (dateStr : string)
  (items : list BusyItem).

Local Notation minAllowedTime := (timeClip (now + advanceOf config * 60 * 60 * 1000)).

(** The earliest start allowed is a time of [Date]. *)
Hypothesis advance_in_range :
  inDateRange (now + advanceOf config * 60 * 60 * 1000) = true.

Local Notation busy := (map (expandBusy (slotBufferMinutes config * 60 * 1000)) items).

Local Notation turn :=
  (considerSlot dateStr (timezone config) (slotDurationMinutes config) minAllowedTime busy).

(** One turn of the loop on a candidate whose start resolves and whose end
    is a time of [Date]. *)
Lemma considerSlot_resolved (currentMinutes start : Z) :
  slotStartAt dateStr (timezone config) currentMinutes = Some start ->
  inDateRange (start + slotDurationMinutes config * 60 * 1000) = true ->
  turn currentMinutes
  = Ret (if tooSoon now (advanceOf config) start
            || overlapsBusy (slotBufferMinutes config) (slotDurationMinutes config)
                 items start
         then None
         else Some (slotOf currentMinutes start)).
Proof.
  intros Hstart Hend. unfold considerSlot. rewrite Hstart.
  unfold plusMs, timeClip. rewrite advance_in_range, Hend.
  cbn [timeLe]. rewrite hasConflict_overlapsBusy.
  unfold tooSoon.
  destruct (start <=? now + advanceOf config * 60 * 60 * 1000); [reflexivity|].
  cbn [orb].
  destruct (overlapsBusy _ _ items start); reflexivity.
Qed.

Lemma considerSlot_kept (currentMinutes : Z) :
  candidateResolves config dateStr currentMinutes = true ->
  exists pushed,
    turn currentMinutes = Ret pushed
    /\ keptSlot config now dateStr items currentMinutes
       = match pushed with Some s => [s] | None => [] end.
Proof.
  unfold candidateResolves. intros Hres.
  destruct (slotStartAt dateStr (timezone config) currentMinutes) as [start|] eqn:Hstart;
    [|discriminate].
  rewrite (considerSlot_resolved _ _ Hstart Hres).
  eexists. split; [reflexivity|]. unfold keptSlot. rewrite Hstart.
  destruct (tooSoon _ _ _ || overlapsBusy _ _ _ _); reflexivity.
Qed.

Lemma periodLoop_candidates (workEnd : Z) (fuel : nat) :
  0 < slotDurationMinutes config ->
  forall (current : Z) (slots : list Slot),
    (Z.to_nat ((workEnd - current) / slotDurationMinutes config) < fuel)%nat ->
    forallb (candidateResolves config dateStr)
            (candidateStarts current workEnd (slotDurationMinutes config)) = true ->
    periodLoop dateStr (timezone config) (slotDurationMinutes config) minAllowedTime busy
      fuel workEnd current slots
    = Ret (slots ++ flat_map (keptSlot config now dateStr items)
                      (candidateStarts current workEnd (slotDurationMinutes config)))%list.
Proof.
  intros Hd. induction fuel as [|fuel IH]; intros current slots Hfuel Hres; [lia|].
  cbn [periodLoop].
  destruct (current + slotDurationMinutes config <=? workEnd) eqn:Hle.
  - apply Z.leb_le in Hle.
    rewrite (candidateStarts_step current workEnd _ Hd Hle) in Hres |- *.
    cbn [forallb] in Hres. apply andb_prop in Hres. destruct Hres as [Hhere Hrest].
    destruct (considerSlot_kept _ Hhere) as [pushed [Hturn Hkept]].
    rewrite Hturn. cbn [obind].
    rewrite IH.
    + cbn [flat_map]. rewrite Hkept. destruct pushed; [|reflexivity].
      now rewrite <- app_assoc.
    + assert (Hq : (workEnd - current) / slotDurationMinutes config
                   = (workEnd - (current + slotDurationMinutes config))
                     / slotDurationMinutes config + 1).
      { replace (workEnd - current)
          with (workEnd - (current + slotDurationMinutes config)
                + 1 * slotDurationMinutes config) by lia.
        now rewrite Z.div_add by lia. }
      assert (0 <= (workEnd - (current + slotDurationMinutes config))
                   / slotDurationMinutes config) by (apply Z.div_pos; lia).
      lia.
    + exact Hrest.
  - apply Z.leb_gt in Hle.
    rewrite (candidateStarts_done current workEnd _ Hd Hle).
    cbn [flat_map]. now rewrite app_nil_r.
Qed.

Lemma loopFuel_enough (workStart workEnd : Z) :
  0 < slotDurationMinutes config ->
  (Z.to_nat ((workEnd - workStart) / slotDurationMinutes config)
   < loopFuel (slotDurationMinutes config) workStart workEnd)%nat.
Proof.
  intros Hd. unfold loopFuel. rewrite (proj2 (Z.ltb_lt _ _) Hd).
  destruct (Z.le_gt_cases 0 (workEnd - workStart)) as [Hpos | Hneg].
  - assert ((workEnd - workStart) / slotDurationMinutes config <= workEnd - workStart).
    { apply Z.div_le_upper_bound; [lia|]. nia. }
    lia.
  - assert ((workEnd - workStart) / slotDurationMinutes config < 0)
      by (apply Z.div_lt_upper_bound; lia).
    lia.
Qed.

Lemma periodsLoop_listSlots (workPeriods : list Period) :
  0 < slotDurationMinutes config ->
  candidatesResolve config dateStr workPeriods = true ->
  forall slots,
    periodsLoop dateStr (timezone config) (slotDurationMinutes config) minAllowedTime busy
      workPeriods slots
    = Ret (slots ++ listSlots config now dateStr items workPeriods)%list.
Proof.
  intros Hd. induction workPeriods as [|period rest IH]; intros Hres slots.
  - cbn [periodsLoop listSlots flat_map]. now rewrite app_nil_r.
  - cbn [candidatesResolve forallb] in Hres. apply andb_prop in Hres.
    destruct Hres as [Hhere Hrest].
    cbn [periodsLoop]. cbv zeta.
    rewrite periodLoop_candidates;
      [ | exact Hd | apply loopFuel_enough; exact Hd | exact Hhere ].
    cbn [obind]. rewrite (IH Hrest).
    unfold listSlots. cbn [flat_map]. unfold candidatesOf at 2.
    now rewrite <- app_assoc.
Qed.

Lemma In_listSlots (workPeriods : list Period) (s : Slot) :
  In s (listSlots config now dateStr items workPeriods)
  <-> exists period m start,
        In period workPeriods
        /\ In m (candidatesOf period (slotDurationMinutes config))
        /\ slotStartAt dateStr (timezone config) m = Some start
        /\ s = slotOf m start
        /\ tooSoon now (advanceOf config) start = false
        /\ overlapsBusy (slotBufferMinutes config) (slotDurationMinutes config)
             items start = false.
Proof.
  unfold listSlots. rewrite in_flat_map. split.
  - intros [period [Hp Hin]]. apply in_flat_map in Hin.
    destruct Hin as [m [Hm Hin]]. unfold keptSlot in Hin.
    destruct (slotStartAt dateStr (timezone config) m) as [start|] eqn:Hstart;
      [|contradiction].
    destruct (tooSoon _ _ _) eqn:Hsoon; [contradiction|].
    destruct (overlapsBusy _ _ _ _) eqn:Hbusy; [contradiction|].
    destruct Hin as [<- | []].
    exists period, m, start. repeat split; assumption.
  - intros [period [m [start [Hp [Hm [Hstart [-> [Hsoon Hbusy]]]]]]]].
    exists period. split; [assumption|]. apply in_flat_map.
    exists m. split; [assumption|]. unfold keptSlot.
    rewrite Hstart, Hsoon, Hbusy. now left.
Qed.

End ListingFacts.

(** The listing of an enabled day is the list of the specification. *)
Lemma getAvailableSlots_listSlots {L : DateLib} (env : Env) (w : World)
  (dateStr : string) (items : list BusyItem) (workingDay : WorkingHoursDay) :
  DayLookup env dateStr items (Some workingDay) ->
  enabled workingDay = true ->
  0 < slotDurationMinutes (readBookingConfig env) ->
  inDateRange (clock env + advanceOf (readBookingConfig env) * 60 * 60 * 1000) = true ->
  candidatesResolve (readBookingConfig env) dateStr (workPeriodsOf workingDay) = true ->
  getAvailableSlots dateStr env w
  = (Ret (listSlots (readBookingConfig env) (clock env) dateStr items
            (workPeriodsOf workingDay)), w).
Proof.
  intros Hlookup Hen Hd Hnow Hres.
  rewrite (getAvailableSlots_lookup env w dateStr items (Some workingDay) Hlookup).
  rewrite Hen. cbn [negb]. cbv zeta.
  now rewrite periodsLoop_listSlots.
Qed.

(** The end of a candidate that resolves is a time of [Date]. *)
Lemma candidatesResolve_end {L : DateLib} (config : CalendarBookingConfig)
  (dateStr : string) (workPeriods : list Period) (period : Period) (m start : Z) :
  candidatesResolve config dateStr workPeriods = true ->
  In period workPeriods ->
  In m (candidatesOf period (slotDurationMinutes config)) ->
  slotStartAt dateStr (timezone config) m = Some start ->
  inDateRange (start + slotDurationMinutes config * 60 * 1000) = true.
Proof.
  unfold candidatesResolve. intros Hres Hp Hm Hstart.
  rewrite forallb_forall in Hres. specialize (Hres period Hp).
  rewrite forallb_forall in Hres. specialize (Hres m Hm).
  unfold candidateResolves in Hres. now rewrite Hstart in Hres.
Qed.

(** C4. In [getAvailableSlots] every busy interval is widened by the buffer
    on both ends, and a candidate that is not too soon is dropped exactly
    when [start < busyEnd + buffer] and [start + duration > busyStart - buffer]
    for some busy interval; the listing is made of the candidates that pass.
    The times of the periods are plain, the numbers of the configuration
    modest, and the earliest start allowed and the ends of the candidates are
    times of [Date].
    On the Monday of [busyMondayEnv] (busy 10:00 to 10:30, buffer 10, duration
    30) the candidates 09:49 and 09:40 are dropped and 10:40 is listed. *)
Theorem C4_busy_overlap {L : DateLib} (env : Env) (w : World) (dateStr : string)
  (items : list BusyItem) (workingDay : WorkingHoursDay) :
  let config := readBookingConfig env in
  let bufferMs := slotBufferMinutes config * 60 * 1000 in
  let durationMs := slotDurationMinutes config * 60 * 1000 in
  let minAllowedTime := clock env + advanceOf config * 60 * 60 * 1000 in
  let overlaps (start : Z) :=
    exists item,
      In item items
      /\ start < busy_end item + bufferMs
      /\ start + durationMs > busy_start item - bufferMs in
  let turn :=
    considerSlot dateStr (timezone config) (slotDurationMinutes config)
      (timeClip minAllowedTime) (map (expandBusy bufferMs) items) in
  DayLookup env dateStr items (Some workingDay) ->
  enabled workingDay = true ->
  0 < slotDurationMinutes config ->
  modestConfig config = true ->
  plainPeriods (workPeriodsOf workingDay) = true ->
  inDateRange minAllowedTime = true ->
  candidatesResolve config dateStr (workPeriodsOf workingDay) = true ->
  (forall item,
     startMs (expandBusy bufferMs item) = busy_start item - bufferMs
     /\ endMs (expandBusy bufferMs item) = busy_end item + bufferMs)
  /\ (forall period m start,
        In period (workPeriodsOf workingDay) ->
        In m (candidatesOf period (slotDurationMinutes config)) ->
        slotStartAt dateStr (timezone config) m = Some start ->
        minAllowedTime < start ->
        (turn m = Ret None <-> overlaps start)
        /\ (turn m = Ret (Some (slotOf m start)) <-> ~ overlaps start))
  /\ (exists slots,
        getAvailableSlots dateStr env w = (Ret slots, w)
        /\ forall s,
             In s slots
             <-> exists period m start,
                   In period (workPeriodsOf workingDay)
                   /\ In m (candidatesOf period (slotDurationMinutes config))
                   /\ slotStartAt dateStr (timezone config) m = Some start
                   /\ s = slotOf m start
                   /\ minAllowedTime < start
                   /\ ~ overlaps start)
  /\ (map (fun m => timeText m) [589; 580; 640] = ["09:49"; "09:40"; "10:40"]
      /\ map (fun period => candidatesOf period 30)
           (workPeriodsOf
              {| day := mon; enabled := true; wh_start := "09:00"; wh_end := "18:00";
                 wh_slots := [ {| period_start := "09:49"; period_end := "10:19" |};
                               {| period_start := "09:40"; period_end := "10:10" |};
                               {| period_start := "10:40"; period_end := "11:10" |} ] |})
         = [[589]; [580]; [640]]
      /\ @getAvailableSlots fixedZones "2025-06-02" busyMondayEnv sampleWorld
         = (Ret [ {| slot_id := "2025-06-02T13:40:00.000Z"; slot_title := "10:40" |} ],
            sampleWorld)).
Proof.
  intros config bufferMs durationMs minAllowedTime overlaps turn Hlookup Hen Hd
    Hmodest Hplain Hnow Hres.
  assert (Hover : forall start,
             overlapsBusy (slotBufferMinutes config) (slotDurationMinutes config)
               items start = true <-> overlaps start).
  { intros start. apply overlapsBusy_spec. }
  assert (Hnot : forall start,
             overlapsBusy (slotBufferMinutes config) (slotDurationMinutes config)
               items start = false <-> ~ overlaps start).
  { intros start. split; intros H.
    - intros Ho. apply Hover in Ho. congruence.
    - destruct (overlapsBusy (slotBufferMinutes config) (slotDurationMinutes config)
                  items start) eqn:E; [|reflexivity].
      exfalso. apply H. now apply Hover. }
  split; [intros item; split; reflexivity|].
  split; [|split].
  - intros period m start Hp Hm Hstart Hlate.
    pose proof (candidatesResolve_end config dateStr _ period m start Hres Hp Hm Hstart)
      as Hend.
    unfold turn, minAllowedTime, bufferMs.
    rewrite (considerSlot_resolved config (clock env) dateStr items Hnow m start Hstart Hend).
    assert (Hsoon : tooSoon (clock env) (advanceOf config) start = false).
    { unfold tooSoon. apply Z.leb_gt. exact Hlate. }
    rewrite Hsoon. cbn [orb].
    destruct (overlapsBusy _ _ items start) eqn:E.
    + apply Hover in E. split; split; intros H; try reflexivity;
        try discriminate; try (exfalso; now apply H). exact E.
    + apply Hnot in E. split; split; intros H; try reflexivity;
        try discriminate; try contradiction. exact E.
  - exists (listSlots config (clock env) dateStr items (workPeriodsOf workingDay)).
    split; [now apply getAvailableSlots_listSlots|].
    intros s. rewrite In_listSlots. unfold tooSoon. fold minAllowedTime.
    split; intros [period [m [start [Hp [Hm [Hstart [Hs [Hsoon Hbusy]]]]]]]];
      exists period, m, start; repeat split; try assumption.
    + now apply Z.leb_gt.
    + now apply Hnot.
    + now apply Z.leb_gt.
    + now apply Hnot.
  - split; [reflexivity|]. split; vm_compute; reflexivity.
Qed.

Lemma C4_busy_overlap_witness :
  considerSlot "2025-06-02" "America/Sao_Paulo" 30
    (timeClip (clock busyMondayEnv + 4 * 60 * 60 * 1000))
    (map (expandBusy (10 * 60 * 1000))
       [ {| busy_start := 1748869200000; busy_end := 1748871000000 |} ]) 589
  = Ret None
  /\ considerSlot "2025-06-02" "America/Sao_Paulo" 30
       (timeClip (clock busyMondayEnv + 4 * 60 * 60 * 1000))
       (map (expandBusy (10 * 60 * 1000))
          [ {| busy_start := 1748869200000; busy_end := 1748871000000 |} ]) 640
     = Ret (Some (slotOf 640 1748871600000)).
Proof.
  destruct (@C4_busy_overlap fixedZones busyMondayEnv sampleWorld "2025-06-02"
              [ {| busy_start := 1748869200000; busy_end := 1748871000000 |} ]
              {| day := mon; enabled := true; wh_start := "09:00"; wh_end := "18:00";
                 wh_slots := [ {| period_start := "09:49"; period_end := "10:19" |};
                               {| period_start := "09:40"; period_end := "10:10" |};
                               {| period_start := "10:40"; period_end := "11:10" |} ] |})
    as [_ [Hturn _]].
  - apply (@dayLookup fixedZones busyMondayEnv "2025-06-02" _ _
             "primary" 1748833200000 1748919599000 (Some mon)
             (Some {| calendarId := Some "primary" |}));
      reflexivity.
  - reflexivity.
  - reflexivity.
  - reflexivity.
  - reflexivity.
  - reflexivity.
  - vm_compute. reflexivity.
  - split.
    + destruct (Hturn {| period_start := "09:49"; period_end := "10:19" |}
                  589 1748868540000
                  ltac:(vm_compute; auto) ltac:(vm_compute; auto)
                  eq_refl ltac:(vm_compute; reflexivity))
        as [[_ Hdrop] _].
      apply Hdrop.
      exists {| busy_start := 1748869200000; busy_end := 1748871000000 |}.
      split; [now left|]. cbn [busy_start busy_end]. vm_compute. split; reflexivity.
    + destruct (Hturn {| period_start := "10:40"; period_end := "11:10" |}
                  640 1748871600000
                  ltac:(vm_compute; auto) ltac:(vm_compute; auto)
                  eq_refl ltac:(vm_compute; reflexivity))
        as [_ [_ Hkeep]].
      apply Hkeep.
      intros [item [[<- | []] [Hlt _]]]. vm_compute in Hlt. discriminate.
Defined.

(** C5. A candidate whose start is at or before now plus [minAdvanceHours]
    is dropped whatever the calendar holds, and one that starts later is
    listed unless a busy interval drops it: every listed slot starts later,
    and with a free calendar the listing is exactly the candidates that start
    later.  The times of the periods are plain, the numbers of the
    configuration modest, and now plus [minAdvanceHours] and the ends of the
    candidates are times of [Date].  With a minimum advance of 4 hours and
    the clock at 08:00, the candidate at 12:00 is dropped and the candidate
    at 12:01 is listed. *)
Theorem C5_minimum_advance {L : DateLib} (env : Env) (w : World) (dateStr : string)
  (items : list BusyItem) (workingDay : WorkingHoursDay) :
  let config := readBookingConfig env in
  let minAllowedTime := clock env + advanceOf config * 60 * 60 * 1000 in
  let turn :=
    considerSlot dateStr (timezone config) (slotDurationMinutes config)
      (timeClip minAllowedTime)
      (map (expandBusy (slotBufferMinutes config * 60 * 1000)) items) in
  DayLookup env dateStr items (Some workingDay) ->
  enabled workingDay = true ->
  0 < slotDurationMinutes config ->
  modestConfig config = true ->
  plainPeriods (workPeriodsOf workingDay) = true ->
  inDateRange minAllowedTime = true ->
  candidatesResolve config dateStr (workPeriodsOf workingDay) = true ->
  (forall period m start,
     In period (workPeriodsOf workingDay) ->
     In m (candidatesOf period (slotDurationMinutes config)) ->
     slotStartAt dateStr (timezone config) m = Some start ->
     (start <= minAllowedTime -> turn m = Ret None)
     /\ (minAllowedTime < start ->
         overlapsBusy (slotBufferMinutes config) (slotDurationMinutes config)
           items start = false ->
         turn m = Ret (Some (slotOf m start))))
  /\ (exists slots,
        getAvailableSlots dateStr env w = (Ret slots, w)
        /\ (forall s, In s slots ->
              exists m start,
                slotStartAt dateStr (timezone config) m = Some start
                /\ s = slotOf m start /\ minAllowedTime < start)
        /\ (items = [] ->
            forall s,
              In s slots
              <-> exists period m start,
                    In period (workPeriodsOf workingDay)
                    /\ In m (candidatesOf period (slotDurationMinutes config))
                    /\ slotStartAt dateStr (timezone config) m = Some start
                    /\ s = slotOf m start
                    /\ minAllowedTime < start))
  /\ (advanceOf (readBookingConfig noonMondayEnv) = 4
      /\ @formatInTimeZone fixedZones (Some (clock noonMondayEnv))
           "America/Sao_Paulo" "HH:mm"
         = Ret "08:00"
      /\ map (fun m => timeText m) [720; 721] = ["12:00"; "12:01"]
      /\ map (fun period => candidatesOf period 30)
           [ {| period_start := "12:00"; period_end := "12:30" |};
             {| period_start := "12:01"; period_end := "12:31" |} ]
         = [[720]; [721]]
      /\ @getAvailableSlots fixedZones "2025-06-02" noonMondayEnv sampleWorld
         = (Ret [ {| slot_id := "2025-06-02T15:01:00.000Z"; slot_title := "12:01" |} ],
            sampleWorld)).
Proof.
  intros config minAllowedTime turn Hlookup Hen Hd Hmodest Hplain Hnow Hres.
  split; [|split].
  - intros period m start Hp Hm Hstart.
    pose proof (candidatesResolve_end config dateStr _ period m start Hres Hp Hm Hstart)
      as Hend.
    unfold turn, minAllowedTime.
    rewrite (considerSlot_resolved config (clock env) dateStr items Hnow m start Hstart Hend).
    unfold tooSoon. split.
    + intros Hle. apply Z.leb_le in Hle. now rewrite Hle.
    + intros Hlt Hfree. apply Z.leb_gt in Hlt. now rewrite Hlt, Hfree.
  - exists (listSlots config (clock env) dateStr items (workPeriodsOf workingDay)).
    split; [now apply getAvailableSlots_listSlots|]. split.
    + intros s Hin. apply In_listSlots in Hin.
      destruct Hin as [period [m [start [_ [_ [Hstart [Hs [Hsoon _]]]]]]]].
      exists m, start. repeat split; try assumption.
      unfold tooSoon in Hsoon. now apply Z.leb_gt.
    + intros -> s. rewrite In_listSlots. unfold tooSoon. fold minAllowedTime.
      split.
      * intros [period [m [start [Hp [Hm [Hstart [Hs [Hsoon _]]]]]]]].
        exists period, m, start. repeat split; try assumption. now apply Z.leb_gt.
      * intros [period [m [start [Hp [Hm [Hstart [Hs Hlate]]]]]]].
        exists period, m, start. repeat split; try assumption. now apply Z.leb_gt.
  - split; [reflexivity|]. split; [reflexivity|]. split; [reflexivity|].
    split; vm_compute; reflexivity.
Qed.

Lemma C5_minimum_advance_witness :
  considerSlot "2025-06-02" "America/Sao_Paulo" 30
    (timeClip (clock noonMondayEnv + 4 * 60 * 60 * 1000)) [] 720
  = Ret None
  /\ considerSlot "2025-06-02" "America/Sao_Paulo" 30
       (timeClip (clock noonMondayEnv + 4 * 60 * 60 * 1000)) [] 721
     = Ret (Some (slotOf 721 1748876460000)).
Proof.
  destruct (@C5_minimum_advance fixedZones noonMondayEnv sampleWorld "2025-06-02" []
              {| day := mon; enabled := true; wh_start := "09:00"; wh_end := "18:00";
                 wh_slots := [ {| period_start := "12:00"; period_end := "12:30" |};
                               {| period_start := "12:01"; period_end := "12:31" |} ] |})
    as [Hturn _].
  - apply (@dayLookup fixedZones noonMondayEnv "2025-06-02" _ _
             "primary" 1748833200000 1748919599000 (Some mon)
             (Some {| calendarId := Some "primary" |}));
      reflexivity.
  - reflexivity.
  - reflexivity.
  - reflexivity.
  - reflexivity.
  - reflexivity.
  - vm_compute. reflexivity.
  - split.
    + destruct (Hturn {| period_start := "12:00"; period_end := "12:30" |}
                  720 1748876400000 ltac:(vm_compute; auto) ltac:(vm_compute; auto) eq_refl)
        as [Hdrop _].
      apply Hdrop. vm_compute. discriminate.
    + destruct (Hturn {| period_start := "12:01"; period_end := "12:31" |}
                  721 1748876460000 ltac:(vm_compute; auto) ltac:(vm_compute; auto) eq_refl)
        as [_ Hkeep].
      apply Hkeep; vm_compute; reflexivity.
Defined.

(** ** The flipped initialization vector *)

Lemma flipByte_involutive (b : byte) : flipByte (flipByte b) = b.
Proof. destruct b; reflexivity. Qed.

Lemma flipByte_differs (b : byte) : flipByte b <> b.
Proof. destruct b; discriminate. Qed.

Lemma flipByte_complement (b : byte) : Byte.to_N (flipByte b) = (255 - Byte.to_N b)%N.
Proof. destruct b; reflexivity. Qed.

(** Each of the eight bits of the flipped byte is the negation of the bit. *)
Lemma flipByte_bits (b : byte) (bit : N) :
  (bit < 8)%N ->
  N.testbit (Byte.to_N (flipByte b)) bit = negb (N.testbit (Byte.to_N b) bit).
Proof.
  intros H.
  assert (Hbit : bit = 0%N \/ bit = 1%N \/ bit = 2%N \/ bit = 3%N
                 \/ bit = 4%N \/ bit = 5%N \/ bit = 6%N \/ bit = 7%N) by lia.
  destruct Hbit as [-> | [-> | [-> | [-> | [-> | [-> | [-> | ->]]]]]]];
    destruct b; reflexivity.
Qed.

Lemma flipIV_involutive (iv : list byte) : flipIV (flipIV iv) = iv.
Proof.
  unfold flipIV. rewrite map_map. rewrite <- (map_id iv) at 2.
  apply map_ext. exact flipByte_involutive.
Qed.

Lemma flipIV_length (iv : list byte) : List.length (flipIV iv) = List.length iv.
Proof. unfold flipIV. apply length_map. Qed.

Lemma flipIV_differs (iv : list byte) : iv <> [] -> flipIV iv <> iv.
Proof.
  destruct iv as [|b rest]; [congruence|]. intros _ H.
  cbn [flipIV map] in H. injection H as Hb _. exact (flipByte_differs b Hb).
Qed.

Lemma flipIV_nth (iv : list byte) (i : nat) (b : byte) :
  nth_error iv i = Some b -> nth_error (flipIV iv) i = Some (flipByte b).
Proof. intros H. unfold flipIV. now rewrite nth_error_map, H. Qed.

(** ** The stand-in primitives keep the laws *)

Lemma stripPrefix_app (front rest : list byte) :
  stripPrefix front (front ++ rest) = Some rest.
Proof.
  induction front as [|a front IH]; [reflexivity|].
  cbn [stripPrefix app]. now rewrite (byte_dec_lb (eq_refl a)).
Qed.

Lemma stripPrefix_Some (front l rest : list byte) :
  stripPrefix front l = Some rest -> l = (front ++ rest)%list.
Proof.
  revert l. induction front as [|a front IH]; intros l H.
  - cbn in H. now injection H as ->.
  - destruct l as [|b l]; [discriminate|]. cbn [stripPrefix] in H.
    destruct (Byte.eqb a b) eqn:E; [|discriminate].
    apply byte_dec_bl in E. subst b. cbn [app]. f_equal. now apply IH.
Qed.

Lemma app_same_length {A : Type} (a b x y : list A) :
  List.length a = List.length b -> (a ++ x = b ++ y)%list -> a = b.
Proof.
  revert b. induction a as [|h a IH]; intros [|k b] Hlen H;
    try discriminate; [reflexivity|].
  cbn in Hlen, H. injection H as -> H. f_equal. apply IH; [lia | exact H].
Qed.

Lemma standIn_lawful (known : list JSON) : CryptoLaws (standIn known).
Proof.
  constructor; cbn [base64Decode base64Encode gcmEncrypt gcmDecrypt standIn].
  - exact list_byte_of_string_of_list_byte.
  - intros key iv plain _ _. eexists. reflexivity.
  - intros key iv plain cipher H. unfold standInSeal in H. injection H as <-.
    unfold standInOpen. rewrite app_assoc. now rewrite stripPrefix_app.
  - intros key iv iv' plain cipher H Hlen Hne. unfold standInSeal in H.
    injection H as <-. unfold standInOpen.
    destruct (stripPrefix (key ++ iv') (key ++ iv ++ plain)) as [rest|] eqn:E.
    + exfalso. apply Hne. apply stripPrefix_Some in E.
      rewrite <- app_assoc in E. apply app_inv_head in E.
      symmetry. exact (app_same_length _ _ _ _ (eq_sym Hlen) E).
    + eexists. reflexivity.
Qed.

(** ** The endpoint *)

Section EndpointFacts.

Context {L : DateLib} {C : CryptoLib}.

Variables (env : Env) (w w1 : World) (body : RequestBody)
  (flowData wrappedKey vector pem : string).

Hypothesis present_data : presentText (encrypted_flow_data body) = Some flowData.
Hypothesis present_key : presentText (encrypted_aes_key body) = Some wrappedKey.
Hypothesis present_vector : presentText (initial_vector body) = Some vector.
Hypothesis loaded : loadPrivateKey env w = (Ret pem, w1).


(** A request that decrypts is answered with the payload of the handlers,
    encrypted with the key and the IV of the request. *)
Lemma POST_decrypted (decrypted : DecryptedRequest) (response : JSON) (w2 : World) :
  decryptRequest flowData wrappedKey vector pem = Ret decrypted ->
  isNull (decryptedBody decrypted) = false ->
  flowResponse (decryptedBody decrypted) env w1 = (Ret response, w2) ->
  POST body env w
  = (match encryptResponse response (aesKeyBuffer decrypted)
             (initialVectorBuffer decrypted) with
     | Ret text => Ret (TextResponse text 200 "text/plain")
     | Throw error =>
         Ret (JsonResponse (JObj [("error", JStr (messageOr "Erro interno" error))]) 500)
     | Hang => Hang
     end, w2).
Proof.
  intros Hdec Hnull Hflow. unfold POST, tryCatch.
  rewrite present_data, present_key, present_vector.
  unfold bind at 1. rewrite loaded, Hdec. cbv zeta. rewrite Hnull.
  unfold flowResponse in Hflow.
  destruct (isPing (decryptedBody decrypted)).
  - unfold ret in Hflow. injection Hflow as <- <-.
    unfold encrypted, bind, lift, ret.
    destruct (encryptResponse _ _ _); reflexivity.
  - unfold bind at 1. rewrite Hflow.
    unfold encrypted, bind, lift, ret.
    destruct (encryptResponse _ _ _); reflexivity.
Qed.

End EndpointFacts.

Lemma decryptRequest_Ret {C : CryptoLib} (flowData wrappedKey vector pem : string)
  (decrypted : DecryptedRequest) :
  decryptRequest flowData wrappedKey vector pem = Ret decrypted ->
  privateDecrypt pem (base64Decode wrappedKey) = Ret (aesKeyBuffer decrypted)
  /\ initialVectorBuffer decrypted = base64Decode vector.
Proof.
  unfold decryptRequest. intros H.
  destruct (privateDecrypt pem (base64Decode wrappedKey)) as [key | |];
    cbn [obind] in H; try discriminate.
  destruct (gcmDecrypt key (base64Decode vector) (base64Decode flowData)) as [plain | |];
    cbn [obind] in H; try discriminate.
  destruct (jsonParse (string_of_list_byte plain)) as [parsed | |];
    cbn [obind] in H; try discriminate.
  injection H as <-. split; reflexivity.
Qed.

(** C1. For a request that decrypts and the response the handlers give,
    [POST] returns the response encrypted under the session key of the request
    and the IV of the request with every bit flipped, over all its bytes; the
    peer, which decrypts under the flipped IV, reads that response, and it
    refuses a ciphertext made under the IV of the request as it came. *)
Theorem C1_response_iv_flipped {L : DateLib} {C : CryptoLib} (laws : CryptoLaws C)
  (env : Env) (w w1 w2 : World) (body : RequestBody)
  (flowData wrappedKey vector pem : string)
  (decrypted : DecryptedRequest) (response : JSON) :
  let requestIV := base64Decode vector in
  let key := aesKeyBuffer decrypted in
  let plain := list_byte_of_string (jsonStringify response) in
  presentText (encrypted_flow_data body) = Some flowData ->
  presentText (encrypted_aes_key body) = Some wrappedKey ->
  presentText (initial_vector body) = Some vector ->
  loadPrivateKey env w = (Ret pem, w1) ->
  decryptRequest flowData wrappedKey vector pem = Ret decrypted ->
  isNull (decryptedBody decrypted) = false ->
  flowResponse (decryptedBody decrypted) env w1 = (Ret response, w2) ->
  initialVectorBuffer decrypted = requestIV
  /\ List.length (flipIV requestIV) = List.length requestIV
  /\ (forall i b,
        nth_error requestIV i = Some b ->
        exists b',
          nth_error (flipIV requestIV) i = Some b'
          /\ forall bit, (bit < 8)%N ->
               N.testbit (Byte.to_N b') bit = negb (N.testbit (Byte.to_N b) bit))
  /\ (forall cipher,
        gcmEncrypt key (flipIV requestIV) plain = Ret cipher ->
        POST body env w = (Ret (TextResponse (base64Encode cipher) 200 "text/plain"), w2)
        /\ referenceDecrypt key requestIV (base64Encode cipher)
           = jsonParse (jsonStringify response))
  /\ (forall cipher,
        requestIV <> [] ->
        gcmEncrypt key requestIV plain = Ret cipher ->
        exists error,
          referenceDecrypt key requestIV (base64Encode cipher) = Throw error).
Proof.
  intros requestIV key plain Hdata Hkey Hvector Hload Hdec Hnull Hflow.
  destruct (decryptRequest_Ret _ _ _ _ _ Hdec) as [_ Hiv].
  split; [exact Hiv|]. split; [apply flipIV_length|]. split; [|split].
  - intros i b Hb. exists (flipByte b). split; [now apply flipIV_nth|].
    intros bit Hbit. now apply flipByte_bits.
  - intros cipher Hseal. split.
    + rewrite (POST_decrypted env w w1 body flowData wrappedKey vector pem
                 Hdata Hkey Hvector Hload decrypted response w2 Hdec Hnull Hflow).
      unfold encryptResponse. rewrite Hiv. fold requestIV key plain.
      rewrite Hseal. reflexivity.
    + unfold referenceDecrypt. rewrite (base64_roundtrip laws).
      rewrite (gcm_opens laws _ _ _ _ Hseal). cbn [obind].
      unfold plain. now rewrite string_of_list_byte_of_string.
  - intros cipher Hne Hseal. unfold referenceDecrypt.
    rewrite (base64_roundtrip laws).
    destruct (gcm_binds_iv laws key requestIV (flipIV requestIV) plain cipher Hseal
                (flipIV_length requestIV) (flipIV_differs requestIV Hne)) as [error Herr].
    exists error. now rewrite Herr.
Qed.

Lemma C1_response_iv_flipped_witness :
  @POST fixedZones sampleLib sampleBody sampleEnv sampleWorld
  = (Ret (TextResponse
            (string_of_list_byte
               (sampleKey ++ flipIV sampleIV
                ++ list_byte_of_string (printJSON pingResponse))%list)
            200 "text/plain"), sampleWorld)
  /\ exists error,
       @referenceDecrypt sampleLib sampleKey sampleIV
         (string_of_list_byte
            (sampleKey ++ sampleIV ++ list_byte_of_string (printJSON pingResponse))%list)
       = Throw error.
Proof.
  pose proof (@C1_response_iv_flipped fixedZones sampleLib (standIn_lawful [pingRequest])
                sampleEnv sampleWorld sampleWorld sampleWorld sampleBody
                (string_of_list_byte
                   (sampleKey ++ sampleIV
                    ++ list_byte_of_string (printJSON pingRequest))%list)
                (string_of_list_byte (list_byte_of_string "PRIVATE" ++ sampleKey)%list)
                (string_of_list_byte sampleIV) "PRIVATE"
                {| decryptedBody := pingRequest;
                   aesKeyBuffer := sampleKey;
                   initialVectorBuffer := sampleIV |}
                pingResponse
                eq_refl eq_refl eq_refl eq_refl eq_refl eq_refl eq_refl)
    as [_ [_ [_ [Hflipped Hplain]]]].
  split.
  - exact (proj1 (Hflipped (sampleKey ++ flipIV sampleIV
                            ++ list_byte_of_string (printJSON pingResponse))%list
                    eq_refl)).
  - apply (Hplain (sampleKey ++ sampleIV
                   ++ list_byte_of_string (printJSON pingResponse))%list).
    + discriminate.
    + reflexivity.
Defined.

(** C2. For a payload that survives its JSON text, a session key wrapped
    for the private key, and a key and an IV of 16 bytes: the envelope made
    by encrypting the payload with the flipped IV handed to [encryptResponse],
    sent with the original IV, decrypts to the payload, the session key and
    the original IV. *)
Theorem C2_round_trip {C : CryptoLib} (laws : CryptoLaws C) (p : JSON)
  (pem wrapped : string) (key iv : list byte) :
  privateDecrypt pem (base64Decode wrapped) = Ret key ->
  List.length key = 16%nat ->
  List.length iv = 16%nat ->
  jsonParse (jsonStringify p) = Ret p ->
  exists text,
    encryptResponse p key (flipIV iv) = Ret text
    /\ decryptRequest text wrapped (base64Encode iv) pem
       = Ret {| decryptedBody := p; aesKeyBuffer := key; initialVectorBuffer := iv |}.
Proof.
  intros Hunwrap Hkey Hiv Hjson.
  destruct (gcm_seals laws key iv (list_byte_of_string (jsonStringify p)) Hkey Hiv)
    as [cipher Hseal].
  exists (base64Encode cipher). split.
  - unfold encryptResponse. rewrite flipIV_involutive, Hseal. reflexivity.
  - unfold decryptRequest. rewrite Hunwrap. cbn [obind].
    rewrite !(base64_roundtrip laws).
    rewrite (gcm_opens laws _ _ _ _ Hseal). cbn [obind].
    rewrite string_of_list_byte_of_string, Hjson. reflexivity.
Qed.

Lemma C2_round_trip_witness :
  exists text,
    @encryptResponse sampleLib pingRequest sampleKey (flipIV sampleIV) = Ret text
    /\ @decryptRequest sampleLib text
         (string_of_list_byte (list_byte_of_string "PRIVATE" ++ sampleKey)%list)
         (string_of_list_byte sampleIV) "PRIVATE"
       = Ret {| decryptedBody := pingRequest;
                aesKeyBuffer := sampleKey;
                initialVectorBuffer := sampleIV |}.
Proof.
  apply (@C2_round_trip sampleLib (standIn_lawful [pingRequest]) pingRequest
           "PRIVATE"
           (string_of_list_byte (list_byte_of_string "PRIVATE" ++ sampleKey)%list)
           sampleKey sampleIV);
    reflexivity.
Defined.




(** * Part III. Further properties of the handlers and the endpoint *)

(** ** The dispatcher *)


(** X1. An error notification of the client, a payload whose [data] is
    an object with a key [error], is acknowledged and nothing else happens:
    whatever the action and the screen, no handler runs, no calendar is
    consulted and the world is left as it was. *)
Theorem X1_error_notification_acknowledged {L : DateLib} (env : Env) (w : World)
  (request data : JSON) :
  request <> JNull ->
  jsGet request "data" = Some data ->
  jsHasKey data "error" = true ->
  handleFlowAction request env w
  = (Ret (JObj [("data", JObj [("acknowledged", JBool true)])]), w).
Proof.
  intros Hnull Hdata Hkey. unfold handleFlowAction. rewrite Hdata.
  assert (Hobj : exists fields, data = JObj fields).
  { destruct data; try discriminate. eexists. reflexivity. }
  destruct Hobj as [fields ->]. cbn [truthy isObjectValue andb]. rewrite Hkey.
  destruct request; try reflexivity. congruence.
Qed.

Lemma X1_error_notification_acknowledged_witness :
  handleFlowAction
    (JObj [("action", JStr "data_exchange"); ("screen", JStr "CUSTOMER_INFO");
           ("data", JObj [("error", JStr "timeout"); ("customer_name", JStr "Ana")])])
    unconnectedEnv sampleWorld
  = (Ret (JObj [("data", JObj [("acknowledged", JBool true)])]), sampleWorld).
Proof.
  apply (@X1_error_notification_acknowledged fixedZones unconnectedEnv sampleWorld _
           (JObj [("error", JStr "timeout"); ("customer_name", JStr "Ana")]));
    [discriminate | reflexivity | reflexivity].
Defined.






(** X4. [BACK] falls back to the first screen: from any screen other
    than [CUSTOMER_INFO], and from [CUSTOMER_INFO] when the payload carries no
    date, the answer is the answer to [INIT]. *)
Theorem X4_back_is_init {L : DateLib} (env : Env) (w : World) (screen data : JSON) :
  screen <> JStr "CUSTOMER_INFO" \/ truthy (jsGet data "selected_date") = false ->
  handleBack screen data env w = handleInit env w.
Proof.
  intros H. unfold handleBack.
  destruct screen as [| | | name | |]; try reflexivity.
  destruct (String.eqb name "SELECT_TIME"); [reflexivity|].
  destruct (String.eqb name "CUSTOMER_INFO") eqn:E; [|reflexivity].
  apply String.eqb_eq in E. subst name.
  destruct H as [H | H]; [congruence|]. now rewrite H.
Qed.

Lemma X4_back_is_init_witness :
  handleBack (JStr "CUSTOMER_INFO") (JObj [("selected_slot", JStr "x")])
    sampleEnv sampleWorld
  = handleInit sampleEnv sampleWorld.
Proof.
  apply (@X4_back_is_init fixedZones sampleEnv sampleWorld (JStr "CUSTOMER_INFO")
           (JObj [("selected_slot", JStr "x")])).
  right. reflexivity.
Defined.

(** X5. [BACK] from [CUSTOMER_INFO] has no [try] of its own: with a
    date in the payload and no calendar connected, the exception of the
    listing leaves [handleFlowAction], and it is the guard of the endpoint that
    turns it into the error response. *)
Theorem X5_back_exception_escapes {L : DateLib} (env : Env) (w : World)
  (data : JSON) (calendarConfig : option GoogleCalendarConfig) :
  let request :=
    JObj [("action", JStr "BACK"); ("screen", JStr "CUSTOMER_INFO"); ("data", data)] in
  truthy (jsGet data "selected_date") = true ->
  jsHasKey data "error" = false ->
  getCalendarConfig env = Ret calendarConfig ->
  connectedCalendar calendarConfig = None ->
  handleFlowAction request env w = (Throw notConnected, w)
  /\ guardedFlowAction request env w
     = (Ret (createErrorResponse "Google Calendar nao conectado"), w).
Proof.
  intros request Hdate Hplain Hconfig Hnone.
  assert (Hobj : exists fields, data = JObj fields).
  { destruct data; try discriminate. eexists. reflexivity. }
  destruct Hobj as [fields ->].
  assert (Hrun : handleFlowAction request env w = (Throw notConnected, w)).
  { unfold handleFlowAction, request.
    cbn [jsGet objGet String.eqb Ascii.eqb Bool.eqb truthy isObjectValue andb orElse
         isEmptyString negb].
    cbn [jsHasKey] in Hplain. cbn [jsHasKey]. rewrite Hplain.
    unfold handleBack. cbn [String.eqb Ascii.eqb Bool.eqb].
    rewrite Hdate. unfold bind at 1.
    now rewrite (getAvailableSlots_unconnected env w _ calendarConfig Hconfig Hnone). }
  split; [exact Hrun|].
  unfold guardedFlowAction, tryCatch. rewrite Hrun. reflexivity.
Qed.

Lemma X5_back_exception_escapes_witness :
  guardedFlowAction
    (JObj [("action", JStr "BACK"); ("screen", JStr "CUSTOMER_INFO");
           ("data", JObj [("selected_date", JStr "2025-06-02")])])
    unconnectedEnv sampleWorld
  = (Ret (createErrorResponse "Google Calendar nao conectado"), sampleWorld).
Proof.
  apply (@X5_back_exception_escapes fixedZones unconnectedEnv sampleWorld
           (JObj [("selected_date", JStr "2025-06-02")]) None);
    reflexivity.
Defined.

(** X6. [SELECT_TIME] with a slot moves on to [CUSTOMER_INFO] and
    carries the slot, the service and the date of the payload forward; it
    reads nothing of the environment and leaves the world as it was. *)
Theorem X6_select_time_carries_draft {L : DateLib} (env : Env) (w : World)
  (data : JSON) :
  truthy (jsGet data "selected_slot") = true ->
  exists response,
    (forall env' w', handleDataExchange (JStr "SELECT_TIME") data env' w'
                     = (Ret response, w'))
    /\ responseScreen response = Some (JStr "CUSTOMER_INFO")
    /\ responseData response "selected_slot" = jsGet data "selected_slot"
    /\ responseData response "selected_service" = jsGet data "selected_service"
    /\ responseData response "selected_date" = jsGet data "selected_date".
Proof.
  intros Hslot. eexists. split.
  - intros env' w'. unfold handleDataExchange, tryCatch.
    cbn [String.eqb Ascii.eqb Bool.eqb]. unfold selectTime. rewrite Hslot. reflexivity.
  - destruct (jsGet data "selected_slot") as [slot|]; [|discriminate].
    destruct (jsGet data "selected_service"), (jsGet data "selected_date");
      repeat split.
Qed.

Lemma X6_select_time_carries_draft_witness :
  exists response,
    handleDataExchange (JStr "SELECT_TIME")
      (JObj [("selected_slot", JStr "2025-06-02T12:00:00.000Z")])
      unconnectedEnv sampleWorld
    = (Ret response, sampleWorld)
    /\ responseData response "selected_slot" = Some (JStr "2025-06-02T12:00:00.000Z").
Proof.
  destruct (@X6_select_time_carries_draft fixedZones unconnectedEnv sampleWorld
              (JObj [("selected_slot", JStr "2025-06-02T12:00:00.000Z")]) eq_refl)
    as [response [Hrun [_ [Hslot _]]]].
  exists response. split; [apply Hrun | exact Hslot].
Defined.

(** ** Booking *)

Section SameIn.

Variables env' env : Env.

Lemma bind_sameIn {A B : Type} (m : M A) (k : A -> M B) :
  sameIn env' env m -> (forall a, sameIn env' env (k a)) -> sameIn env' env (bind m k).
Proof.
  intros Hm Hk w. unfold bind. rewrite (Hm w).
  destruct (m env w) as [[a | e |] w1]; [apply Hk | reflexivity | reflexivity].
Qed.

Lemma tryCatch_sameIn {A : Type} (body : M A) (handler : Exn -> M A) :
  sameIn env' env body -> (forall e, sameIn env' env (handler e)) ->
  sameIn env' env (tryCatch body handler).
Proof.
  intros Hb Hh w. unfold tryCatch. rewrite (Hb w).
  destruct (body env w) as [[a | e |] w1]; [reflexivity | apply Hh | reflexivity].
Qed.

Lemma ret_sameIn {A : Type} (a : A) : sameIn env' env (ret a).
Proof. intros w. reflexivity. Qed.

Lemma lift_sameIn {A : Type} (o : Outcome A) : sameIn env' env (lift o).
Proof. intros w. reflexivity. Qed.

Lemma throw_sameIn {A : Type} (e : Exn) : sameIn env' env (@throw A e).
Proof. intros w. reflexivity. Qed.

Lemma modify_sameIn (f : World -> World) : sameIn env' env (modify f).
Proof. intros w. reflexivity. Qed.

End SameIn.

(** Steps through a computation, one bind at a time. *)
Ltac same_step :=
  first
    [ apply ret_sameIn
    | apply lift_sameIn
    | apply throw_sameIn
    | apply modify_sameIn
    | apply bind_sameIn; [ | intros ? ]
    | apply tryCatch_sameIn; [ | intros ? ]
    | match goal with
      | |- sameIn _ _ (match ?x with _ => _ end) => destruct x
      | |- sameIn _ _ (if ?x then _ else _) => destruct x
      end
    | (intros ?w; reflexivity) ].

Lemma createBookingEvent_same {L : DateLib} (env : Env) (now : Z)
  (busyTimes : BusyQuery -> Outcome (list BusyItem)) (params : BookingParams) :
  sameIn (withClockAndBusy env now busyTimes) env (createBookingEvent params).
Proof.
  unfold createBookingEvent, callCreateEvent, getCalendarBookingConfig.
  repeat same_step.
Qed.

(** X9. Booking looks neither at the busy times nor at the clock: the
    answer to [CUSTOMER_INFO] and the event created are the same whatever the
    calendar reports as busy and whatever the time is, so a slot that is taken
    or in the past is booked all the same. *)
Theorem X9_booking_ignores_busy_and_clock {L : DateLib} (env : Env) (w : World)
  (data : JSON) (now : Z) (busyTimes : BusyQuery -> Outcome (list BusyItem)) :
  handleDataExchange (JStr "CUSTOMER_INFO") data (withClockAndBusy env now busyTimes) w
  = handleDataExchange (JStr "CUSTOMER_INFO") data env w.
Proof.
  revert w. change (sameIn (withClockAndBusy env now busyTimes) env
                      (handleDataExchange (JStr "CUSTOMER_INFO") data)).
  unfold handleDataExchange. cbn [String.eqb Ascii.eqb Bool.eqb].
  apply tryCatch_sameIn; [|intros e; apply ret_sameIn].
  unfold customerInfo, getCalendarBookingConfig.
  repeat first [ apply createBookingEvent_same | same_step ].
Qed.






(** ** The endpoint, request by request *)

(** X10. [POST] never throws, and it answers with status 200 only for
    an encrypted body, sent as [text/plain]: every JSON answer carries status
    400, 421 or 500. *)
Theorem X10_post_answers {L : DateLib} {C : CryptoLib} (body : RequestBody)
  (env : Env) (w : World) :
  match fst (POST body env w) with
  | Ret (TextResponse _ status contentType) => status = 200 /\ contentType = "text/plain"
  | Ret (JsonResponse _ status) => status = 400 \/ status = 421 \/ status = 500
  | Throw _ => False
  | Hang => True
  end.
Proof.
  unfold POST, tryCatch.
  destruct (presentText (encrypted_flow_data body)) as [flowData|];
    [|cbn; auto].
  destruct (presentText (encrypted_aes_key body)) as [wrappedKey|];
    [|cbn; auto].
  destruct (presentText (initial_vector body)) as [vector|];
    [|cbn; auto].
  unfold bind at 1.
  destruct (loadPrivateKey env w) as [[pem | e |] w1]; [|cbn; auto|cbn; auto].
  destruct (decryptRequest flowData wrappedKey vector pem) as [decrypted | e |];
    [|cbn; auto|cbn; auto].
  cbv zeta.
  destruct (isNull (decryptedBody decrypted)); [cbn; auto|].
  destruct (isPing (decryptedBody decrypted)).
  - unfold encrypted, bind, lift, ret.
    destruct (encryptResponse pingResponse (aesKeyBuffer decrypted)
                (initialVectorBuffer decrypted)); cbn; auto.
  - unfold bind at 1.
    destruct (guardedFlowAction (decryptedBody decrypted) env w1)
      as [[response | e |] w2]; [|cbn; auto|cbn; auto].
    unfold encrypted, bind, lift, ret.
    destruct (encryptResponse response (aesKeyBuffer decrypted)
                (initialVectorBuffer decrypted)); cbn; auto.
Qed.



(** With no private key stored, the key is generated and both halves are
    stored, whatever becomes of the hand-over of the public half. *)
Lemma loadPrivateKey_generates (env : Env) (w : World) :
  presentText (privateKeySetting w) = None ->
  getWhatsAppCredentials env <> Hang ->
  (forall token phone,
     metaSetEncryptionPublicKey env token phone (publicKey (generateKeyPair env)) <> Hang) ->
  loadPrivateKey env w
  = (Ret (privateKey (generateKeyPair env)),
     {| calendarEvents := calendarEvents w;
        privateKeySetting := Some (privateKey (generateKeyPair env));
        publicKeySetting := Some (publicKey (generateKeyPair env)) |}).
Proof.
  intros Hnone Hcreds Hsync.
  unfold loadPrivateKey, bind at 1, gets. rewrite Hnone.
  unfold bootstrapKeys, bind, asks, modify, tryCatch, lift, ret.
  destruct (getWhatsAppCredentials env) as [[c|] | e |]; try reflexivity;
    [|contradiction].
  destruct (presentText (accessToken c)) as [token|]; [|reflexivity].
  destruct (presentText (phoneNumberId c)) as [phone|]; [|reflexivity].
  specialize (Hsync token phone).
  destruct (metaSetEncryptionPublicKey env token phone _) as [[] | e |];
    try reflexivity. contradiction.
Qed.

(** A private key that is stored is the key of the request, in whatever
    environment, and the world is left as it was. *)
Lemma loadPrivateKey_stored (env : Env) (w : World) (key : string) :
  presentText (privateKeySetting w) = Some key ->
  loadPrivateKey env w = (Ret key, w).
Proof.
  intros H. unfold loadPrivateKey, bind, gets, ret. now rewrite H.
Qed.

(** X12. The first request generates the keys and later requests keep
    them.  With no private key stored, the key is generated and both halves
    are stored, whether or not the public half reaches the platform (missing
    credentials or a failure there change nothing); from then on the stored
    key is used, in whatever environment, and no new pair is generated. *)
Theorem X12_keys_generated_once (env : Env) (w : World) :
  let pair := generateKeyPair env in
  let stored :=
    {| calendarEvents := calendarEvents w;
       privateKeySetting := Some (privateKey pair);
       publicKeySetting := Some (publicKey pair) |} in
  presentText (privateKeySetting w) = None ->
  isEmptyString (privateKey pair) = false ->
  getWhatsAppCredentials env <> Hang ->
  (forall token phone, metaSetEncryptionPublicKey env token phone (publicKey pair) <> Hang) ->
  loadPrivateKey env w = (Ret (privateKey pair), stored)
  /\ forall env', loadPrivateKey env' stored = (Ret (privateKey pair), stored).
Proof.
  intros pair stored Hnone Hkey Hcreds Hsync. split.
  - now apply loadPrivateKey_generates.
  - intros env'. apply loadPrivateKey_stored. unfold stored.
    cbn [privateKeySetting presentText]. now rewrite Hkey.
Qed.

Lemma X12_keys_generated_once_witness :
  loadPrivateKey unsyncedEnv keylessWorld = (Ret "PRIVATE", sampleWorld)
  /\ loadPrivateKey sampleEnv sampleWorld = (Ret "PRIVATE", sampleWorld).
Proof.
  destruct (X12_keys_generated_once unsyncedEnv keylessWorld eq_refl eq_refl
              ltac:(discriminate) ltac:(discriminate))
    as [Hfirst Hlater].
  split; [exact Hfirst | exact (Hlater sampleEnv)].
Defined.

(** X13. The health check is answered in ciphertext and by the endpoint
    alone: a request that decrypts to the action [ping] gets the encryption of
    [{data: {status: "active"}}] under the key and the IV of the request; no
    handler runs, so the answer is the same with or without a calendar. *)
Theorem X13_ping_encrypted {L : DateLib} {C : CryptoLib} (env : Env) (w w1 : World)
  (body : RequestBody) (flowData wrappedKey vector pem : string)
  (decrypted : DecryptedRequest) :
  presentText (encrypted_flow_data body) = Some flowData ->
  presentText (encrypted_aes_key body) = Some wrappedKey ->
  presentText (initial_vector body) = Some vector ->
  loadPrivateKey env w = (Ret pem, w1) ->
  decryptRequest flowData wrappedKey vector pem = Ret decrypted ->
  isPing (decryptedBody decrypted) = true ->
  POST body env w
  = (match encryptResponse pingResponse (aesKeyBuffer decrypted)
             (initialVectorBuffer decrypted) with
     | Ret text => Ret (TextResponse text 200 "text/plain")
     | Throw error =>
         Ret (JsonResponse (JObj [("error", JStr (messageOr "Erro interno" error))]) 500)
     | Hang => Hang
     end, w1).
Proof.
  intros Hdata Hkey Hvector Hload Hdec Hping.
  apply (POST_decrypted env w w1 body flowData wrappedKey vector pem
           Hdata Hkey Hvector Hload decrypted pingResponse w1 Hdec).
  - destruct (decryptedBody decrypted); try reflexivity. discriminate.
  - unfold flowResponse. now rewrite Hping.
Qed.

Lemma X13_ping_encrypted_witness :
  @POST fixedZones sampleLib sampleBody unconnectedEnv sampleWorld
  = @POST fixedZones sampleLib sampleBody sampleEnv sampleWorld.
Proof.
  rewrite (@X13_ping_encrypted fixedZones sampleLib unconnectedEnv sampleWorld sampleWorld
             sampleBody _ _ _ "PRIVATE"
             {| decryptedBody := pingRequest;
                aesKeyBuffer := sampleKey;
                initialVectorBuffer := sampleIV |}
             eq_refl eq_refl eq_refl eq_refl eq_refl eq_refl).
  rewrite (@X13_ping_encrypted fixedZones sampleLib sampleEnv sampleWorld sampleWorld
             sampleBody _ _ _ "PRIVATE"
             {| decryptedBody := pingRequest;
                aesKeyBuffer := sampleKey;
                initialVectorBuffer := sampleIV |}
             eq_refl eq_refl eq_refl eq_refl eq_refl eq_refl).
  reflexivity.
Defined.

(** ** Times of day and candidates *)

Lemma pad2Colon_check :
  forallb (fun n => negb (hasChar ":" (pad2 n))) (rangeZ 0 100) = true.
Proof. vm_cast_no_check (eq_refl true). Qed.

Lemma pad2_no_colon (n : Z) : 0 <= n <= 99 -> hasChar ":" (pad2 n) = false.
Proof.
  intros H. pose proof pad2Colon_check as Hc. rewrite forallb_forall in Hc.
  apply negb_true_iff. apply Hc. apply In_rangeZ. lia.
Qed.

(** X14. The label of a slot reads back as its minute of the day:
    [parseTimeToMinutes] undoes the [HH:mm] text that [getAvailableSlots]
    writes, for every minute from 0 up to 99 hours and 59 minutes. *)
Theorem X14_time_text_round_trip (minutes : Z) :
  0 <= minutes < 6000 ->
  parseTimeToMinutes (timeText minutes) = minutes.
Proof.
  intros H. unfold parseTimeToMinutes, timeText.
  assert (Hh : 0 <= minutes / 60 <= 99).
  { split; [apply Z.div_pos; lia|]. apply Z.lt_succ_r.
    apply Z.div_lt_upper_bound; lia. }
  assert (Hrem : Z.rem minutes 60 = minutes mod 60) by (apply Z.rem_mod_nonneg; lia).
  pose proof (Z.mod_pos_bound minutes 60 ltac:(lia)) as Hm.
  rewrite Hrem.
  change (":" ++ pad2 (minutes mod 60)) with (String ":" (pad2 (minutes mod 60))).
  rewrite split_app by (apply pad2_no_colon; lia).
  rewrite split_plain by (apply pad2_no_colon; lia).
  cbn [map nth_error].
  rewrite (readsBack_number _ _ (pad2_readsBack (minutes / 60) Hh)).
  rewrite (readsBack_number _ _ (pad2_readsBack (minutes mod 60) ltac:(lia))).
  cbn [orZero]. pose proof (Z.div_mod minutes 60 ltac:(lia)). lia.
Qed.

Lemma X14_time_text_round_trip_witness :
  parseTimeToMinutes (timeText 589) = 589.
Proof. apply X14_time_text_round_trip. lia. Defined.

Lemma In_candidateStarts (workStart workEnd slotDuration m : Z) :
  0 < slotDuration ->
  In m (candidateStarts workStart workEnd slotDuration)
  <-> exists k, 0 <= k /\ m = workStart + k * slotDuration /\ m + slotDuration <= workEnd.
Proof.
  intros Hd. unfold candidateStarts. rewrite in_map_iff. split.
  - intros [k [<- Hk]]. apply in_seq in Hk. exists (Z.of_nat k).
    split; [lia|]. split; [reflexivity|].
    assert (Hq : Z.of_nat k + 1 <= (workEnd - workStart) / slotDuration) by lia.
    assert (Hmul : slotDuration * ((workEnd - workStart) / slotDuration)
                   <= workEnd - workStart).
    { apply Z.mul_div_le. lia. }
    nia.
  - intros [k [Hk [-> Hle]]]. exists (Z.to_nat k). split; [lia|].
    apply in_seq. split; [lia|].
    assert (Hq : k + 1 <= (workEnd - workStart) / slotDuration).
    { apply Z.div_le_lower_bound; [lia|]. nia. }
    lia.
Qed.

(** X15. Every slot of a listing lies within one of the work periods of
    the day: it starts a whole number of slot durations after the start of
    the period, and it ends at the end of the period at the latest.  The
    times of the periods are plain, the numbers of the configuration modest,
    and the earliest start allowed and the ends of the candidates are times
    of [Date]. *)
Theorem X15_slots_within_periods {L : DateLib} (env : Env) (w : World)
  (dateStr : string) (items : list BusyItem) (workingDay : WorkingHoursDay)
  (slots : list Slot) (s : Slot) :
  let config := readBookingConfig env in
  DayLookup env dateStr items (Some workingDay) ->
  enabled workingDay = true ->
  0 < slotDurationMinutes config ->
  modestConfig config = true ->
  plainPeriods (workPeriodsOf workingDay) = true ->
  inDateRange (clock env + advanceOf config * 60 * 60 * 1000) = true ->
  candidatesResolve config dateStr (workPeriodsOf workingDay) = true ->
  getAvailableSlots dateStr env w = (Ret slots, w) ->
  In s slots ->
  exists period k m,
    In period (workPeriodsOf workingDay)
    /\ 0 <= k
    /\ m = parseTimeToMinutes (period_start period) + k * slotDurationMinutes config
    /\ m + slotDurationMinutes config <= parseTimeToMinutes (period_end period)
    /\ slot_title s = timeText m.
Proof.
  intros config Hlookup Hen Hd Hmodest Hplain Hnow Hres Hrun Hin.
  rewrite (getAvailableSlots_listSlots env w dateStr items workingDay Hlookup Hen Hd
             Hnow Hres) in Hrun.
  injection Hrun as <-.
  apply In_listSlots in Hin.
  destruct Hin as [period [m [start [Hp [Hm [_ [-> _]]]]]]].
  unfold candidatesOf in Hm. apply In_candidateStarts in Hm; [|exact Hd].
  destruct Hm as [k [Hk [Hmk Hle]]].
  exists period, k, m. repeat split; assumption.
Qed.

Lemma X15_slots_within_periods_witness :
  exists period k m,
    In period [ {| period_start := "09:00"; period_end := "18:00" |} ]
    /\ 0 <= k
    /\ m = parseTimeToMinutes (period_start period) + k * 30
    /\ m + 30 <= parseTimeToMinutes (period_end period)
    /\ "17:30" = timeText m.
Proof.
  apply (@X15_slots_within_periods fixedZones sampleEnv sampleWorld "2025-06-02" []
           (workday mon true "09:00" "18:00")
           (fst (let r := getAvailableSlots "2025-06-02" sampleEnv sampleWorld in
                 (match fst r with Ret l => l | _ => [] end, snd r)))
           {| slot_id := "2025-06-02T20:30:00.000Z"; slot_title := "17:30" |}).
  - apply (@dayLookup fixedZones sampleEnv "2025-06-02" _ _
             "primary" 1748833200000 1748919599000 (Some mon)
             (Some {| calendarId := Some "primary" |}));
      reflexivity.
  - reflexivity.
  - reflexivity.
  - reflexivity.
  - reflexivity.
  - reflexivity.
  - vm_compute. reflexivity.
  - vm_compute. reflexivity.
  - vm_compute. do 17 right. left. reflexivity.
Defined.

Lemma periodLoop_zero_duration {L : DateLib} (dateStr timeZone : string)
  (minAllowedTime : JsDate) (busy : list BusyWindow) (workEnd current : Z) (fuel : nat) :
  current <= workEnd ->
  slotStartAt dateStr timeZone current <> None ->
  forall slots : list Slot,
    periodLoop dateStr timeZone 0 minAllowedTime busy fuel workEnd current slots = Hang.
Proof.
  intros Hle Hres. induction fuel as [|fuel IH]; intros slots; [reflexivity|].
  cbn [periodLoop].
  assert (Hcond : (current + 0 <=? workEnd) = true) by (apply Z.leb_le; lia).
  rewrite Hcond.
  assert (Hturn : exists pushed,
             considerSlot dateStr timeZone 0 minAllowedTime busy current = Ret pushed).
  { unfold considerSlot.
    destruct (slotStartAt dateStr timeZone current) as [start|]; [|contradiction].
    destruct (timeLe (Some start) minAllowedTime); [eexists; reflexivity|].
    destruct (hasConflict busy (Some start) _); eexists; reflexivity. }
  destruct Hturn as [pushed ->]. cbn [obind].
  replace (current + 0) with current by lia. apply IH.
Qed.

(** X16. A slot duration of zero stops the listing for good: when the
    first work period of the day does not end before it starts and the
    library resolves its start, the [while] loop of [getAvailableSlots] turns
    on the same minute for ever and no listing is returned.  The times of the
    periods are plain. *)
Theorem X16_zero_duration_never_ends {L : DateLib} (env : Env) (w : World)
  (dateStr : string) (items : list BusyItem) (workingDay : WorkingHoursDay)
  (period : Period) (rest : list Period) :
  let config := readBookingConfig env in
  let workStart := parseTimeToMinutes (period_start period) in
  let workEnd := parseTimeToMinutes (period_end period) in
  DayLookup env dateStr items (Some workingDay) ->
  enabled workingDay = true ->
  workPeriodsOf workingDay = period :: rest ->
  plainPeriods (workPeriodsOf workingDay) = true ->
  slotDurationMinutes config = 0 ->
  workStart <= workEnd ->
  slotStartAt dateStr (timezone config) workStart <> None ->
  getAvailableSlots dateStr env w = (Hang, w).
Proof.
  intros config workStart workEnd Hlookup Hen Hperiods Hplain Hd Hle Hres.
  rewrite (getAvailableSlots_lookup env w dateStr items (Some workingDay) Hlookup).
  rewrite Hen, Hperiods. cbn [negb periodsLoop]. cbv zeta. fold config. rewrite Hd.
  rewrite periodLoop_zero_duration; [reflexivity | exact Hle | exact Hres].
Qed.

Lemma X16_zero_duration_never_ends_witness :
  getAvailableSlots "2025-06-02" zeroDurationEnv sampleWorld = (Hang, sampleWorld).
Proof.
  apply (@X16_zero_duration_never_ends fixedZones zeroDurationEnv sampleWorld
           "2025-06-02" [] (workday mon true "09:00" "18:00")
           {| period_start := "09:00"; period_end := "18:00" |} []).
  - apply (@dayLookup fixedZones zeroDurationEnv "2025-06-02" _ _
             "primary" 1748833200000 1748919599000 (Some mon)
             (Some {| calendarId := Some "primary" |}));
      reflexivity.
  - reflexivity.
  - reflexivity.
  - reflexivity.
  - reflexivity.
  - vm_compute. discriminate.
  - vm_compute. discriminate.
Defined.

(** X17. The picker and the listing agree on a closed day, where the
    library gives the start of the day the weekday of its date.  For a day
    of the picker's range whose weekday has no enabled entry in the working
    hours, missing entries included, the date is among the excluded dates of
    [getCalendarPickerData], which reckons the weekday in UTC; and when the
    library writes the weekday of the date for the start of that day in the
    configured zone, the listing of [getAvailableSlots] for the date is
    empty. *)
Theorem X17_closed_day_agreement {L : DateLib} (env : Env) (w : World) (y m d k : Z)
  (items : list BusyItem) (calendar : string) (dayStart dayEnd : Z)
  (calendarConfig : option GoogleCalendarConfig) :
  let config := readBookingConfig env in
  let horizon := match maxAdvanceDays config with Some n => n | None => 14 end in
  let today := days_from_civil y m d in
  let date := isoDateOfDay (today + k) in
  let weekday := weekdayOfDay (today + k) in
  formatInTimeZone (Some (clock env)) (timezone config) "yyyy-MM-dd"
  = Ret (isoDateText y m d) ->
  validCivil y m d = true ->
  100 <= y <= 9999 ->
  -100000000 <= today + horizon < 100000000 ->
  0 <= k <= horizon ->
  dayEnabled (findDay (workingHours config) (Some weekday)) = false ->
  getCalendarConfig env = Ret calendarConfig ->
  connectedCalendar calendarConfig = Some calendar ->
  fromZonedTime (date ++ "T00:00:00") (timezone config) = Some dayStart ->
  fromZonedTime (date ++ "T23:59:59") (timezone config) = Some dayEnd ->
  listBusyTimes env
    {| query_calendarId := calendar;
       timeMin := isoString dayStart;
       timeMax := isoString dayEnd;
       query_timeZone := timezone config |}
  = Ret items ->
  formatInTimeZone (Some dayStart) (timezone config) "i"
  = Ret (jsStringOfZ (isoDayNumber weekday)) ->
  exists picker,
    getCalendarPickerData env w = (Ret picker, w)
    /\ In date (unavailableDates picker)
    /\ getAvailableSlots date env w = (Ret [], w).
Proof.
  intros config horizon today date weekday Hfmt Hvalid Hy Hrange Hk Hclosed
    Hconfig Hconnected Hstart Hend Hbusy Hweekday.
  rewrite (getCalendarPickerData_dates env w y m d Hfmt Hvalid Hy Hrange).
  eexists. split; [reflexivity|]. cbn [unavailableDates].
  fold config. fold horizon. fold today. split.
  - apply In_closedDates. exists k. split; [now apply In_offsetsUpTo|].
    split; [reflexivity | exact Hclosed].
  - assert (Hkey : getWeekdayKey (Some dayStart) (timezone config) = Ret (Some weekday)).
    { unfold getWeekdayKey. rewrite Hweekday. cbn [obind].
      destruct weekday; reflexivity. }
    rewrite (getAvailableSlots_lookup env w date items
               (findDay (workingHours config) (Some weekday))
               (dayLookup env date items _ calendar dayStart dayEnd (Some weekday)
                  calendarConfig Hconfig Hconnected Hstart Hend Hbusy Hkey eq_refl)).
    destruct (findDay (workingHours config) (Some weekday)) as [entry|]; [|reflexivity].
    cbn [dayEnabled] in Hclosed. now rewrite Hclosed.
Qed.

Lemma X17_closed_day_agreement_witness :
  exists picker,
    getCalendarPickerData mondayOnlyEnv sampleWorld = (Ret picker, sampleWorld)
    /\ In "2025-06-03" (unavailableDates picker)
    /\ getAvailableSlots "2025-06-03" mondayOnlyEnv sampleWorld = (Ret [], sampleWorld).
Proof.
  apply (@X17_closed_day_agreement fixedZones mondayOnlyEnv sampleWorld 2025 6 1 2 []
           "primary" 1748919600000 1749005999000 (Some {| calendarId := Some "primary" |}));
    try reflexivity.
  - lia.
  - vm_compute. split; [discriminate | reflexivity].
  - vm_compute. split; discriminate.
Defined.

(** X18. The stored configuration is merged key by key, not day by day:
    stored working hours replace the default week as a whole, so a weekday
    they leave out is closed although the defaults open it, while a key that
    is not stored keeps its default. *)
Theorem X18_working_hours_replaced_whole (env : Env) (patch : ConfigPatch)
  (hours : list WorkingHoursDay) (wd : Weekday) :
  let config := readBookingConfig env in
  isSupabaseConfigured env = true ->
  bookingConfigSetting env = Some (Parsed patch) ->
  patch_workingHours patch = Some hours ->
  (forall h, In h hours -> day h <> wd) ->
  workingHours config = hours
  /\ dayEnabled (findDay (workingHours config) (Some wd)) = false
  /\ (patch_slotDurationMinutes patch = None -> slotDurationMinutes config = 30)
  /\ (patch_timezone patch = None -> timezone config = "America/Sao_Paulo").
Proof.
  intros config Hon Hstored Hhours Hmissing.
  assert (Hconfig : config = mergeConfig DEFAULT_CONFIG patch).
  { unfold config, readBookingConfig. now rewrite Hon, Hstored. }
  rewrite Hconfig. unfold mergeConfig. cbn [workingHours slotDurationMinutes timezone].
  rewrite Hhours. split; [reflexivity|]. split; [|split].
  - unfold findDay, dayEnabled.
    destruct (find (fun x => Weekday_eqb (day x) wd) hours) as [h|] eqn:E; [|reflexivity].
    apply find_some in E. destruct E as [Hin Heq]. apply Weekday_eqb_eq in Heq.
    exfalso. exact (Hmissing h Hin Heq).
  - intros ->. reflexivity.
  - intros ->. reflexivity.
Qed.

Lemma X18_working_hours_replaced_whole_witness :
  dayEnabled (findDay (workingHours (readBookingConfig mondayOnlyEnv)) (Some tue)) = false
  /\ dayEnabled (findDay (workingHours DEFAULT_CONFIG) (Some tue)) = true.
Proof.
  split; [|reflexivity].
  apply (X18_working_hours_replaced_whole mondayOnlyEnv
           {| patch_timezone := None;
              patch_slotDurationMinutes := None;
              patch_slotBufferMinutes := None;
              patch_workingHours := Some [ workday mon true "09:00" "12:00" ];
              patch_minAdvanceHours := None;
              patch_maxAdvanceDays := None;
              patch_allowSimultaneous := None |}
           [ workday mon true "09:00" "12:00" ] tue eq_refl eq_refl eq_refl).
  intros h [<- | []]. discriminate.
Defined.

(** ** What the handlers never read *)

Lemma bind_config_sameIn {A : Type} (env' env : Env) (k : CalendarBookingConfig -> M A) :
  k (readBookingConfig env') = k (readBookingConfig env) ->
  sameIn env' env (k (readBookingConfig env)) ->
  sameIn env' env (bind getCalendarBookingConfig k).
Proof.
  intros Hk Hsame w. unfold bind, getCalendarBookingConfig, asks.
  rewrite Hk. apply Hsame.
Qed.

Ltac config_step :=
  first
    [ apply bind_config_sameIn; [ reflexivity | cbn beta ]
    | same_step ].

Ltac by_stored_config env value :=
  destruct env as [now configured setting cal busy create pair creds sync];
  destruct configured; [ destruct setting as [[|patch]|] | ];
  try (intros ?w; reflexivity).

Lemma getCalendarPickerData_allow {L : DateLib} (env : Env) (value : option (option bool)) :
  sameIn (withAllowSimultaneous env value) env getCalendarPickerData.
Proof.
  by_stored_config env value; unfold getCalendarPickerData; repeat config_step.
Qed.

Lemma getAvailableSlots_allow {L : DateLib} (env : Env) (value : option (option bool))
  (dateStr : string) :
  sameIn (withAllowSimultaneous env value) env (getAvailableSlots dateStr).
Proof.
  by_stored_config env value; unfold getAvailableSlots; repeat config_step.
Qed.

Lemma createBookingEvent_allow {L : DateLib} (env : Env) (value : option (option bool))
  (params : BookingParams) :
  sameIn (withAllowSimultaneous env value) env (createBookingEvent params).
Proof.
  by_stored_config env value; unfold createBookingEvent, callCreateEvent;
    repeat config_step.
Qed.

Lemma handleInit_allow {L : DateLib} (env : Env) (value : option (option bool)) :
  sameIn (withAllowSimultaneous env value) env handleInit.
Proof.
  unfold handleInit.
  repeat first [ apply getCalendarPickerData_allow | same_step ].
Qed.

Lemma handleDataExchange_allow {L : DateLib} (env : Env) (value : option (option bool))
  (screen data : JSON) :
  sameIn (withAllowSimultaneous env value) env (handleDataExchange screen data).
Proof.
  pose proof (getCalendarPickerData_allow env value) as Hpicker.
  pose proof (getAvailableSlots_allow env value) as Hslots.
  pose proof (createBookingEvent_allow env value) as Hbooking.
  by_stored_config env value;
    unfold handleDataExchange, bookingStart, selectTime, customerInfo;
    repeat first [ apply Hpicker | apply Hslots | apply Hbooking | config_step ].
Qed.

Lemma handleBack_allow {L : DateLib} (env : Env) (value : option (option bool))
  (screen data : JSON) :
  sameIn (withAllowSimultaneous env value) env (handleBack screen data).
Proof.
  pose proof (handleInit_allow env value) as Hinit.
  pose proof (getAvailableSlots_allow env value) as Hslots.
  by_stored_config env value; unfold handleBack;
    repeat first [ apply Hinit | apply Hslots | config_step ].
Qed.

(** X19. [allowSimultaneous] is stored and never read: whatever value
    the configuration holds for it, every action gets the same answer and
    leaves the same world.  Nothing in the handlers refuses a second booking
    of a slot. *)
Theorem X19_allow_simultaneous_unread {L : DateLib} (env : Env) (w : World)
  (request : JSON) (value : option (option bool)) :
  handleFlowAction request (withAllowSimultaneous env value) w
  = handleFlowAction request env w.
Proof.
  revert w. change (sameIn (withAllowSimultaneous env value) env (handleFlowAction request)).
  unfold handleFlowAction.
  repeat first
    [ apply handleInit_allow
    | apply handleDataExchange_allow
    | apply handleBack_allow
    | same_step ].
Qed.

(** ** The first screen *)

Lemma getCalendarPickerData_world {L : DateLib} (env : Env) (w : World) :
  snd (getCalendarPickerData env w) = w.
Proof.
  unfold getCalendarPickerData, bind, getCalendarBookingConfig, asks, lift, ret.
  destruct (formatInTimeZone _ _ _) as [todayStr | e |]; try reflexivity.
  destruct (toISODate _) as [maxDateStr | e |]; try reflexivity.
  destruct (unavailableLoop _ _ _ _ _ _) as [unavailable | e |]; reflexivity.
Qed.

(** X20. [INIT] always answers and changes nothing: it never throws,
    the world is left as it was, and the answer is either the first screen,
    [BOOKING_START] with [has_error] false and the three services, or, when
    the date-picker data cannot be computed, the one fixed error response.
    A library that rejects the stored time zone is such a case. *)
Theorem X20_init_always_answers {L : DateLib} (env : Env) (w : World) :
  (exists outcome,
     handleInit env w = (outcome, w)
     /\ match outcome with
        | Ret response =>
            response = createErrorResponse "Erro ao carregar opcoes de agendamento"
            \/ (responseScreen response = Some (JStr "BOOKING_START")
                /\ responseData response "has_error" = Some (JBool false)
                /\ responseData response "services"
                   = Some (JArr [ JObj [("id", JStr "consulta"); ("title", JStr "Consulta")];
                                  JObj [("id", JStr "visita"); ("title", JStr "Visita")];
                                  JObj [("id", JStr "suporte"); ("title", JStr "Suporte")] ]))
        | Throw _ => False
        | Hang => True
        end)
  /\ (forall error,
        formatInTimeZone (Some (clock env)) (timezone (readBookingConfig env)) "yyyy-MM-dd"
        = Throw error ->
        handleInit env w
        = (Ret (createErrorResponse "Erro ao carregar opcoes de agendamento"), w)).
Proof.
  split.
  - unfold handleInit, tryCatch. unfold bind at 1.
    pose proof (getCalendarPickerData_world env w) as Hworld.
    destruct (getCalendarPickerData env w) as [[picker | e |] w1];
      cbn [snd] in Hworld; subst w1; eexists; (split; [reflexivity|]).
    + right. repeat split.
    + left. reflexivity.
    + exact I.
  - intros error Hfmt. unfold handleInit, tryCatch. unfold bind at 1.
    unfold getCalendarPickerData, bind, getCalendarBookingConfig, asks, lift.
    rewrite Hfmt. reflexivity.
Qed.

Lemma X20_init_always_answers_witness :
  handleInit unknownZoneEnv sampleWorld
  = (Ret (createErrorResponse "Erro ao carregar opcoes de agendamento"), sampleWorld).
Proof.
  apply (proj2 (@X20_init_always_answers fixedZones unknownZoneEnv sampleWorld)
           invalidTime).
  reflexivity.
Defined.

(** ** The route of the keys *)

Section KeysFacts.

Variable isValidPrivateKey : string -> bool.

Variable processEnv : ProcessEnv.

(** X21. Removing the keys and the endpoint.  [DELETE] stores empty
    texts, which the endpoint reads as no key: after it the probe of the
    endpoint says [not_configured], the route of the keys says not
    configured, and the next request to the endpoint generates and stores a
    new pair. *)
Theorem X21_delete_then_regenerate {L : DateLib} {C : CryptoLib} (env : Env)
  (store : KeysStore) (request : KeysRequest) :
  let removed := snd (keysDELETE env store) in
  isSupabaseConfigured env = true ->
  getWhatsAppCredentials env <> Hang ->
  (forall token phone,
     metaSetEncryptionPublicKey env token phone (publicKey (generateKeyPair env)) <> Hang) ->
  GET env (keysWorld removed)
  = (Ret (JsonResponse
            (JObj [ ("status", JStr "not_configured");
                    ("message",
                     JStr "Chave privada nao configurada. Configure em /settings/flows") ])
            200),
     keysWorld removed)
  /\ (exists body,
        keysGET isValidPrivateKey processEnv request env removed = JsonResponse (JObj body) 200
        /\ objGet "configured" body = Some (JBool false)
        /\ objGet "publicKey" body = Some JNull)
  /\ exists regenerated,
       loadPrivateKey env (keysWorld removed)
       = (Ret (privateKey (generateKeyPair env)), regenerated)
       /\ privateKeySetting regenerated = Some (privateKey (generateKeyPair env))
       /\ publicKeySetting regenerated = Some (publicKey (generateKeyPair env)).
Proof.
  intros removed Hon Hcreds Hsync.
  unfold removed, keysDELETE. rewrite Hon. cbn [negb snd].
  split; [reflexivity|]. split.
  - unfold keysGET. rewrite Hon. cbn [negb]. eexists. split; [reflexivity|].
    split; reflexivity.
  - eexists. split; [apply loadPrivateKey_generates; [reflexivity | exact Hcreds | exact Hsync]|].
    split; reflexivity.
Qed.

(** X22. Importing a pair.  When the body carries both keys and the
    private one is valid, [POST] stores the pair as given and generates
    nothing; the endpoint then decrypts with the imported key.  When the
    private key is not valid, the answer is status 400 and nothing is
    stored. *)
Theorem X22_import_key_pair (env : Env) (store : KeysStore) (request : KeysRequest)
  (importedPrivate importedPublic : string) :
  isSupabaseConfigured env = true ->
  presentText (bodyPrivateKey request) = Some importedPrivate ->
  presentText (bodyPublicKey request) = Some importedPublic ->
  (isValidPrivateKey importedPrivate = true ->
   let saved := snd (keysPOST isValidPrivateKey request env store) in
   privateKeySetting (keysWorld saved) = Some importedPrivate
   /\ publicKeySetting (keysWorld saved) = Some importedPublic
   /\ forall env', loadPrivateKey env' (keysWorld saved) = (Ret importedPrivate, keysWorld saved))
  /\ (isValidPrivateKey importedPrivate = false ->
      keysPOST isValidPrivateKey request env store
      = (JsonResponse (JObj [("error", JStr "Chave privada invalida")]) 400, store)).
Proof.
  intros Hon Hprivate Hpublic. split.
  - intros Hvalid saved. unfold saved, keysPOST.
    rewrite Hon, Hprivate, Hpublic, Hvalid. cbn [negb snd].
    assert (Hkeys : forall s,
               s = withKeys store importedPrivate importedPublic
               \/ (exists url, s = withEndpointUrl
                                     (withKeys store importedPrivate importedPublic) url) ->
               privateKeySetting (keysWorld s) = Some importedPrivate
               /\ publicKeySetting (keysWorld s) = Some importedPublic
               /\ forall env', loadPrivateKey env' (keysWorld s)
                               = (Ret importedPrivate, keysWorld s)).
    { intros s Hs.
      assert (Hp : privateKeySetting (keysWorld s) = Some importedPrivate)
        by (destruct Hs as [-> | [url ->]]; reflexivity).
      assert (Hq : publicKeySetting (keysWorld s) = Some importedPublic)
        by (destruct Hs as [-> | [url ->]]; reflexivity).
      split; [exact Hp|]. split; [exact Hq|].
      intros env'. apply loadPrivateKey_stored. rewrite Hp.
      unfold presentText in Hprivate |- *.
      destruct (bodyPrivateKey request) as [text|]; [|discriminate].
      destruct (isEmptyString text) eqn:E; [discriminate|].
      injection Hprivate as ->. now rewrite E. }
    apply Hkeys.
    destruct (presentText (resolveEndpointUrlFromRequest request)) as [url|];
      [|now left].
    destruct (negb (isLocalhostUrl (resolveEndpointUrlFromRequest request)));
      [right; now exists url | now left].
  - intros Hinvalid. unfold keysPOST. rewrite Hon, Hprivate, Hpublic, Hinvalid.
    reflexivity.
Qed.

(** X23. [POST] never stores an endpoint URL of the local machine: after
    it, the stored URL is the one the request resolves to, which names
    neither [localhost] nor [127.0.0.1], or it is what it was before. *)
Theorem X23_local_url_never_stored (env : Env) (store : KeysStore)
  (request : KeysRequest) :
  let saved := snd (keysPOST isValidPrivateKey request env store) in
  endpointUrlSetting saved = endpointUrlSetting store
  \/ (endpointUrlSetting saved = resolveEndpointUrlFromRequest request
      /\ isLocalhostUrl (endpointUrlSetting saved) = false).
Proof.
  intros saved. unfold saved, keysPOST.
  destruct (negb (isSupabaseConfigured env)); [now left|].
  destruct (match presentText (bodyPrivateKey request),
                  presentText (bodyPublicKey request) with
            | Some importedPrivate, Some importedPublic =>
                if negb (isValidPrivateKey importedPrivate) then None
                else Some (importedPrivate, importedPublic)
            | _, _ => Some (privateKey (generateKeyPair env), publicKey (generateKeyPair env))
            end) as [[privateKeyText publicKeyText]|]; [|now left].
  cbn [snd].
  destruct (presentText (resolveEndpointUrlFromRequest request)) as [url|] eqn:Hurl;
    [|now left].
  destruct (negb (isLocalhostUrl (resolveEndpointUrlFromRequest request))) eqn:Hlocal;
    [|now left].
  right. cbn [withEndpointUrl endpointUrlSetting].
  assert (Hsame : resolveEndpointUrlFromRequest request = Some url).
  { unfold presentText in Hurl.
    destruct (resolveEndpointUrlFromRequest request) as [text|]; [|discriminate].
    destruct (isEmptyString text); [discriminate|]. exact Hurl. }
  split; [now rewrite Hsame|].
  apply negb_true_iff in Hlocal. now rewrite <- Hsame.
Qed.

(** X24. The status of the keys never shows the private key: the answer
    of [GET] depends on the stored private key through its validity alone. *)
Theorem X24_status_hides_private_key (env : Env) (request : KeysRequest)
  (store store' : KeysStore) :
  publicKeySetting (keysWorld store') = publicKeySetting (keysWorld store) ->
  endpointUrlSetting store' = endpointUrlSetting store ->
  match presentText (privateKeySetting (keysWorld store')) with
  | Some key => isValidPrivateKey key
  | None => false
  end
  = match presentText (privateKeySetting (keysWorld store)) with
    | Some key => isValidPrivateKey key
    | None => false
    end ->
  keysGET isValidPrivateKey processEnv request env store'
  = keysGET isValidPrivateKey processEnv request env store.
Proof.
  intros Hpublic Hurl Hvalid. unfold keysGET.
  now rewrite Hpublic, Hurl, Hvalid.
Qed.

(** X25. A stored URL of the local machine is not offered to a request
    that comes through a public host: with no URL from the process
    environment, the answer of [GET] carries the URL of the request and names
    the header as its source. *)
Theorem X25_local_url_not_offered (env : Env) (request : KeysRequest)
  (store : KeysStore) (headerUrl : string) :
  isSupabaseConfigured env = true ->
  envEndpointUrlOf processEnv = None ->
  isLocalhostUrl (endpointUrlSetting store) = true ->
  resolveEndpointUrlFromRequest request = Some headerUrl ->
  isLocalhostUrl (Some headerUrl) = false ->
  exists body debug,
    keysGET isValidPrivateKey processEnv request env store = JsonResponse (JObj body) 200
    /\ objGet "endpointUrl" body = Some (JStr headerUrl)
    /\ objGet "debug" body = Some (JObj debug)
    /\ objGet "endpointSource" debug = Some (JStr "header").
Proof.
  intros Hon Henv Hstored Hheader Hpublic.
  assert (Hpresent : presentText (Some headerUrl) = Some headerUrl).
  { unfold resolveEndpointUrlFromRequest in Hheader.
    destruct (orText (forwardedHost request) (hostHeader request)) as [host|];
      [|discriminate].
    destruct (isEmptyString host); [discriminate|].
    injection Hheader as <-. cbn [presentText].
    destruct (presentText (forwardedProto request)) as [[|c proto]|]; reflexivity. }
  assert (Hstoredpresent : exists url, presentText (endpointUrlSetting store) = Some url).
  { unfold isLocalhostUrl in Hstored.
    destruct (presentText (endpointUrlSetting store)) as [url|]; [|discriminate].
    now exists url. }
  destruct Hstoredpresent as [url Hurl].
  unfold keysGET. rewrite Hon, Henv, Hheader. cbn [negb].
  assert (Hsafe : safeStoredUrl (endpointUrlSetting store) (Some headerUrl) = None).
  { unfold safeStoredUrl. now rewrite Hurl, Hpublic, Hstored. }
  rewrite Hsafe.
  assert (Hor : orNull (orText None (orText None (Some headerUrl))) = Some headerUrl).
  { unfold orNull, orText. cbn [presentText]. exact Hpresent. }
  rewrite Hor, Hpresent. cbn [presentText].
  eexists. eexists. split; [reflexivity|]. repeat split.
Qed.

End KeysFacts.

Lemma X21_delete_then_regenerate_witness :
  exists regenerated,
    loadPrivateKey storedEnv (keysWorld (snd (keysDELETE storedEnv sampleStore)))
    = (Ret "PRIVATE", regenerated)
    /\ privateKeySetting regenerated = Some "PRIVATE"
    /\ publicKeySetting regenerated = Some "PUBLIC".
Proof.
  exact (proj2 (proj2 (@X21_delete_then_regenerate knownKey noProcessEnv fixedZones
                         sampleLib storedEnv sampleStore siteRequest eq_refl
                         ltac:(discriminate) ltac:(discriminate)))).
Defined.

Lemma X22_import_key_pair_witness :
  keysPOST knownKey
    {| forwardedProto := None; forwardedHost := None; hostHeader := None;
       bodyPrivateKey := Some "not a key"; bodyPublicKey := Some "PUBLIC" |}
    storedEnv sampleStore
  = (JsonResponse (JObj [("error", JStr "Chave privada invalida")]) 400, sampleStore).
Proof.
  apply (proj2 (X22_import_key_pair knownKey storedEnv sampleStore
                  {| forwardedProto := None; forwardedHost := None; hostHeader := None;
                     bodyPrivateKey := Some "not a key"; bodyPublicKey := Some "PUBLIC" |}
                  "not a key" "PUBLIC" eq_refl eq_refl eq_refl)).
  reflexivity.
Defined.

Lemma X24_status_hides_private_key_witness :
  keysGET (fun _ => true) noProcessEnv siteRequest storedEnv
    {| keysWorld := {| calendarEvents := []; privateKeySetting := Some "ONE";
                       publicKeySetting := Some "PUBLIC" |};
       endpointUrlSetting := None |}
  = keysGET (fun _ => true) noProcessEnv siteRequest storedEnv
      {| keysWorld := {| calendarEvents := []; privateKeySetting := Some "OTHER";
                         publicKeySetting := Some "PUBLIC" |};
         endpointUrlSetting := None |}.
Proof.
  apply (X24_status_hides_private_key (fun _ => true) noProcessEnv storedEnv siteRequest);
    reflexivity.
Defined.

Lemma X25_local_url_not_offered_witness :
  exists body debug,
    keysGET knownKey noProcessEnv siteRequest storedEnv
      {| keysWorld := sampleWorld;
         endpointUrlSetting := Some "http://localhost:3000/api/flows/endpoint" |}
    = JsonResponse (JObj body) 200
    /\ objGet "endpointUrl" body = Some (JStr "https://zap.example.com/api/flows/endpoint")
    /\ objGet "debug" body = Some (JObj debug)
    /\ objGet "endpointSource" debug = Some (JStr "header").
Proof.
  apply (X25_local_url_not_offered knownKey noProcessEnv storedEnv siteRequest
           {| keysWorld := sampleWorld;
              endpointUrlSetting := Some "http://localhost:3000/api/flows/endpoint" |}
           "https://zap.example.com/api/flows/endpoint");
    reflexivity.
Defined.
